(** * MLCube [Shell] helpers: mounts, arguments and workspace synchronisation

    A shallow embedding of [mlcube/shell.py] (class [Shell]):
    [generate_mounts_and_args], [to_cli_args] and [sync_workspace], together
    with the parts of the Python standard library they call ([str] methods,
    [posixpath], and the file-system calls of [os], [shutil] and
    [distutils.dir_util]).

    Python exceptions are values of [Exn]; a computation is a function from a
    state to a result and a state, so that the effects performed before an
    exception is raised stay visible, as they do in Python. *)

From Stdlib Require Import String Ascii List Bool Arith ZArith Lia DecimalString.
Import ListNotations.
Open Scope list_scope.
Open Scope string_scope.

Set Implicit Arguments.

(* ===================================================================== *)
(** * Python strings *)
(* ===================================================================== *)

Module pystr.

(** [s.startswith(p)] *)
Definition startswith (s p : string) : bool := String.prefix p s.

(** [s.endswith(c)] for a one-character suffix. *)
Fixpoint endswith_char (s : string) (c : ascii) : bool :=
  match s with
  | EmptyString => false
  | String a EmptyString => Ascii.eqb a c
  | String _ r => endswith_char r c
  end.

(** [c.isspace()], a character being a code point below 256: tab, line
    feed, vertical tab, form feed, carriage return, the four separators
    0x1c-0x1f, the space, the next-line control 0x85 and the no-break space
    0xa0. *)
Definition isspace (c : ascii) : bool :=
  let n := nat_of_ascii c in
  ((9 <=? n)%nat && (n <=? 13)%nat) || ((28 <=? n)%nat && (n <=? 32)%nat)
  || (n =? 133)%nat || (n =? 160)%nat.

Fixpoint lstrip (s : string) : string :=
  match s with
  | EmptyString => EmptyString
  | String a r => if isspace a then lstrip r else s
  end.

Fixpoint rstrip (s : string) : string :=
  match s with
  | EmptyString => EmptyString
  | String a r =>
      let r' := rstrip r in
      if (r' =? "") && isspace a then EmptyString else String a r'
  end.

(** [s.strip()] *)
Definition strip (s : string) : string := rstrip (lstrip s).

(** [s.rstrip(c)] for a single character [c]. *)
Fixpoint rstrip_char (c : ascii) (s : string) : string :=
  match s with
  | EmptyString => EmptyString
  | String a r =>
      let r' := rstrip_char c r in
      if (r' =? "") && Ascii.eqb a c then EmptyString else String a r'
  end.

(** [s == c * len(s)] *)
Fixpoint all_char (c : ascii) (s : string) : bool :=
  match s with
  | EmptyString => true
  | String a r => Ascii.eqb a c && all_char c r
  end.

(** [s.split(c)]: never empty, [''.split(c) == ['']]. *)
Fixpoint split (c : ascii) (s : string) : list string :=
  match s with
  | EmptyString => [EmptyString]
  | String a r =>
      if Ascii.eqb a c then EmptyString :: split c r
      else match split c r with
           | [] => [String a EmptyString]
           | w :: ws => String a w :: ws
           end
  end.

(** [sep.join(l)] *)
Definition join (sep : string) (l : list string) : string := String.concat sep l.

(** [c * n] *)
Fixpoint repeat_char (c : ascii) (n : nat) : string :=
  match n with
  | O => EmptyString
  | S k => String c (repeat_char c k)
  end.

(** ['{}'.format(n)] for a non-negative [int]. *)
Definition of_nat (n : nat) : string := NilZero.string_of_uint (Nat.to_uint n).

(** [(s[:i], s[i:])] with [i = s.rfind(c) + 1]. *)
Fixpoint rpartition (c : ascii) (s : string) : string * string :=
  match s with
  | EmptyString => (EmptyString, EmptyString)
  | String a r =>
      let (h, t) := rpartition c r in
      if (h =? "") && negb (Ascii.eqb a c) then (EmptyString, String a t)
      else (String a h, t)
  end.

End pystr.

(* ===================================================================== *)
(** * Exceptions and results *)
(* ===================================================================== *)

(** The four places where [shell.py] raises [ConfigurationError]. *)
Inductive ConfigurationReason : Type :=
| InvalidIO            (* "Invalid IO = ..." *)
| TypeIsInvalid        (* "... Type is invalid." *)
| TypeIsUnknown        (* "... Type is unknown." *)
| TypeNotIdentified.   (* "... Type is unknown and unable to identify it (...)." *)

Inductive Exn : Type :=
| ConfigurationError (why : ConfigurationReason)
| NotImplementedError
| ValueError (msg : string)
| RuntimeError (msg arg : string)
| KeyError (key : string)
| OSError
| DistutilsFileError.

Inductive Res (A : Type) : Type :=
| Ok (a : A)
| Raise (e : Exn).
Arguments Ok {A} a.
Arguments Raise {A} e.

(** Pure code that may raise. *)
Definition rbind {A B} (r : Res A) (k : A -> Res B) : Res B :=
  match r with
  | Ok a => k a
  | Raise e => Raise e
  end.

(* ===================================================================== *)
(** * posixpath *)
(* ===================================================================== *)

Module posixpath.

Definition sep : ascii := "/"%char.

Definition isabs (p : string) : bool := pystr.startswith p "/".

(** [os.path.join(a, b)] *)
Definition join (a b : string) : string :=
  if pystr.startswith b "/" then b
  else if (a =? "") || pystr.endswith_char a sep then a ++ b
  else a ++ "/" ++ b.

(** [os.path.split(p)] *)
Definition split (p : string) : string * string :=
  let (head, tail) := pystr.rpartition sep p in
  let head :=
    if negb (head =? "") && negb (pystr.all_char sep head)
    then pystr.rstrip_char sep head else head in
  (head, tail).

(** [os.path.basename(p)] *)
Definition basename (p : string) : string := snd (pystr.rpartition sep p).

(** [os.path.dirname(p)] *)
Definition dirname (p : string) : string := fst (split p).

Definition is_nil {A} (l : list A) : bool :=
  match l with [] => true | _ => false end.

(** One round of the loop of [normpath] over the components. *)
Definition normpath_step (initial_slashes : nat) (new_comps : list string)
           (comp : string) : list string :=
  if (comp =? "") || (comp =? ".") then new_comps
  else if negb (comp =? "..")
          || ((initial_slashes =? 0)%nat && is_nil new_comps)
          || (negb (is_nil new_comps) && (last new_comps "" =? ".."))
       then (new_comps ++ [comp])%list
       else if negb (is_nil new_comps) then removelast new_comps
            else new_comps.

(** [os.path.normpath(path)] *)
Definition normpath (path : string) : string :=
  if path =? "" then "." else
  let initial_slashes :=
    if pystr.startswith path "/" then
      if pystr.startswith path "//" && negb (pystr.startswith path "///")
      then 2 else 1
    else 0 in
  let comps := fold_left (normpath_step initial_slashes) (pystr.split sep path) [] in
  let path' := pystr.repeat_char sep initial_slashes ++ pystr.join "/" comps in
  if path' =? "" then "." else path'.

(** [os.path.abspath(path)] with the current directory [cwd]. *)
Definition abspath (cwd path : string) : string :=
  normpath (if isabs path then path else join cwd path).

(** The components [commonpath] compares: empty ones and [.] dropped. *)
Definition comps (p : string) : list string :=
  filter (fun c => negb (c =? "") && negb (c =? ".")) (pystr.split sep p).

Fixpoint common_prefix (a b : list string) : list string :=
  match a, b with
  | x :: a', y :: b' => if x =? y then x :: common_prefix a' b' else []
  | _, _ => []
  end.

(** [os.path.commonpath(paths)].  Python takes the common prefix of the
    least and the greatest component list, which is the common prefix of
    all of them. *)
Definition commonpath (paths : list string) : Res string :=
  match paths with
  | [] => Raise (ValueError "commonpath() arg is an empty sequence")
  | p :: ps =>
      if forallb (fun q => Bool.eqb (isabs q) (isabs p)) ps then
        let common := fold_left common_prefix (map comps ps) (comps p) in
        Ok ((if isabs p then "/" else "") ++ pystr.join "/" common)
      else Raise (ValueError "Can't mix absolute and relative paths")
  end.

End posixpath.


(* ===================================================================== *)
(** * Python dictionaries *)
(* ===================================================================== *)

(** A [dict] with string keys keeps its items in insertion order: an
    association list in which a key occurs once. *)
Module pydict.

Definition dict (V : Type) : Type := list (string * V).

(** [d.get(k)] *)
Fixpoint get {V} (d : dict V) (k : string) : option V :=
  match d with
  | [] => None
  | (k', v) :: r => if k' =? k then Some v else get r k
  end.

(** [k in d] *)
Definition mem {V} (d : dict V) (k : string) : bool :=
  match get d k with Some _ => true | None => false end.

(** [d.get(k, v)] *)
Definition get_default {V} (d : dict V) (k : string) (v : V) : V :=
  match get d k with Some x => x | None => v end.

(** [d[k] = v]: the value of an old key is replaced where it stands, a new
    key goes to the end. *)
Fixpoint set {V} (d : dict V) (k : string) (v : V) : dict V :=
  match d with
  | [] => [(k, v)]
  | (k', v') :: r => if k' =? k then (k', v) :: r else (k', v') :: set r k v
  end.

Definition keys {V} (d : dict V) : list string := map fst d.

End pydict.
Import pydict.

(* ===================================================================== *)
(** * Configuration *)
(* ===================================================================== *)

(** Modelled from the spec: [mlcube.config.ParameterType] is not part of the
    sources at hand.  The spec gives the enumeration UNKNOWN, FILE, DIRECTORY;
    a declaration read from a manifest may carry any other text, which
    [is_valid] rejects. *)
Inductive ParameterType : Type :=
| UNKNOWN
| FILE
| DIRECTORY
| OtherParameterType (text : string).

Definition ParameterType_is_valid (ty : ParameterType) : bool :=
  match ty with
  | OtherParameterType _ => false
  | _ => true
  end.

(** Modelled from the spec: [mlcube.config.IOType], the enumeration INPUT,
    OUTPUT, with [is_valid] rejecting anything else. *)
Inductive IOType : Type :=
| INPUT
| OUTPUT
| OtherIOType (text : string).

Definition IOType_is_valid (io : IOType) : bool :=
  match io with
  | OtherIOType _ => false
  | _ => true
  end.

(** The fields of the configuration that [shell.py] reads or writes. *)
Record ParamDef : Type := { type : ParameterType; default : string }.

Record Parameters : Type := { inputs : dict ParamDef; outputs : dict ParamDef }.

Record Task : Type := { parameters : Parameters }.

Record Runtime : Type := { rt_workspace : string; rt_root : string }.

(** [workspace] is the top-level key that [sync_workspace] sets on its copy;
    it may be absent. *)
Record Cube : Type :=
  { runtime : Runtime; workspace : option string; tasks : dict Task }.

(* ===================================================================== *)
(** * Computations: state and exceptions *)
(* ===================================================================== *)

Definition M (S A : Type) : Type := S -> Res A * S.

Definition ret {S A} (a : A) : M S A := fun s => (Ok a, s).

Definition raise {S A} (e : Exn) : M S A := fun s => (Raise e, s).

Definition bind {S A B} (m : M S A) (k : A -> M S B) : M S B :=
  fun s => match m s with
           | (Ok a, s') => k a s'
           | (Raise e, s') => (Raise e, s')
           end.

Definition lift {S A} (r : Res A) : M S A := fun s => (r, s).

Declare Scope py_scope.
Delimit Scope py_scope with py.
Notation "x <- c ;; k" := (bind c (fun x => k))
  (at level 61, c at next level, right associativity) : py_scope.
Notation "c ;; k" := (bind c (fun _ => k))
  (at level 61, right associativity) : py_scope.
Open Scope py_scope.

(** [for x in l: body(x)]; [continue] is the body returning. *)
Fixpoint for_each {S A} (l : list A) (body : A -> M S unit) : M S unit :=
  match l with
  | [] => ret tt
  | x :: r => body x ;; for_each r body
  end.

(* ===================================================================== *)
(** * The host file system *)
(* ===================================================================== *)

(** What the code asks of the operating system.  A call that raises returns
    [None]; the exception is the caller's to name: [OSError] (or a subclass)
    for the calls of [os] and [shutil], [DistutilsFileError] for [copy_tree].
    Nothing is assumed of the calls beyond the three laws, so what is proved
    below holds on any host: with links, permissions, or full disks. *)
Class FileSystem (FS : Type) : Type :=
  { os_getcwd : FS -> string;
    os_path_exists : FS -> string -> bool;
    os_path_isdir : FS -> string -> bool;
    os_path_isfile : FS -> string -> bool;
    os_path_samefile : FS -> string -> string -> option bool;
    (** [os.makedirs(path, exist_ok=True)] *)
    os_makedirs : FS -> string -> option FS;
    (** [shutil.copy(src, dst)] *)
    shutil_copy : FS -> string -> string -> option FS;
    (** [distutils.dir_util.copy_tree(src, dst)] *)
    dir_util_copy_tree : FS -> string -> string -> option FS;
    isdir_exists : forall fs p, os_path_isdir fs p = true -> os_path_exists fs p = true;
    isfile_exists : forall fs p, os_path_isfile fs p = true -> os_path_exists fs p = true;
    isdir_not_isfile : forall fs p, os_path_isdir fs p = true -> os_path_isfile fs p = false }.

(* ===================================================================== *)
(** * [Shell.generate_mounts_and_args] *)
(* ===================================================================== *)

(** The variables [_generate] closes over, and the host file system. *)
Record GenState (FS : Type) : Type :=
  { g_fs : FS; g_mounts : dict string; g_args : list string }.

Section Generate.

Context {FS : Type} `{FileSystem FS}.

Definition gen_isdir (p : string) : M (GenState FS) bool :=
  fun s => (Ok (os_path_isdir (g_fs s) p), s).

Definition gen_isfile (p : string) : M (GenState FS) bool :=
  fun s => (Ok (os_path_isfile (g_fs s) p), s).

Definition gen_makedirs (p : string) : M (GenState FS) unit :=
  fun s => match os_makedirs (g_fs s) p with
           | Some fs' => (Ok tt, {| g_fs := fs'; g_mounts := g_mounts s; g_args := g_args s |})
           | None => (Raise OSError, s)
           end.

(** [mounts[host] = mounts.get(host, '/mlcube_io{}/{}'.format(len(mounts), name))] *)
Definition register (host name : string) : M (GenState FS) unit :=
  fun s =>
    let mounts := g_mounts s in
    let fresh := "/mlcube_io" ++ pystr.of_nat (length mounts) ++ "/" ++ name in
    (Ok tt, {| g_fs := g_fs s;
               g_mounts := set mounts host (get_default mounts host fresh);
               g_args := g_args s |}).

(** [mounts[host]] *)
Definition mounts_getitem (host : string) : M (GenState FS) string :=
  fun s => match get (g_mounts s) host with
           | Some c => (Ok c, s)
           | None => (Raise (KeyError host), s)
           end.

(** [args.append(a)] *)
Definition args_append (a : string) : M (GenState FS) unit :=
  fun s => (Ok tt, {| g_fs := g_fs s; g_mounts := g_mounts s;
                      g_args := (g_args s ++ [a])%list |}).

(** Lines 81-93: the type a parameter is processed with.  The source stores
    it in [_param_def.type]; every declaration is visited once in a call,
    so the rest of the call sees it only through the two tests that
    follow, and it is returned here. *)
Definition resolve_type (_io : IOType) (ty : ParameterType) (_host_path : string)
  : M (GenState FS) ParameterType :=
  match ty with
  | UNKNOWN =>
      match _io with
      | OUTPUT => raise (ConfigurationError TypeIsUnknown)
      | _ =>
          d <- gen_isdir _host_path ;;
          if d then ret DIRECTORY
          else f <- gen_isfile _host_path ;;
               if f then ret FILE
               else raise (ConfigurationError TypeNotIdentified)
      end
  | _ => ret ty
  end.

(** The body of the loop of [_generate]. *)
Definition _generate_param (mlcube : Cube) (_io : IOType) (p : string * ParamDef)
  : M (GenState FS) unit :=
  let (_param_name, _param_def) := p in
  if negb (ParameterType_is_valid (type _param_def))
  then raise (ConfigurationError TypeIsInvalid)
  else
    let _host_path := posixpath.join (rt_workspace (runtime mlcube)) (default _param_def) in
    ty <- resolve_type _io (type _param_def) _host_path ;;
    match ty with
    | DIRECTORY =>
        gen_makedirs _host_path ;;
        register _host_path (posixpath.basename _host_path) ;;
        c <- mounts_getitem _host_path ;;
        args_append ("--" ++ _param_name ++ "=" ++ c)
    | FILE =>
        let (_host_path, _file_name) := posixpath.split _host_path in
        gen_makedirs _host_path ;;
        register _host_path _host_path ;;
        c <- mounts_getitem _host_path ;;
        args_append ("--" ++ _param_name ++ "=" ++ (c ++ "/" ++ _file_name))
    | _ => ret tt
    end.

Definition _generate (mlcube : Cube) (_params : dict ParamDef) (_io : IOType)
  : M (GenState FS) unit :=
  if negb (IOType_is_valid _io) then raise (ConfigurationError InvalidIO)
  else for_each _params (_generate_param mlcube _io).

Definition generate_mounts_and_args (mlcube : Cube) (task : string)
  : M FS (dict string * list string) :=
  fun fs =>
    match get (tasks mlcube) task with
    | None => (Raise (KeyError task), fs)
    | Some t =>
        let params := parameters t in
        match (_generate mlcube (inputs params) INPUT ;;
               _generate mlcube (outputs params) OUTPUT)
                {| g_fs := fs; g_mounts := []; g_args := [task] |} with
        | (Ok _, s) => (Ok (g_mounts s, g_args s), g_fs s)
        | (Raise e, s) => (Raise e, g_fs s)
        end
    end.

(** ** [Shell.to_cli_args] is below, after the section: it touches no state. *)

End Generate.

(* ===================================================================== *)
(** * [Shell.to_cli_args] *)
(* ===================================================================== *)

(** What an f-string writes for a value: [format(v, '')]. *)
Class PyFormat (V : Type) : Type := { format : V -> string }.

#[export] Instance PyFormat_str : PyFormat string := { format := fun s => s }.
#[export] Instance PyFormat_int : PyFormat Z :=
  { format := fun z => NilZero.string_of_int (Z.to_int z) }.

Definition to_cli_args {V} `{PyFormat V} (args : dict V) (sep : string)
           (parent_arg : option string) : string :=
  let parent_arg :=
    match parent_arg with
    | None => ""
    | Some p => if p =? "" then "" else p ++ " "
    end in
  pystr.join " " (map (fun kv => parent_arg ++ fst kv ++ sep ++ format (snd kv)) args).

(* ===================================================================== *)
(** * [Shell.sync_workspace] *)
(* ===================================================================== *)

(** Configuration objects live in a store and are passed by reference. *)
Definition ref : Type := nat.

Record World (FS : Type) : Type := { w_fs : FS; w_heap : list Cube }.

Fixpoint list_update {A} (l : list A) (i : nat) (x : A) : list A :=
  match l, i with
  | [], _ => []
  | _ :: r, O => x :: r
  | y :: r, S j => y :: list_update r j x
  end.

(** A reference the store does not hold.  Python has no such thing: the case
    keeps [deref] total, and [sync_workspace_never_dangling] shows that a
    call given a configuration of the store does not take it. *)
Definition dangling : Exn := RuntimeError "dangling reference" "".

Section Sync.

Context {FS : Type} `{FileSystem FS}.

Definition deref (r : ref) : M (World FS) Cube :=
  fun w => match nth_error (w_heap w) r with
           | Some c => (Ok c, w)
           | None => (Raise dangling, w)
           end.

(** [copy.deepcopy(obj)]: a new object with the same content. *)
Definition deepcopy (r : ref) : M (World FS) ref :=
  fun w => match nth_error (w_heap w) r with
           | Some c => (Ok (length (w_heap w)),
                        {| w_fs := w_fs w; w_heap := (w_heap w ++ [c])%list |})
           | None => (Raise dangling, w)
           end.

(** An assignment to an attribute of the object behind [r]. *)
Definition setattr (r : ref) (f : Cube -> Cube) : M (World FS) unit :=
  fun w => match nth_error (w_heap w) r with
           | Some c => (Ok tt, {| w_fs := w_fs w; w_heap := list_update (w_heap w) r (f c) |})
           | None => (Raise dangling, w)
           end.

Definition set_runtime_workspace (v : string) (c : Cube) : Cube :=
  {| runtime := {| rt_workspace := v; rt_root := rt_root (runtime c) |};
     workspace := workspace c; tasks := tasks c |}.

Definition set_workspace (v : string) (c : Cube) : Cube :=
  {| runtime := runtime c; workspace := Some v; tasks := tasks c |}.

Definition read {A} (f : FS -> A) : M (World FS) A :=
  fun w => (Ok (f (w_fs w)), w).

(** A call of [os] or [shutil] that changes the host: what fails there is
    raised as [OSError]. *)
Definition effect (f : FS -> option FS) : M (World FS) unit :=
  fun w => match f (w_fs w) with
           | Some fs' => (Ok tt, {| w_fs := fs'; w_heap := w_heap w |})
           | None => (Raise OSError, w)
           end.

(** A call into [distutils]: what fails there is raised as
    [DistutilsFileError], which is no [OSError]. *)
Definition effect_distutils (f : FS -> option FS) : M (World FS) unit :=
  fun w => match f (w_fs w) with
           | Some fs' => (Ok tt, {| w_fs := fs'; w_heap := w_heap w |})
           | None => (Raise DistutilsFileError, w)
           end.

Definition os_path_abspath (p : string) : M (World FS) string :=
  read (fun fs => posixpath.abspath (os_getcwd fs) p).

Definition samefile (a b : string) : M (World FS) bool :=
  fun w => match os_path_samefile (w_fs w) a b with
           | Some r => (Ok r, w)
           | None => (Raise OSError, w)
           end.

Definition _storage_not_supported (_uri : string) : Res string :=
  let _uri := pystr.strip _uri in
  if pystr.startswith _uri "storage:" then Raise NotImplementedError else Ok _uri.

Definition _is_inside_workspace (_workspace _artifact : string) : Res bool :=
  rbind (posixpath.commonpath [_workspace]) (fun a =>
  rbind (posixpath.commonpath [_workspace; _artifact]) (fun b =>
  Ok (a =? b))).

(** [_is_ok]; its first two arguments only feed the log and are left out. *)
Definition _is_ok (_workspace _artifact : string) (_must_exist : bool)
  : M (World FS) bool :=
  inside <- lift (_is_inside_workspace _workspace _artifact) ;;
  if negb inside then ret false
  else
    e <- read (fun fs => os_path_exists fs _artifact) ;;
    if _must_exist && negb e then ret false
    else if negb _must_exist && e then ret false
         else ret true.

(** The inner loop of [_is_task_output], over the outputs of one task. *)
Fixpoint _is_output_of (target_workspace _target_artifact : string)
         (outs : dict ParamDef) : Res bool :=
  match outs with
  | [] => Ok false
  | (_, _output_param_def) :: rest =>
      rbind (_storage_not_supported (default _output_param_def)) (fun u =>
      if _target_artifact =? posixpath.join target_workspace u then Ok true
      else _is_output_of target_workspace _target_artifact rest)
  end.

(** The outer loop, over the tasks. *)
Fixpoint _is_output_of_tasks (target_workspace _target_artifact : string)
         (ts : dict Task) : Res bool :=
  match ts with
  | [] => Ok false
  | (_, _task_def) :: rest =>
      rbind (_is_output_of target_workspace _target_artifact
               (outputs (parameters _task_def))) (fun found =>
      if found then Ok true
      else _is_output_of_tasks target_workspace _target_artifact rest)
  end.

(** [_is_task_output]; [target_mlcube] and [target_workspace], which the
    source closes over, are arguments, and the name of the input, which only
    feeds the log, is left out. *)
Definition _is_task_output (target_mlcube : ref) (target_workspace _target_artifact : string)
  : M (World FS) bool :=
  cube <- deref target_mlcube ;;
  lift (_is_output_of_tasks target_workspace _target_artifact (tasks cube)).

(** The body of the loop over the inputs (lines 209-226). *)
Definition sync_input (target_mlcube : ref) (target_workspace source_workspace : string)
           (p : string * ParamDef) : M (World FS) unit :=
  let (input_name, input_def) := p in
  u <- lift (_storage_not_supported (default input_def)) ;;
  let source_uri := posixpath.join source_workspace u in
  ok <- _is_ok source_workspace source_uri true ;;
  if negb ok then ret tt
  else
    u' <- lift (_storage_not_supported (default input_def)) ;;
    let target_uri := posixpath.join target_workspace u' in
    ok' <- _is_ok target_workspace target_uri false ;;
    if negb ok' then ret tt
    else
      out <- _is_task_output target_mlcube target_workspace target_uri ;;
      if out then ret tt
      else
        f <- read (fun fs => os_path_isfile fs source_uri) ;;
        if f then
          effect (fun fs => os_makedirs fs (posixpath.dirname target_uri)) ;;
          effect (fun fs => shutil_copy fs source_uri target_uri)
        else
          d <- read (fun fs => os_path_isdir fs source_uri) ;;
          if d then effect_distutils (fun fs => dir_util_copy_tree fs source_uri target_uri)
          else raise (RuntimeError "Unknown artifact type (%s)" source_uri).

(** [sync_workspace]; what it writes to the log is left out. *)
Definition sync_workspace (target_mlcube : ref) (task : string) : M (World FS) unit :=
  cube <- deref target_mlcube ;;
  ws <- lift (_storage_not_supported (rt_workspace (runtime cube))) ;;
  target_workspace <- os_path_abspath ws ;;
  effect (fun fs => os_makedirs fs target_workspace) ;;
  cube <- deref target_mlcube ;;
  source_workspace <- os_path_abspath (posixpath.join (rt_root (runtime cube)) "workspace") ;;
  e <- read (fun fs => os_path_exists fs source_workspace) ;;
  if negb e then ret tt
  else
    same <- samefile target_workspace source_workspace ;;
    if same then ret tt
    else
      cube <- deref target_mlcube ;;
      if negb (mem (tasks cube) task)
      then raise (ValueError ("Task does not exist: " ++ task))
      else
        source_mlcube <- deepcopy target_mlcube ;;
        setattr source_mlcube (set_runtime_workspace source_workspace) ;;
        setattr source_mlcube (set_workspace source_workspace) ;;
        cube <- deref target_mlcube ;;
        match get (tasks cube) task with
        | None => raise (KeyError task)
        | Some t =>
            for_each (inputs (parameters t))
                     (sync_input target_mlcube target_workspace source_workspace)
        end.

End Sync.

(* ===================================================================== *)
(** * A file system in memory *)
(* ===================================================================== *)

(** A small host to run the code on: a table from absolute paths to nodes.
    A path is looked up by its components, the empty ones and [.] dropped;
    [..] and links are not resolved, and nothing is ever denied. *)
Module memfs.

Inductive Node : Type :=
| Dir
| File (content : string).

Record t : Type := { cwd : string; nodes : dict Node }.

Definition components (fs : t) (p : string) : list string :=
  posixpath.comps (if posixpath.isabs p then p else posixpath.join (cwd fs) p).

Definition key_of (cs : list string) : string := "/" ++ pystr.join "/" cs.

Definition key (fs : t) (p : string) : string := key_of (components fs p).

Definition lookup_key (ns : dict Node) (k : string) : option Node :=
  if k =? "/" then Some Dir else get ns k.

Definition lookup (fs : t) (p : string) : option Node :=
  if p =? "" then None else lookup_key (nodes fs) (key fs p).

Definition exists_ (fs : t) (p : string) : bool :=
  match lookup fs p with Some _ => true | None => false end.

Definition isdir (fs : t) (p : string) : bool :=
  match lookup fs p with Some Dir => true | _ => false end.

Definition isfile (fs : t) (p : string) : bool :=
  match lookup fs p with Some (File _) => true | _ => false end.

Definition samefile (fs : t) (a b : string) : option bool :=
  if exists_ fs a && exists_ fs b then Some (key fs a =? key fs b) else None.

(** The keys of a path and of the directories above it, outermost first. *)
Fixpoint ancestors (above cs : list string) : list string :=
  match cs with
  | [] => []
  | c :: r => key_of (above ++ [c]) :: ancestors (above ++ [c]) r
  end.

Definition mkdir_step (acc : option (dict Node)) (k : string) : option (dict Node) :=
  match acc with
  | None => None
  | Some ns =>
      match lookup_key ns k with
      | Some Dir => Some ns
      | Some (File _) => None
      | None => Some (set ns k Dir)
      end
  end.

Definition makedirs_nodes (ns : dict Node) (cs : list string) : option (dict Node) :=
  fold_left mkdir_step (ancestors [] cs) (Some ns).

Definition makedirs (fs : t) (p : string) : option t :=
  if p =? "" then None
  else match makedirs_nodes (nodes fs) (components fs p) with
       | Some ns => Some {| cwd := cwd fs; nodes := ns |}
       | None => None
       end.

(** [shutil.copy]: into [dst] when that is a directory; the directory the
    file goes to must exist. *)
Definition copy (fs : t) (src dst : string) : option t :=
  match lookup fs src with
  | Some (File c) =>
      let dst := if isdir fs dst then posixpath.join dst (posixpath.basename src) else dst in
      let cs := components fs dst in
      match lookup_key (nodes fs) (key_of (removelast cs)), lookup fs dst with
      | Some Dir, Some Dir => None
      | Some Dir, _ => Some {| cwd := cwd fs; nodes := set (nodes fs) (key_of cs) (File c) |}
      | _, _ => None
      end
  | _ => None
  end.

(** One entry of the source tree written below [dst]. *)
Definition copy_entry (src dst : string) (acc : option (dict Node))
           (e : string * Node) : option (dict Node) :=
  match acc with
  | None => None
  | Some ns =>
      let (k, n) := e in
      if pystr.startswith k (src ++ "/") then
        let k' := dst ++ String.substring (String.length src) (String.length k) k in
        match n, get ns k' with
        | Dir, Some (File _) => None
        | Dir, Some Dir => Some ns
        | File _, Some Dir => None
        | _, _ => Some (set ns k' n)
        end
      else Some ns
  end.

Definition copy_tree (fs : t) (src dst : string) : option t :=
  if isdir fs src then
    match makedirs fs dst with
    | Some fs' =>
        match fold_left (copy_entry (key fs src) (key fs dst)) (nodes fs) (Some (nodes fs')) with
        | Some ns => Some {| cwd := cwd fs; nodes := ns |}
        | None => None
        end
    | None => None
    end
  else None.

End memfs.

#[export, refine] Instance memfs_FileSystem : FileSystem memfs.t :=
  {| os_getcwd := memfs.cwd;
     os_path_exists := memfs.exists_;
     os_path_isdir := memfs.isdir;
     os_path_isfile := memfs.isfile;
     os_path_samefile := memfs.samefile;
     os_makedirs := memfs.makedirs;
     shutil_copy := memfs.copy;
     dir_util_copy_tree := memfs.copy_tree |}.
Proof.
  all: intros fs p; unfold memfs.isdir, memfs.isfile, memfs.exists_;
    destruct (memfs.lookup fs p) as [[|]|]; congruence.
Defined.

(* ===================================================================== *)
(** * Vocabulary of the statements *)
(* ===================================================================== *)

(** The rendering the formatter is documented with: the parent flag and a
    space when there is a flag (an empty one counts as none, as [not
    parent_arg] has it), then key, separator and value. *)
Definition rendered_pair {V} `{PyFormat V} (parent_flag : option string)
           (separator : string) (pair : string * V) : string :=
  match parent_flag with
  | None | Some EmptyString => fst pair ++ separator ++ format (snd pair)
  | Some flag => flag ++ " " ++ fst pair ++ separator ++ format (snd pair)
  end.

(** The pairs written one after the other, a space between two of them. *)
Fixpoint space_joined (items : list string) : string :=
  match items with
  | [] => ""
  | [x] => x
  | x :: rest => x ++ " " ++ space_joined rest
  end.


(** What processing one parameter asks of the mount table: the host
    directory to mount, the name given to it below the slot when it is first
    registered, and what follows the container path in the argument. *)
Record Registration : Type :=
  { reg_param : string; reg_host : string; reg_tail : string; reg_suffix : string }.

(** A DIRECTORY parameter: the host path itself, named by its basename. *)
Definition as_directory (ws : string) (p : string * ParamDef) : Registration :=
  let host_path := posixpath.join ws (default (snd p)) in
  {| reg_param := fst p; reg_host := host_path;
     reg_tail := posixpath.basename host_path; reg_suffix := "" |}.

(** A FILE parameter: the containing directory, named by its whole path. *)
Definition as_file (ws : string) (p : string * ParamDef) : Registration :=
  let host_path := posixpath.join ws (default (snd p)) in
  {| reg_param := fst p; reg_host := fst (posixpath.split host_path);
     reg_tail := fst (posixpath.split host_path);
     reg_suffix := "/" ++ snd (posixpath.split host_path) |}.

(** [/mlcube_io{slot}/{tail}] *)
Definition fresh_mount (slot : nat) (tail : string) : string :=
  "/mlcube_io" ++ pystr.of_nat slot ++ "/" ++ tail.

(** The table after a registration: unchanged when the host directory is
    there, and otherwise one entry longer, the new slot numbered by the size
    of the table. *)
Definition registered (mounts : dict string) (r : Registration) : dict string :=
  match get mounts (reg_host r) with
  | Some _ => mounts
  | None => (mounts ++ [(reg_host r, fresh_mount (length mounts) (reg_tail r))])%list
  end.

(** [--{name}={container path}{suffix}], the container path read in [mounts]. *)
Definition argument (mounts : dict string) (r : Registration) : string :=
  "--" ++ reg_param r ++ "=" ++ get_default mounts (reg_host r) "" ++ reg_suffix r.

(** What the two branches of the loop body have in common: the directory is
    made, registered, and the argument written. *)
Definition process {FS} `{FileSystem FS} (r : Registration) : M (GenState FS) unit :=
  fun s => match os_makedirs (g_fs s) (reg_host r) with
           | Some fs' =>
               (Ok tt, {| g_fs := fs';
                          g_mounts := registered (g_mounts s) r;
                          g_args := (g_args s ++ [argument (registered (g_mounts s) r) r])%list |})
           | None => (Raise OSError, s)
           end.

(** The [i]-th entry of the table, counted from 0, is in slot [i]. *)
Definition slots_in_order (mounts : dict string) : Prop :=
  forall i host c,
    nth_error mounts i = Some (host, c) ->
    exists tail, c = fresh_mount i tail.

(** A path with the storage scheme, as [_storage_not_supported] tells it. *)
Definition storage_uri (uri : string) : bool :=
  pystr.startswith (pystr.strip uri) "storage:".


(** From a state in [I], the computation returns in [Q] or raises in [E]. *)
Definition triple {S A} (I : S -> Prop) (m : M S A) (Q : A -> S -> Prop)
           (E : Exn -> Prop) : Prop :=
  forall s, I s -> match m s with
                   | (Ok a, s') => Q a s'
                   | (Raise e, _) => E e
                   end.

(** A computation that leaves the store of configuration objects alone. *)
Definition heap_stable {FS A} (m : M (World FS) A) : Prop :=
  forall w, w_heap (snd (m w)) = w_heap w.

(** How a round of the loop over the inputs ends when it copies nothing. *)
Definition quiet (r : Res unit) : Prop :=
  r = Ok tt \/ r = Raise NotImplementedError \/ exists m, r = Raise (ValueError m).

(** A parameter is processed as a directory or as a file. *)
Definition registration_of (ws : string) (p : string * ParamDef) (r : Registration) : Prop :=
  r = as_directory ws p \/ r = as_file ws p.

(* ===================================================================== *)
(** * Hosts and cubes to run the code on *)
(* ===================================================================== *)

Module examples.

(** A host with nothing on it. *)
Definition bare_host : memfs.t := {| memfs.cwd := "/home/user"; memfs.nodes := [] |}.

(** Two inputs and two outputs; each output shares its directory with an
    input. *)
Definition train_cube : Cube :=
  {| runtime := {| rt_workspace := "/ws"; rt_root := "/cube" |};
     workspace := None;
     tasks :=
       [("train",
         {| parameters :=
              {| inputs := [("input_data", {| type := DIRECTORY; default := "data/train" |});
                            ("cfg", {| type := FILE; default := "config/params.yaml" |})];
                 outputs := [("model", {| type := DIRECTORY; default := "data/train" |});
                             ("log", {| type := FILE; default := "config/log.txt" |})] |} |})] |}.

Definition train_mounts : dict string :=
  [("/ws/data/train", "/mlcube_io0/train"); ("/ws/config", "/mlcube_io1//ws/config")].

Definition train_args : list string :=
  ["train"; "--input_data=/mlcube_io0/train"; "--cfg=/mlcube_io1//ws/config/params.yaml";
   "--model=/mlcube_io0/train"; "--log=/mlcube_io1//ws/config/log.txt"].

Definition train_host : memfs.t :=
  {| memfs.cwd := "/home/user";
     memfs.nodes := [("/ws", memfs.Dir); ("/ws/data", memfs.Dir);
                     ("/ws/data/train", memfs.Dir); ("/ws/config", memfs.Dir)] |}.

(** The state of [_generate] when the call on [train_cube] starts. *)
Definition train_start : GenState memfs.t :=
  {| g_fs := bare_host; g_mounts := []; g_args := ["train"] |}.

(** The host and the state after the first round of that call. *)
Definition train_host_1 : memfs.t :=
  {| memfs.cwd := "/home/user";
     memfs.nodes := [("/ws", memfs.Dir); ("/ws/data", memfs.Dir);
                     ("/ws/data/train", memfs.Dir)] |}.

Definition train_state_1 : GenState memfs.t :=
  {| g_fs := train_host_1;
     g_mounts := [("/ws/data/train", "/mlcube_io0/train")];
     g_args := ["train"; "--input_data=/mlcube_io0/train"] |}.

Definition train_state_2 : GenState memfs.t :=
  {| g_fs := train_host;
     g_mounts := train_mounts;
     g_args := ["train"; "--input_data=/mlcube_io0/train";
                "--cfg=/mlcube_io1//ws/config/params.yaml"] |}.

(** A host on which [/ws/in] is a directory and [/ws/in/a.csv] a file. *)
Definition data_host : memfs.t :=
  {| memfs.cwd := "/home/user";
     memfs.nodes := [("/ws", memfs.Dir); ("/ws/in", memfs.Dir);
                     ("/ws/in/a.csv", memfs.File "1,2")] |}.

Definition data_start : GenState memfs.t :=
  {| g_fs := data_host; g_mounts := []; g_args := ["train"] |}.

(** A task whose output does not say what it is. *)
Definition untyped_output_cube : Cube :=
  {| runtime := {| rt_workspace := "/ws"; rt_root := "/cube" |};
     workspace := None;
     tasks :=
       [("train",
         {| parameters :=
              {| inputs := [("data", {| type := UNKNOWN; default := "in" |})];
                 outputs := [("model", {| type := UNKNOWN; default := "out" |})] |} |})] |}.

(** A cube whose bundled workspace holds a file, a directory and an old
    model; the directory is in the target workspace already, and the model
    is what the task writes. *)
Definition sync_cube : Cube :=
  {| runtime := {| rt_workspace := "/tgt"; rt_root := "/cube" |};
     workspace := None;
     tasks :=
       [("train",
         {| parameters :=
              {| inputs := [("a", {| type := FILE; default := "a.txt" |});
                            ("d", {| type := DIRECTORY; default := "d" |});
                            ("m", {| type := DIRECTORY; default := "model" |})];
                 outputs := [("model", {| type := DIRECTORY; default := "model" |})] |} |})] |}.

Definition sync_host : memfs.t :=
  {| memfs.cwd := "/home/user";
     memfs.nodes := [("/cube", memfs.Dir); ("/cube/workspace", memfs.Dir);
                     ("/cube/workspace/a.txt", memfs.File "hello");
                     ("/cube/workspace/d", memfs.Dir);
                     ("/cube/workspace/d/x", memfs.File "x");
                     ("/cube/workspace/model", memfs.Dir);
                     ("/cube/workspace/model/weights", memfs.File "old");
                     ("/tgt", memfs.Dir); ("/tgt/d", memfs.Dir)] |}.

Definition sync_world : World memfs.t := {| w_fs := sync_host; w_heap := [sync_cube] |}.




(** A cube kept in [/tgt] on a host where nothing is in the way. *)
Definition fresh_world : World memfs.t :=
  {| w_fs := {| memfs.cwd := "/home/user";
                memfs.nodes := [("/cube", memfs.Dir); ("/cube/workspace", memfs.Dir);
                                ("/cube/workspace/a.txt", memfs.File "hello")] |};
     w_heap := [sync_cube] |}.

End examples.

(* ===================================================================== *)
(** * More vocabulary for [generate_mounts_and_args] *)
(* ===================================================================== *)

(** The host after the directories of the registrations have been made, one
    after the other. *)
Fixpoint made {FS} `{FileSystem FS} (fs : FS) (regs : list Registration) : option FS :=
  match regs with
  | [] => Some fs
  | r :: rest =>
      match os_makedirs fs (reg_host r) with
      | Some fs' => made fs' rest
      | None => None
      end
  end.

(** A registration a parameter can give rise to, by its declared type: a
    declared FILE is not processed as a directory, nor a declared DIRECTORY
    as a file. *)
Definition registered_as (ws : string) (p : string * ParamDef) (r : Registration) : Prop :=
  (r = as_directory ws p /\ type (snd p) <> FILE)
  \/ (r = as_file ws p /\ type (snd p) <> DIRECTORY).

(** The parameter says what it is. *)
Definition declared (p : string * ParamDef) : Prop :=
  type (snd p) = FILE \/ type (snd p) = DIRECTORY.

(** The registration of a parameter that says what it is. *)
Definition planned (ws : string) (p : string * ParamDef) : Registration :=
  match type (snd p) with
  | FILE => as_file ws p
  | _ => as_directory ws p
  end.

(** Mounts and arguments computed from the configuration alone. *)
Definition plan (ws task : string) (params : dict ParamDef) : dict string * list string :=
  let regs := map (planned ws) params in
  let mounts := fold_left registered regs [] in
  (mounts, task :: map (argument mounts) regs).

(** What a call of [generate_mounts_and_args] on a declared task raises. *)
Definition generate_failure (e : Exn) : Prop :=
  e = OSError \/ exists why, e = ConfigurationError why /\ why <> InvalidIO.

(* ===================================================================== *)
(** * More vocabulary for [sync_workspace] *)
(* ===================================================================== *)

(** What a call of [sync_workspace] raises. *)
Definition sync_failure (e : Exn) : Prop :=
  e = NotImplementedError
  \/ e = OSError
  \/ e = DistutilsFileError
  \/ (exists m, e = ValueError m)
  \/ (exists uri, e = RuntimeError "Unknown artifact type (%s)" uri).

(** The components [prefix] are the first components of [path]. *)
Fixpoint leads (prefix path : list string) : bool :=
  match prefix, path with
  | [], _ => true
  | x :: prefix', y :: path' => (x =? y) && leads prefix' path'
  | _ :: _, [] => false
  end.

(* ===================================================================== *)
(** * [Shell.run] and the commands built on it *)
(* ===================================================================== *)

(** [os.system]: the exit status of a command line, and the host after it. *)
Class Processes (P : Type) : Type := { os_system : P -> string -> Z * P }.

Section Run.

Context {P : Type} `{Processes P}.

(** [Shell.run], on the words of the command and [die_on_error].  [RuntimeError] has the message as its
    one argument; the second field of the constructor is empty. *)
Definition run (cmd : list string) (die_on_error : bool) : M P Z :=
  fun s =>
    let cmd := pystr.join " " cmd in
    let (return_code, s') := os_system s cmd in
    if negb (return_code =? 0)%Z && die_on_error
    then (Raise (RuntimeError ("Command failed: " ++ cmd) ""), s')
    else (Ok return_code, s').

(** [Shell.docker_image_exists(docker, image)] *)
Definition docker_image_exists (docker : option string) (image : string) : M P bool :=
  let docker :=
    match docker with
    | None => "docker"
    | Some d => if d =? "" then "docker" else d
    end in
  return_code <- run [docker ++ " inspect --type=image " ++ image ++ " > /dev/null 2>&1"] false ;;
  ret (return_code =? 0)%Z.

(** [Shell.ssh(connection_str, command)] *)
Definition ssh (connection_str : string) (command : option string) : M P unit :=
  match command with
  | None => ret tt
  | Some c =>
      if c =? "" then ret tt
      else
        run ["ssh"; "-o"; "StrictHostKeyChecking=no"; connection_str; "'" ++ c ++ "'"] true ;;
        ret tt
  end.

(** [Shell.rsync_dirs(source, dest)] *)
Definition rsync_dirs (source dest : string) : M P unit :=
  run ["rsync"; "-e"; "'ssh'"; "'" ++ source ++ "'"; "'" ++ dest ++ "'"] true ;;
  ret tt.

End Run.

(** A host that answers every command from a table of exit statuses, 0 for
    a command the table does not hold, and keeps the commands it was given,
    the last one first. *)
Module scripted.

Record t : Type := { statuses : dict Z; given : list string }.

Definition system (s : t) (cmd : string) : Z * t :=
  (get_default (statuses s) cmd 0%Z, {| statuses := statuses s; given := cmd :: given s |}).

End scripted.

#[export] Instance scripted_Processes : Processes scripted.t :=
  {| os_system := scripted.system |}.

(* ===================================================================== *)
(** * The Kubeflow runner: [KubeflowRun] *)
(* ===================================================================== *)

(** The section [runner] of the configuration, as [kubeflow_run.py] reads it. *)
Record RunnerSection : Type := { image : string; pvc : string }.

(** [self.mlcube], by the fields the runner reads. *)
Record KubeflowRun : Type := { runner : RunnerSection; kf_tasks : dict Task }.

(** [dsl.PipelineVolume(pvc=...)] *)
Record PipelineVolume : Type := { pv_pvc : string }.

(** [dsl.ContainerOp], by what the runner gives it; [op_after] holds the ops
    it was told to run after, each named by its place in the order in which
    the pipeline created them. *)
Record ContainerOp : Type :=
  { op_name : string;
    op_image : string;
    op_arguments : list string;
    op_pvolumes : dict PipelineVolume;
    op_after : list nat }.

(** [binding_to_volumes(self, params, args, volume_mounts)]: the two
    containers it fills, before and after. *)
Definition binding_to_volumes (self : KubeflowRun) (params : dict ParamDef)
           (args : list string) (volume_mounts : dict PipelineVolume)
  : list string * dict PipelineVolume :=
  let pvc_name := pvc (runner self) in
  let vol_mount_prefix := "/mnt/mlcube" in
  let args :=
    fold_left
      (fun args p =>
         (args ++ [((((("--" ++ fst p ++ "=") ++ vol_mount_prefix) ++ pvc_name) ++ "/")
                      ++ default (snd p))%string])%list)
      params args in
  (args, set volume_mounts (vol_mount_prefix ++ pvc_name) {| pv_pvc := pvc_name |}).

(** [container_op(self, name, task)] *)
Definition container_op (self : KubeflowRun) (name : string) (task : Task) : ContainerOp :=
  let container_args := ([] ++ [name])%list in
  let container_volume_mounts := [] in
  let params := parameters task in
  let (container_args, container_volume_mounts) :=
    binding_to_volumes self (inputs params) container_args container_volume_mounts in
  let (container_args, container_volume_mounts) :=
    binding_to_volumes self (outputs params) container_args container_volume_mounts in
  {| op_name := name;
     op_image := image (runner self);
     op_arguments := container_args;
     op_pvolumes := container_volume_mounts;
     op_after := [] |}.

(** The variables of [mlcube_pipeline], and the ops created so far. *)
Record PipelineState : Type :=
  { created : list ContainerOp; last_task : option nat; current_task : option nat }.

(** [op.after(other)] *)
Definition after (op : ContainerOp) (other : nat) : ContainerOp :=
  {| op_name := op_name op; op_image := op_image op; op_arguments := op_arguments op;
     op_pvolumes := op_pvolumes op; op_after := (op_after op ++ [other])%list |}.

(** One round of the loop of [mlcube_pipeline]. *)
Definition pipeline_round (self : KubeflowRun) (st : PipelineState) (nt : string * Task)
  : PipelineState :=
  let op := container_op self (fst nt) (snd nt) in
  let place := length (created st) in
  let op :=
    match last_task st with
    | Some l => after op l
    | None => op
    end in
  {| created := (created st ++ [op])%list; last_task := Some place;
     current_task := Some place |}.

(** What [mlcube_pipeline] gives: the op it returns, by its place among the
    ops created, or the error of a local variable that was never bound. *)
Inductive PipelineResult : Type :=
| Returned (ops : list ContainerOp) (current : nat)
| UnboundLocalError (variable : string).

(** [mlcube_pipeline(self)] *)
Definition mlcube_pipeline (self : KubeflowRun) : PipelineResult :=
  let st := fold_left (pipeline_round self) (kf_tasks self)
                      {| created := []; last_task := None; current_task := None |} in
  match current_task st with
  | Some c => Returned (created st) c
  | None => UnboundLocalError "current_task"
  end.

(** The op of each task, told to run after the op created just before it;
    [place] is the number of ops created before these. *)
Fixpoint chained (self : KubeflowRun) (place : nat) (ts : dict Task) : list ContainerOp :=
  match ts with
  | [] => []
  | (name, task) :: rest =>
      match place with
      | O => container_op self name task
      | S before => after (container_op self name task) before
      end :: chained self (S place) rest
  end.

(** What [binding_to_volumes] writes for a parameter. *)
Definition volume_argument (self : KubeflowRun) (p : string * ParamDef) : string :=
  "--" ++ fst p ++ "=/mnt/mlcube" ++ pvc (runner self) ++ "/" ++ default (snd p).

Module more_examples.

(** A task with an input of a type outside the enumeration. *)
Definition mistyped_cube : Cube :=
  {| runtime := {| rt_workspace := "/ws"; rt_root := "/cube" |};
     workspace := None;
     tasks :=
       [("train",
         {| parameters :=
              {| inputs := [("data", {| type := DIRECTORY; default := "data" |});
                            ("cfg", {| type := OtherParameterType "folder";
                                       default := "cfg" |})];
                 outputs := [] |} |})] |}.

(** A bundled workspace with a directory the target workspace lacks. *)
Definition tree_world : World memfs.t :=
  {| w_fs := {| memfs.cwd := "/home/user";
                memfs.nodes := [("/cube", memfs.Dir); ("/cube/workspace", memfs.Dir);
                                ("/cube/workspace/d", memfs.Dir);
                                ("/cube/workspace/d/x", memfs.File "x");
                                ("/tgt", memfs.Dir)] |};
     w_heap := [examples.sync_cube] |}.

(** A cube of two tasks for the Kubeflow runner. *)
Definition two_steps : KubeflowRun :=
  {| runner := {| image := "mlcommons/mnist:0.0.1"; pvc := "mnist" |};
     kf_tasks :=
       [("download",
         {| parameters :=
              {| inputs := [("data_config", {| type := FILE; default := "data.yaml" |})];
                 outputs := [("data_dir", {| type := DIRECTORY; default := "data" |});
                             ("log_dir", {| type := DIRECTORY; default := "logs" |})] |} |});
        ("train",
         {| parameters :=
              {| inputs := [("data_dir", {| type := DIRECTORY; default := "data" |})];
                 outputs := [("model_dir", {| type := DIRECTORY; default := "model" |})] |} |})] |}.

End more_examples.

(** A host on which [/cube/workspace/pipe] is there and is neither a
    directory nor a regular file; nothing can be written on it. *)
Module pipefs.

Definition t : Type := unit.

Definition exists_ (_ : t) (p : string) : bool := p =? "/cube/workspace/pipe".

End pipefs.

#[export, refine] Instance pipefs_FileSystem : FileSystem pipefs.t :=
  {| os_getcwd := fun _ => "/";
     os_path_exists := pipefs.exists_;
     os_path_isdir := fun _ _ => false;
     os_path_isfile := fun _ _ => false;
     os_path_samefile := fun _ _ _ => None;
     os_makedirs := fun _ _ => None;
     shutil_copy := fun _ _ _ => None;
     dir_util_copy_tree := fun _ _ _ => None |}.
Proof. all: intros fs p; discriminate. Defined.

Definition pipe_world : World pipefs.t :=
  {| w_fs := tt;
     w_heap := [{| runtime := {| rt_workspace := "/tgt"; rt_root := "/cube" |};
                   workspace := None; tasks := [] |}] |}.


(* ===================================================================== *)
(** * A host that keeps the copies made on it *)
(* ===================================================================== *)

(** Any host, with the copies made on it so far: the source and the
    destination of every [shutil.copy] and of every [copy_tree] that
    returned, the first first.  Every other call is the host's own. *)
Record Traced (FS : Type) : Type :=
  { traced_host : FS; traced_copies : list (string * string) }.

Definition traced_step {FS} (t : Traced FS) (made : list (string * string))
           (r : option FS) : option (Traced FS) :=
  match r with
  | Some fs => Some {| traced_host := fs; traced_copies := (traced_copies t ++ made)%list |}
  | None => None
  end.

#[export, refine] Instance Traced_FileSystem {FS} `{FileSystem FS} : FileSystem (Traced FS) :=
  {| os_getcwd := fun t => os_getcwd (traced_host t);
     os_path_exists := fun t => os_path_exists (traced_host t);
     os_path_isdir := fun t => os_path_isdir (traced_host t);
     os_path_isfile := fun t => os_path_isfile (traced_host t);
     os_path_samefile := fun t => os_path_samefile (traced_host t);
     os_makedirs := fun t p => traced_step t [] (os_makedirs (traced_host t) p);
     shutil_copy := fun t src dst =>
                      traced_step t [(src, dst)] (shutil_copy (traced_host t) src dst);
     dir_util_copy_tree := fun t src dst =>
                             traced_step t [(src, dst)]
                                         (dir_util_copy_tree (traced_host t) src dst) |}.
Proof.
  - intros t p. apply isdir_exists.
  - intros t p. apply isfile_exists.
  - intros t p. apply isdir_not_isfile.
Defined.

(** The world of a traced host, the copies forgotten. *)
Definition forget {FS} (w : World (Traced FS)) : World FS :=
  {| w_fs := traced_host (w_fs w); w_heap := w_heap w |}.

(** A world on a host that has seen no copy yet. *)
Definition traced {FS} (w : World FS) : World (Traced FS) :=
  {| w_fs := {| traced_host := w_fs w; traced_copies := [] |}; w_heap := w_heap w |}.

(** The computation on the traced host does what the one on the host does. *)
Definition agrees {FS A} (m : M (World (Traced FS)) A) (m' : M (World FS) A) : Prop :=
  forall w, (fst (m w), forget (snd (m w))) = m' (forget w).

(** From a state in [I], the computation returns in [Q] or raises in a state
    in [J]. *)
Definition keeps {S A} (I : S -> Prop) (m : M S A) (Q : A -> S -> Prop)
           (J : S -> Prop) : Prop :=
  forall s, I s -> match m s with
                   | (Ok a, s') => Q a s'
                   | (Raise _, s') => J s'
                   end.

(** No task of the cube declares an output at [path] of the workspace. *)
Definition no_output_at (cube : Cube) (target_workspace path : string) : Prop :=
  forall task_name task_def output_name output_def,
    In (task_name, task_def) (tasks cube) ->
    In (output_name, output_def) (outputs (parameters task_def)) ->
    path <> posixpath.join target_workspace (pystr.strip (default output_def)).

(** Since the log was [before], copies have been made to such paths only. *)
Definition copies_since (cube : Cube) (target_workspace : string)
           (before now : list (string * string)) : Prop :=
  exists made,
    now = (before ++ made)%list
    /\ Forall (fun c => no_output_at cube target_workspace (snd c)) made.

Module sync_examples.

(** A task that reads a directory and, below it, the file it writes. *)
Definition nested_cube : Cube :=
  {| runtime := {| rt_workspace := "/tgt"; rt_root := "/cube" |};
     workspace := None;
     tasks :=
       [("train",
         {| parameters :=
              {| inputs := [("data", {| type := DIRECTORY; default := "data" |});
                            ("model", {| type := FILE; default := "data/model" |})];
                 outputs := [("model", {| type := FILE; default := "data/model" |})] |} |})] |}.

(** The bundled workspace holds the directory and an old model in it; the
    target workspace is empty. *)
Definition nested_world : World memfs.t :=
  {| w_fs := {| memfs.cwd := "/home/user";
                memfs.nodes := [("/cube", memfs.Dir); ("/cube/workspace", memfs.Dir);
                                ("/cube/workspace/data", memfs.Dir);
                                ("/cube/workspace/data/model", memfs.File "old");
                                ("/tgt", memfs.Dir)] |};
     w_heap := [nested_cube] |}.



(** A task that reads a directory kept two levels down. *)
Definition blocked_cube : Cube :=
  {| runtime := {| rt_workspace := "/tgt"; rt_root := "/cube" |};
     workspace := None;
     tasks :=
       [("train",
         {| parameters :=
              {| inputs := [("d", {| type := DIRECTORY; default := "p/d" |})];
                 outputs := [] |} |})] |}.

(** In the target workspace a regular file is where its parent would go. *)
Definition blocked_world : World memfs.t :=
  {| w_fs := {| memfs.cwd := "/home/user";
                memfs.nodes := [("/cube", memfs.Dir); ("/cube/workspace", memfs.Dir);
                                ("/cube/workspace/p", memfs.Dir);
                                ("/cube/workspace/p/d", memfs.Dir);
                                ("/tgt", memfs.Dir);
                                ("/tgt/p", memfs.File "in the way")] |};
     w_heap := [blocked_cube] |}.

End sync_examples.

(* ===================================================================== *)
(** * The path functions on examples *)
(* ===================================================================== *)

Module posixpath_tests.
Import posixpath.
Example join1 : join "/ws" "data/train" = "/ws/data/train". Proof. reflexivity. Qed.
Example join2 : join "/ws/" "a" = "/ws/a". Proof. reflexivity. Qed.
Example join3 : join "/ws" "/abs" = "/abs". Proof. reflexivity. Qed.
Example join4 : join "" "a" = "a". Proof. reflexivity. Qed.
Example split1 : split "/ws/config/params.yaml" = ("/ws/config", "params.yaml").
Proof. reflexivity. Qed.
Example split2 : split "/x" = ("/", "x"). Proof. reflexivity. Qed.
Example split3 : split "x" = ("", "x"). Proof. reflexivity. Qed.
Example split4 : split "/a//b" = ("/a", "b"). Proof. reflexivity. Qed.
Example base1 : basename "/ws/data/train" = "train". Proof. reflexivity. Qed.
Example base2 : basename "/ws/data/" = "". Proof. reflexivity. Qed.
Example norm1 : normpath "/a/./b//../c" = "/a/c". Proof. reflexivity. Qed.
Example norm2 : normpath "//a" = "//a". Proof. reflexivity. Qed.
Example norm3 : normpath "///a/" = "/a". Proof. reflexivity. Qed.
Example norm4 : normpath "../a/.." = "..". Proof. reflexivity. Qed.
Example norm5 : normpath "/.." = "/". Proof. reflexivity. Qed.
Example abs1 : abspath "/home/u" "cube/workspace" = "/home/u/cube/workspace".
Proof. reflexivity. Qed.
Example common1 : commonpath ["/t"; "/t/x/../a"] = Ok "/t". Proof. reflexivity. Qed.
Example common2 : commonpath ["/t"; "/tt/a"] = Ok "/". Proof. reflexivity. Qed.
Example common3 : commonpath ["/t"; "a"]
                  = Raise (ValueError "Can't mix absolute and relative paths").
Proof. reflexivity. Qed.
Example strip1 : pystr.strip "  storage:x " = "storage:x". Proof. reflexivity. Qed.
Example of_nat1 : pystr.of_nat 12 = "12". Proof. reflexivity. Qed.
Example of_nat0 : pystr.of_nat 0 = "0". Proof. reflexivity. Qed.
End posixpath_tests.

(* ===================================================================== *)
(** * Properties of [to_cli_args] *)
(* ===================================================================== *)

Lemma join_space_joined (items : list string) :
  pystr.join " " items = space_joined items.
Proof.
  induction items as [|x [|y rest] IH]; try reflexivity.
  change (pystr.join " " (x :: y :: rest)) with (x ++ " " ++ pystr.join " " (y :: rest)).
  now rewrite IH.
Qed.

Lemma append_assoc (a b c : string) : (a ++ b) ++ c = a ++ b ++ c.
Proof. induction a as [|x a IH]; simpl; [reflexivity | now rewrite IH]. Qed.

Lemma append_empty_r (a : string) : a ++ "" = a.
Proof. induction a as [|x a IH]; simpl; [reflexivity | now rewrite IH]. Qed.

(** C10. [to_cli_args] is a total function of its three arguments: it writes
    the pairs in the order of the mapping, each as parent flag, key, separator
    and value, with a space between two pairs; the empty mapping gives the
    empty string, and [{a: 1, b: 2}] with [=] and no parent flag gives
    ["a=1 b=2"]. *)
Theorem to_cli_args_rendering :
  (forall V (F : PyFormat V) (args : dict V) (sep : string) (parent_arg : option string),
      to_cli_args args sep parent_arg
      = space_joined (map (rendered_pair parent_arg sep) args))
  /\ (forall V (F : PyFormat V) (sep : string) (parent_arg : option string),
         to_cli_args (@nil (string * V)) sep parent_arg = "")
  /\ to_cli_args [("a", 1%Z); ("b", 2%Z)] "=" None = "a=1 b=2".
Proof.
  split; [| split; reflexivity].
  intros V F args sep parent_arg. unfold to_cli_args.
  rewrite join_space_joined. f_equal. apply map_ext. intros [k v].
  unfold rendered_pair. cbn [fst snd].
  destruct parent_arg as [[|c p]|]; try reflexivity.
  cbn [String.eqb]. now rewrite append_assoc.
Qed.

(* ===================================================================== *)
(** * Dictionaries *)
(* ===================================================================== *)

Lemma get_set_same {V} (d : dict V) k v : get (set d k v) k = Some v.
Proof.
  induction d as [|[k' v'] d IH]; simpl.
  - now rewrite String.eqb_refl.
  - destruct (k' =? k) eqn:E; simpl; rewrite E; [reflexivity | exact IH].
Qed.

Lemma set_absent {V} (d : dict V) k v :
  get d k = None -> set d k v = (d ++ [(k, v)])%list.
Proof.
  induction d as [|[k' v'] d IH]; simpl; [reflexivity |].
  destruct (k' =? k); [discriminate |]. intros E. now rewrite IH.
Qed.

Lemma set_present {V} (d : dict V) k v :
  get d k = Some v -> set d k v = d.
Proof.
  induction d as [|[k' v'] d IH]; simpl; [discriminate |].
  destruct (k' =? k) eqn:E.
  - intros [= ->]. reflexivity.
  - intros G. now rewrite IH.
Qed.

Lemma get_app_present {V} (d e : dict V) k v :
  get d k = Some v -> get (d ++ e)%list k = Some v.
Proof.
  induction d as [|[k' v'] d IH]; simpl; [discriminate |].
  destruct (k' =? k); [trivial | exact IH].
Qed.

Lemma get_None_not_In {V} (d : dict V) k : get d k = None -> ~ In k (keys d).
Proof.
  induction d as [|[k' v'] d IH]; simpl; [tauto |].
  destruct (String.eqb_spec k' k); [discriminate |].
  intros G [E | I]; [congruence | now apply IH].
Qed.

Lemma get_app_last {V} (d : dict V) k v :
  get d k = None -> get (d ++ [(k, v)])%list k = Some v.
Proof. intros G. rewrite <- (set_absent d k v G). apply get_set_same. Qed.

(* ===================================================================== *)
(** * Properties of [generate_mounts_and_args] *)
(* ===================================================================== *)

Section GenerateFacts.

Context {FS : Type} `{FileSystem FS}.

Lemma registered_set (mounts : dict string) (r : Registration) :
  set mounts (reg_host r)
      (get_default mounts (reg_host r)
         ("/mlcube_io" ++ pystr.of_nat (length mounts) ++ "/" ++ reg_tail r))
  = registered mounts r.
Proof.
  unfold registered, get_default.
  destruct (get mounts (reg_host r)) eqn:G.
  - now apply set_present.
  - now apply set_absent.
Qed.

Lemma registered_get (mounts : dict string) (r : Registration) :
  get (registered mounts r) (reg_host r)
  = Some (get_default mounts (reg_host r) (fresh_mount (length mounts) (reg_tail r))).
Proof.
  unfold registered, get_default.
  destruct (get mounts (reg_host r)) eqn:G; [exact G | now apply get_app_last].
Qed.

(** The resolver reads the file system and leaves the state alone. *)
Lemma resolve_type_state io ty hp (s : GenState FS) :
  snd (resolve_type io ty hp s) = s.
Proof.
  unfold resolve_type, bind, gen_isdir, gen_isfile, ret, raise.
  destruct ty, io; simpl; try reflexivity;
    destruct (os_path_isdir (g_fs s) hp); simpl; try reflexivity;
    destruct (os_path_isfile (g_fs s) hp); reflexivity.
Qed.

Lemma directory_branch host name (s : GenState FS) r :
  reg_host r = host -> reg_tail r = posixpath.basename host ->
  reg_param r = name -> reg_suffix r = "" ->
  (gen_makedirs host ;;
   register host (posixpath.basename host) ;;
   c <- mounts_getitem host ;;
   args_append ("--" ++ name ++ "=" ++ c)) s = process r s.
Proof.
  intros <- Ht <- Hs. unfold bind, gen_makedirs, process.
  destruct (os_makedirs (g_fs s) (reg_host r)); [| reflexivity].
  unfold register, mounts_getitem, args_append. cbn [g_fs g_mounts g_args].
  rewrite <- Ht, registered_set, registered_get. cbn [g_fs g_mounts g_args].
  unfold argument. rewrite Hs, append_empty_r.
  unfold get_default at 2. now rewrite registered_get.
Qed.

Lemma file_branch host tail file name (s : GenState FS) r :
  reg_host r = host -> reg_tail r = tail ->
  reg_param r = name -> reg_suffix r = "/" ++ file ->
  (gen_makedirs host ;;
   register host tail ;;
   c <- mounts_getitem host ;;
   args_append ("--" ++ name ++ "=" ++ (c ++ "/" ++ file))) s = process r s.
Proof.
  intros <- <- <- Hs. unfold bind, gen_makedirs, process.
  destruct (os_makedirs (g_fs s) (reg_host r)); [| reflexivity].
  unfold register, mounts_getitem, args_append. cbn [g_fs g_mounts g_args].
  rewrite registered_set, registered_get. cbn [g_fs g_mounts g_args].
  unfold argument. rewrite Hs.
  unfold get_default at 2. now rewrite registered_get.
Qed.

(** The loop body, by the type the parameter is processed with. *)
Lemma generate_param_run (mlcube : Cube) io (p : string * ParamDef) (s : GenState FS) :
  ParameterType_is_valid (type (snd p)) = true ->
  _generate_param mlcube io p s =
  match fst (resolve_type io (type (snd p))
               (posixpath.join (rt_workspace (runtime mlcube)) (default (snd p))) s) with
  | Raise e => (Raise e, s)
  | Ok DIRECTORY => process (as_directory (rt_workspace (runtime mlcube)) p) s
  | Ok FILE => process (as_file (rt_workspace (runtime mlcube)) p) s
  | Ok _ => (Ok tt, s)
  end.
Proof.
  destruct p as [n d]. cbn [fst snd]. intros V.
  unfold _generate_param. rewrite V. cbn [negb].
  set (hp := posixpath.join _ _).
  unfold bind at 1.
  pose proof (resolve_type_state io (type d) hp s) as St.
  destruct (resolve_type io (type d) hp s) as [[ty|e] s1]; cbn [fst snd] in *; subst s1;
    [| reflexivity].
  destruct ty; try reflexivity.
  - destruct (posixpath.split hp) as [dir file] eqn:Sp.
    apply file_branch; unfold as_file; cbn [reg_host reg_tail reg_param reg_suffix fst snd];
      fold hp; try rewrite Sp; reflexivity.
  - apply directory_branch; reflexivity.
Qed.


(** A declared type that passed [is_valid] is processed as a directory or
    as a file. *)
Lemma resolve_type_result io ty hp (s : GenState FS) ty' :
  ParameterType_is_valid ty = true ->
  fst (resolve_type io ty hp s) = Ok ty' ->
  ty' = DIRECTORY \/ ty' = FILE.
Proof.
  unfold resolve_type, bind, gen_isdir, gen_isfile, ret, raise.
  destruct ty; cbn [ParameterType_is_valid]; intros V; try discriminate.
  - destruct io; cbn [fst]; try discriminate;
      destruct (os_path_isdir (g_fs s) hp); cbn [fst];
      try (intros [= <-]; now left);
      destruct (os_path_isfile (g_fs s) hp); cbn [fst];
      try discriminate; intros [= <-]; now right.
  - intros [= <-]. now right.
  - intros [= <-]. now left.
Qed.

(** One successful round of the loop. *)
Lemma generate_param_ok (mlcube : Cube) io p (s s1 : GenState FS) u :
  _generate_param mlcube io p s = (Ok u, s1) ->
  exists r,
    registration_of (rt_workspace (runtime mlcube)) p r
    /\ os_makedirs (g_fs s) (reg_host r) = Some (g_fs s1)
    /\ g_mounts s1 = registered (g_mounts s) r
    /\ g_args s1 = (g_args s ++ [argument (g_mounts s1) r])%list.
Proof.
  intros R.
  destruct (ParameterType_is_valid (type (snd p))) eqn:V.
  2:{ destruct p as [n d]. unfold _generate_param in R. cbn [snd] in V.
      rewrite V in R. discriminate. }
  rewrite (generate_param_run mlcube io p s V) in R.
  set (ws := rt_workspace (runtime mlcube)) in *.
  destruct (fst (resolve_type io (type (snd p)) (posixpath.join ws (default (snd p))) s))
    as [ty|e] eqn:T; [| discriminate].
  destruct (resolve_type_result _ _ _ _ V T) as [-> | ->].
  - exists (as_directory ws p). split; [now left |].
    unfold process in R. destruct (os_makedirs _ _); [| discriminate].
    injection R as _ <-. cbn [g_fs g_mounts g_args]. auto.
  - exists (as_file ws p). split; [now right |].
    unfold process in R. destruct (os_makedirs _ _); [| discriminate].
    injection R as _ <-. cbn [g_fs g_mounts g_args]. auto.
Qed.

(** ** The mount table under registration *)

Lemma registered_extends (mounts : dict string) r :
  exists ext, registered mounts r = (mounts ++ ext)%list.
Proof.
  unfold registered. destruct (get mounts (reg_host r)).
  - exists []. now rewrite app_nil_r.
  - eexists. reflexivity.
Qed.

Lemma registered_NoDup (mounts : dict string) r :
  NoDup (keys mounts) -> NoDup (keys (registered mounts r)).
Proof.
  unfold registered. destruct (get mounts (reg_host r)) eqn:G; [trivial |].
  intros N. unfold keys. rewrite map_app. cbn [map fst].
  apply NoDup_app; [exact N | repeat constructor; intros [] | ].
  intros k I [<- | []]. exact (get_None_not_In _ _ G I).
Qed.

Lemma registered_slots (mounts : dict string) r :
  slots_in_order mounts -> slots_in_order (registered mounts r).
Proof.
  unfold registered. destruct (get mounts (reg_host r)) eqn:G; [trivial |].
  intros S i host c E.
  destruct (Nat.lt_ge_cases i (length mounts)) as [L | L].
  - rewrite nth_error_app1 in E by exact L. exact (S i host c E).
  - rewrite nth_error_app2 in E by exact L.
    destruct (i - length mounts) as [|j] eqn:D.
    + cbn in E. injection E as <- <-. exists (reg_tail r).
      replace i with (length mounts) by lia. reflexivity.
    + cbn in E. destruct j; discriminate.
Qed.

Lemma registered_mem (mounts : dict string) r :
  mem (registered mounts r) (reg_host r) = true.
Proof. unfold mem. now rewrite registered_get. Qed.

Lemma mem_app (d e : dict string) k : mem d k = true -> mem (d ++ e)%list k = true.
Proof.
  unfold mem. destruct (get d k) eqn:G; [| discriminate].
  now rewrite (get_app_present _ e _ G).
Qed.

Lemma argument_app (d e : dict string) r :
  mem d (reg_host r) = true -> argument (d ++ e)%list r = argument d r.
Proof.
  unfold mem, argument, get_default. destruct (get d (reg_host r)) eqn:G; [| discriminate].
  now rewrite (get_app_present _ e _ G).
Qed.

(** ** A successful pass of the loop *)

Lemma generate_loop_ok (mlcube : Cube) io ps : forall (s s' : GenState FS) u,
  for_each ps (_generate_param mlcube io) s = (Ok u, s') ->
  NoDup (keys (g_mounts s)) -> slots_in_order (g_mounts s) ->
  exists regs ext,
    Forall2 (registration_of (rt_workspace (runtime mlcube))) ps regs
    /\ g_mounts s' = (g_mounts s ++ ext)%list
    /\ NoDup (keys (g_mounts s'))
    /\ slots_in_order (g_mounts s')
    /\ Forall (fun r => mem (g_mounts s') (reg_host r) = true) regs
    /\ g_args s' = (g_args s ++ map (argument (g_mounts s')) regs)%list.
Proof.
  induction ps as [|p ps IH]; intros s s' u R N S.
  - injection R as _ <-. exists [], []. rewrite !app_nil_r. repeat split; auto.
  - cbn [for_each] in R. unfold bind in R.
    destruct (_generate_param mlcube io p s) as [[[]|e] s1] eqn:B; [| discriminate].
    destruct (generate_param_ok _ _ _ _ B) as (r & Rg & _ & Mo & Ar).
    destruct (registered_extends (g_mounts s) r) as [e1 E1].
    assert (N1 : NoDup (keys (g_mounts s1))) by (rewrite Mo; now apply registered_NoDup).
    assert (S1 : slots_in_order (g_mounts s1)) by (rewrite Mo; now apply registered_slots).
    assert (M1 : mem (g_mounts s1) (reg_host r) = true) by (rewrite Mo; apply registered_mem).
    destruct (IH s1 s' u R N1 S1) as (regs & e2 & F2 & Ex & N' & S' & Me & Ar').
    exists (r :: regs), (e1 ++ e2)%list. repeat split; auto.
    + rewrite Ex, Mo, E1. now rewrite app_assoc.
    + constructor; [| exact Me]. rewrite Ex. now apply mem_app.
    + assert (A : argument (g_mounts s') r = argument (g_mounts s1) r)
        by (rewrite Ex; now apply argument_app).
      rewrite Ar', Ar. cbn [map]. rewrite <- app_assoc. cbn [app].
      now rewrite A.
Qed.


Lemma arguments_app (d e : dict string) regs :
  Forall (fun r => mem d (reg_host r) = true) regs ->
  map (argument (d ++ e)%list) regs = map (argument d) regs.
Proof.
  induction 1 as [|r regs M _ IH]; cbn [map]; [reflexivity |].
  now rewrite IH, argument_app.
Qed.

(** ** The whole call *)

Lemma generate_ok (mlcube : Cube) task (fs fs' : FS) mounts args :
  generate_mounts_and_args mlcube task fs = (Ok (mounts, args), fs') ->
  exists t regs,
    get (tasks mlcube) task = Some t
    /\ Forall2 (registration_of (rt_workspace (runtime mlcube)))
               (inputs (parameters t) ++ outputs (parameters t))%list regs
    /\ NoDup (keys mounts)
    /\ slots_in_order mounts
    /\ Forall (fun r => mem mounts (reg_host r) = true) regs
    /\ args = task :: map (argument mounts) regs.
Proof.
  unfold generate_mounts_and_args. intros R.
  destruct (get (tasks mlcube) task) as [t|]; [| discriminate].
  exists t. unfold _generate in R. cbn [IOType_is_valid negb] in R.
  unfold bind in R.
  set (s0 := {| g_fs := fs; g_mounts := []; g_args := [task] |}) in R.
  destruct (for_each (inputs (parameters t)) (_generate_param mlcube INPUT) s0)
    as [[[]|e] s1] eqn:L1; [| discriminate].
  destruct (for_each (outputs (parameters t)) (_generate_param mlcube OUTPUT) s1)
    as [[[]|e] s2] eqn:L2; [| discriminate].
  injection R as <- <- _.
  assert (N0 : NoDup (keys (g_mounts s0))) by constructor.
  assert (S0 : slots_in_order (g_mounts s0)) by (intros [|i] h c E; discriminate).
  destruct (generate_loop_ok _ _ _ _ L1 N0 S0) as (r1 & e1 & F1 & _ & N1 & S1 & M1 & A1).
  destruct (generate_loop_ok _ _ _ _ L2 N1 S1) as (r2 & e2 & F2 & E2 & N2 & S2 & M2 & A2).
  exists (r1 ++ r2)%list. repeat split; auto.
  - now apply Forall2_app.
  - apply Forall_app. split; [| exact M2].
    rewrite E2. eapply Forall_impl; [| exact M1]. intros r. apply mem_app.
  - unfold s0 in A1. cbn [g_args] in A1.
    rewrite A2, A1, map_app. cbn [app]. do 2 f_equal.
    rewrite E2. symmetry. now apply arguments_app.
Qed.

End GenerateFacts.

Lemma arguments_by_name (ws : string) (mounts : dict string) ps regs :
  Forall2 (registration_of ws) ps regs ->
  map (argument mounts) regs
  = map (fun nv => "--" ++ fst nv ++ "=" ++ snd nv)
        (combine (keys ps)
                 (map (fun r => get_default mounts (reg_host r) "" ++ reg_suffix r) regs)).
Proof.
  induction 1 as [|p r ps regs R _ IH]; [reflexivity |].
  cbn [map keys combine fst snd]. fold (keys ps). rewrite <- IH. f_equal.
  destruct R as [-> | ->]; reflexivity.
Qed.

(** C1. The table a call returns holds every host path once; its entries sit
    in the order of their registration, the [i]-th in slot [i]; and every
    argument is written with the container path the table gives for the host
    directory of its parameter, so that parameters on one host directory,
    inputs or outputs, carry one container path.  In a round of the loop, a
    host directory found in the table leaves the table as it is, and a new
    one goes to the end, its slot numbered by the size of the table. *)
Theorem one_slot_per_host_path :
  forall FS (F : FileSystem FS),
    (forall (mlcube : Cube) (task : string) (fs fs' : FS) mounts args,
        generate_mounts_and_args mlcube task fs = (Ok (mounts, args), fs') ->
        NoDup (keys mounts)
        /\ slots_in_order mounts
        /\ exists t regs,
            get (tasks mlcube) task = Some t
            /\ Forall2 (registration_of (rt_workspace (runtime mlcube)))
                       (inputs (parameters t) ++ outputs (parameters t))%list regs
            /\ Forall (fun r => mem mounts (reg_host r) = true) regs
            /\ args = task :: map (argument mounts) regs)
    /\ (forall (mlcube : Cube) io p (s s1 : GenState FS),
           _generate_param mlcube io p s = (Ok tt, s1) ->
           exists r,
             registration_of (rt_workspace (runtime mlcube)) p r
             /\ g_args s1 = (g_args s ++ [argument (g_mounts s1) r])%list
             /\ match get (g_mounts s) (reg_host r) with
                | Some c => g_mounts s1 = g_mounts s
                | None => g_mounts s1
                          = (g_mounts s ++ [(reg_host r,
                                             fresh_mount (length (g_mounts s)) (reg_tail r))])%list
                end).
Proof.
  intros FS F. split.
  - intros mlcube task fs fs' mounts args R.
    destruct (generate_ok _ _ _ R) as (t & regs & G & F2 & N & S & M & A).
    repeat split; auto. exists t, regs. auto.
  - intros mlcube io p s s1 R.
    destruct (generate_param_ok _ _ _ _ R) as (r & Rg & _ & Mo & Ar).
    exists r. repeat split; auto.
    unfold registered in Mo. now destruct (get (g_mounts s) (reg_host r)).
Qed.

Lemma one_slot_per_host_path_witness :
  (NoDup (keys examples.train_mounts)
   /\ slots_in_order examples.train_mounts
   /\ exists t regs,
       get (tasks examples.train_cube) "train" = Some t
       /\ Forall2 (registration_of "/ws")
                  (inputs (parameters t) ++ outputs (parameters t))%list regs
       /\ Forall (fun r => mem examples.train_mounts (reg_host r) = true) regs
       /\ examples.train_args = "train" :: map (argument examples.train_mounts) regs)
  /\ exists r,
      registration_of "/ws" ("input_data", {| type := DIRECTORY; default := "data/train" |}) r
      /\ ["train"; "--input_data=/mlcube_io0/train"]
         = (["train"] ++ [argument [("/ws/data/train", "/mlcube_io0/train")] r])%list
      /\ match get (@nil (string * string)) (reg_host r) with
         | Some c => [("/ws/data/train", "/mlcube_io0/train")] = []
         | None => [("/ws/data/train", "/mlcube_io0/train")]
                   = ([] ++ [(reg_host r, fresh_mount 0 (reg_tail r))])%list
         end.
Proof.
  split.
  - apply (proj1 (one_slot_per_host_path memfs_FileSystem)
             examples.train_cube "train" examples.bare_host examples.train_host).
    vm_compute. reflexivity.
  - apply (proj2 (one_slot_per_host_path memfs_FileSystem)
             examples.train_cube INPUT
             ("input_data", {| type := DIRECTORY; default := "data/train" |})
             examples.train_start examples.train_state_1).
    vm_compute. reflexivity.
Defined.

(** C2. The arguments of a call that returns are the task name and then one
    [--name=value] for each declared parameter: those of the inputs first,
    then those of the outputs, each group in the order of its declaration. *)
Theorem arguments_follow_declarations :
  forall FS (F : FileSystem FS) (mlcube : Cube) (task : string) (fs fs' : FS) mounts args,
    generate_mounts_and_args mlcube task fs = (Ok (mounts, args), fs') ->
    exists t values,
      get (tasks mlcube) task = Some t
      /\ length values = length (inputs (parameters t) ++ outputs (parameters t))%list
      /\ args = task :: map (fun nv => "--" ++ fst nv ++ "=" ++ snd nv)
                            (combine (keys (inputs (parameters t))
                                      ++ keys (outputs (parameters t)))%list values).
Proof.
  intros FS F mlcube task fs fs' mounts args R.
  destruct (generate_ok _ _ _ R) as (t & regs & G & F2 & _ & _ & _ & A).
  exists t, (map (fun r => get_default mounts (reg_host r) "" ++ reg_suffix r) regs).
  repeat split; [exact G | |].
  - rewrite length_map. symmetry. exact (Forall2_length F2).
  - rewrite A. f_equal. unfold keys at 1 2. rewrite <- map_app.
    exact (arguments_by_name mounts F2).
Qed.

Lemma arguments_follow_declarations_witness :
  exists t values,
    get (tasks examples.train_cube) "train" = Some t
    /\ length values = length (inputs (parameters t) ++ outputs (parameters t))%list
    /\ examples.train_args
       = "train" :: map (fun nv => "--" ++ fst nv ++ "=" ++ snd nv)
                        (combine (keys (inputs (parameters t))
                                  ++ keys (outputs (parameters t)))%list values).
Proof.
  apply (@arguments_follow_declarations memfs.t memfs_FileSystem
           examples.train_cube "train" examples.bare_host examples.train_host
           examples.train_mounts).
  vm_compute. reflexivity.
Defined.

Section ContainerPaths.

Context {FS : Type} `{FileSystem FS}.

Lemma resolve_type_valid io ty hp (s : GenState FS) ty' :
  fst (resolve_type io ty hp s) = Ok ty' ->
  ParameterType_is_valid ty' = true ->
  ParameterType_is_valid ty = true.
Proof.
  destruct ty; try reflexivity. cbn. now intros [= <-].
Qed.

Lemma argument_registered (mounts : dict string) r :
  argument (registered mounts r) r
  = "--" ++ reg_param r ++ "="
    ++ get_default mounts (reg_host r) (fresh_mount (length mounts) (reg_tail r))
    ++ reg_suffix r.
Proof. unfold argument. unfold get_default at 1. now rewrite registered_get. Qed.

Lemma registered_cases (mounts : dict string) r :
  registered mounts r
  = match get mounts (reg_host r) with
    | Some _ => mounts
    | None => (mounts ++ [(reg_host r,
                           get_default mounts (reg_host r)
                             (fresh_mount (length mounts) (reg_tail r)))])%list
    end.
Proof.
  unfold registered, get_default. now destruct (get mounts (reg_host r)).
Qed.

Lemma process_ok r (s : GenState FS) fs' :
  os_makedirs (g_fs s) (reg_host r) = Some fs' ->
  process r s
  = (Ok tt,
     {| g_fs := fs';
        g_mounts := registered (g_mounts s) r;
        g_args := (g_args s ++ [argument (registered (g_mounts s) r) r])%list |}).
Proof. intros E. unfold process. now rewrite E. Qed.

Lemma directory_round (mlcube : Cube) io name d (s : GenState FS) fs' :
  fst (resolve_type io (type d)
         (posixpath.join (rt_workspace (runtime mlcube)) (default d)) s) = Ok DIRECTORY ->
  os_makedirs (g_fs s) (posixpath.join (rt_workspace (runtime mlcube)) (default d))
  = Some fs' ->
  _generate_param mlcube io (name, d) s
  = (Ok tt,
     let host_path := posixpath.join (rt_workspace (runtime mlcube)) (default d) in
     let mount := get_default (g_mounts s) host_path
                    ("/mlcube_io" ++ pystr.of_nat (length (g_mounts s)) ++ "/"
                       ++ posixpath.basename host_path) in
     {| g_fs := fs';
        g_mounts := match get (g_mounts s) host_path with
                    | Some _ => g_mounts s
                    | None => (g_mounts s ++ [(host_path, mount)])%list
                    end;
        g_args := (g_args s ++ [("--" ++ name ++ "=" ++ mount)%string])%list |}).
Proof.
  intros T E.
  rewrite generate_param_run by (cbn [snd]; now apply (resolve_type_valid _ _ _ _ T)).
  cbn [snd]. rewrite T.
  rewrite (process_ok (as_directory (rt_workspace (runtime mlcube)) (name, d)) s E).
  rewrite argument_registered, registered_cases.
  cbn [as_directory reg_host reg_tail reg_param reg_suffix fst snd].
  now rewrite append_empty_r.
Qed.

Lemma file_round (mlcube : Cube) io name d (s : GenState FS) fs' :
  fst (resolve_type io (type d)
         (posixpath.join (rt_workspace (runtime mlcube)) (default d)) s) = Ok FILE ->
  os_makedirs (g_fs s)
    (fst (posixpath.split (posixpath.join (rt_workspace (runtime mlcube)) (default d))))
  = Some fs' ->
  _generate_param mlcube io (name, d) s
  = (Ok tt,
     let host_path := posixpath.join (rt_workspace (runtime mlcube)) (default d) in
     let directory := fst (posixpath.split host_path) in
     let file_name := snd (posixpath.split host_path) in
     let mount := get_default (g_mounts s) directory
                    ("/mlcube_io" ++ pystr.of_nat (length (g_mounts s)) ++ "/" ++ directory) in
     {| g_fs := fs';
        g_mounts := match get (g_mounts s) directory with
                    | Some _ => g_mounts s
                    | None => (g_mounts s ++ [(directory, mount)])%list
                    end;
        g_args := (g_args s ++ [("--" ++ name ++ "=" ++ mount ++ "/" ++ file_name)%string])%list |}).
Proof.
  intros T E.
  rewrite generate_param_run by (cbn [snd]; now apply (resolve_type_valid _ _ _ _ T)).
  cbn [snd]. rewrite T.
  rewrite (process_ok (as_file (rt_workspace (runtime mlcube)) (name, d)) s E).
  rewrite argument_registered, registered_cases.
  reflexivity.
Qed.

End ContainerPaths.

(** C3. A parameter processed as a DIRECTORY has its host path in the table,
    registered, when it was not there, as [/mlcube_io{slot}/{basename}], and
    its argument is [--{name}={container path}].  A parameter processed as a
    FILE has the directory of its host path in the table, registered, when it
    was not there, as [/mlcube_io{slot}/{directory}] with the whole host
    directory after the slot, and its argument is
    [--{name}={container path}/{file name}].  With the workspace [/ws], the
    directory [data/train] processed first gets [/mlcube_io0/train], and the
    file [config/params.yaml] as [cfg] gets [/mlcube_io{N}//ws/config] and
    [--cfg=/mlcube_io{N}//ws/config/params.yaml]. *)
Theorem container_path_by_type :
  forall FS (F : FileSystem FS) (mlcube : Cube) (io : IOType) (name : string)
         (s : GenState FS) (fs' : FS),
    (forall d,
        let host_path := posixpath.join (rt_workspace (runtime mlcube)) (default d) in
        fst (resolve_type io (type d) host_path s) = Ok DIRECTORY ->
        os_makedirs (g_fs s) host_path = Some fs' ->
        let mount := get_default (g_mounts s) host_path
                       ("/mlcube_io" ++ pystr.of_nat (length (g_mounts s)) ++ "/"
                          ++ posixpath.basename host_path) in
        _generate_param mlcube io (name, d) s
        = (Ok tt,
           {| g_fs := fs';
              g_mounts := match get (g_mounts s) host_path with
                          | Some _ => g_mounts s
                          | None => (g_mounts s ++ [(host_path, mount)])%list
                          end;
              g_args := (g_args s ++ [("--" ++ name ++ "=" ++ mount)%string])%list |}))
    /\ (forall d,
           let host_path := posixpath.join (rt_workspace (runtime mlcube)) (default d) in
           let directory := fst (posixpath.split host_path) in
           let file_name := snd (posixpath.split host_path) in
           fst (resolve_type io (type d) host_path s) = Ok FILE ->
           os_makedirs (g_fs s) directory = Some fs' ->
           let mount := get_default (g_mounts s) directory
                          ("/mlcube_io" ++ pystr.of_nat (length (g_mounts s)) ++ "/"
                             ++ directory) in
           _generate_param mlcube io (name, d) s
           = (Ok tt,
              {| g_fs := fs';
                 g_mounts := match get (g_mounts s) directory with
                             | Some _ => g_mounts s
                             | None => (g_mounts s ++ [(directory, mount)])%list
                             end;
                 g_args := (g_args s ++ [("--" ++ name ++ "=" ++ mount ++ "/" ++ file_name)%string])%list |}))
    /\ (rt_workspace (runtime mlcube) = "/ws" ->
        g_mounts s = [] ->
        os_makedirs (g_fs s) "/ws/data/train" = Some fs' ->
        _generate_param mlcube io (name, {| type := DIRECTORY; default := "data/train" |}) s
        = (Ok tt,
           {| g_fs := fs';
              g_mounts := [("/ws/data/train", "/mlcube_io0/train")];
              g_args := (g_args s ++ [("--" ++ name ++ "=/mlcube_io0/train")%string])%list |}))
    /\ (rt_workspace (runtime mlcube) = "/ws" ->
        get (g_mounts s) "/ws/config" = None ->
        os_makedirs (g_fs s) "/ws/config" = Some fs' ->
        let mount := "/mlcube_io" ++ pystr.of_nat (length (g_mounts s)) ++ "//ws/config" in
        _generate_param mlcube io ("cfg", {| type := FILE; default := "config/params.yaml" |}) s
        = (Ok tt,
           {| g_fs := fs';
              g_mounts := (g_mounts s ++ [("/ws/config", mount)])%list;
              g_args := (g_args s ++ [("--cfg=" ++ mount ++ "/params.yaml")%string])%list |})).
Proof.
  intros FS F mlcube io name s fs'. split; [| split; [| split]].
  - intros d host_path T E mount. exact (directory_round mlcube io name d s T E).
  - intros d host_path directory file_name T E mount.
    exact (file_round mlcube io name d s T E).
  - intros W M E.
    assert (T : fst (resolve_type io DIRECTORY
                       (posixpath.join (rt_workspace (runtime mlcube)) "data/train") s)
                = Ok DIRECTORY) by reflexivity.
    assert (E' : os_makedirs (g_fs s)
                   (posixpath.join (rt_workspace (runtime mlcube)) "data/train") = Some fs')
      by (rewrite W; exact E).
    rewrite (directory_round mlcube io name
               {| type := DIRECTORY; default := "data/train" |} s T E').
    cbn [type default]. rewrite W, M. reflexivity.
  - intros W G E mount.
    assert (T : fst (resolve_type io FILE
                       (posixpath.join (rt_workspace (runtime mlcube)) "config/params.yaml") s)
                = Ok FILE) by reflexivity.
    assert (E' : os_makedirs (g_fs s)
                   (fst (posixpath.split
                           (posixpath.join (rt_workspace (runtime mlcube))
                              "config/params.yaml"))) = Some fs')
      by (rewrite W; exact E).
    rewrite (file_round mlcube io "cfg"
               {| type := FILE; default := "config/params.yaml" |} s T E').
    cbn [type default]. rewrite W.
    change (fst (posixpath.split (posixpath.join "/ws" "config/params.yaml")))
      with "/ws/config".
    change (snd (posixpath.split (posixpath.join "/ws" "config/params.yaml")))
      with "params.yaml".
    cbv zeta. unfold get_default. rewrite G. subst mount.
    reflexivity.
Qed.

Lemma container_path_by_type_witness :
  _generate_param examples.train_cube INPUT
    ("input_data", {| type := DIRECTORY; default := "data/train" |}) examples.train_start
  = (Ok tt, examples.train_state_1)
  /\ _generate_param examples.train_cube INPUT
       ("cfg", {| type := FILE; default := "config/params.yaml" |}) examples.train_state_1
     = (Ok tt, examples.train_state_2).
Proof.
  destruct (@container_path_by_type memfs.t memfs_FileSystem examples.train_cube INPUT
              "input_data" examples.train_start examples.train_host_1)
    as (D & _ & D' & _).
  destruct (@container_path_by_type memfs.t memfs_FileSystem examples.train_cube INPUT
              "cfg" examples.train_state_1 examples.train_host)
    as (_ & Fi & _ & Fi').
  split.
  - assert (R := D {| type := DIRECTORY; default := "data/train" |} eq_refl eq_refl).
    assert (R' := D' eq_refl eq_refl eq_refl).
    rewrite R'. reflexivity.
  - assert (R := Fi {| type := FILE; default := "config/params.yaml" |} eq_refl eq_refl).
    assert (R' := Fi' eq_refl eq_refl eq_refl).
    rewrite R'. reflexivity.
Defined.

(* ===================================================================== *)
(** * The type a parameter is processed with *)
(* ===================================================================== *)

Section TypeResolution.

Context {FS : Type} `{FileSystem FS}.

Lemma isfile_not_isdir (fs : FS) p :
  os_path_isfile fs p = true -> os_path_isdir fs p = false.
Proof.
  intros Fi. destruct (os_path_isdir fs p) eqn:D; [| reflexivity].
  apply isdir_not_isfile in D. congruence.
Qed.

(** A pass over parameters of which one is an output of unknown type does
    not return. *)
Lemma unknown_output_stops (mlcube : Cube) name d ps :
  In (name, d) ps -> type d = UNKNOWN ->
  forall s : GenState FS,
  exists e s', for_each ps (_generate_param mlcube OUTPUT) s = (Raise e, s').
Proof.
  intros I U. induction ps as [|p ps IH]; [destruct I |].
  intros s. cbn [for_each]. unfold bind.
  destruct I as [-> | I].
  - unfold _generate_param at 1. rewrite U. cbn. eauto.
  - destruct (_generate_param mlcube OUTPUT p s) as [[[]|e] s1]; [| eauto].
    apply (IH I).
Qed.

End TypeResolution.

(** C6. A parameter declared UNKNOWN: as an output it raises
    [ConfigurationError], whatever the file system holds, and so does the
    round of the loop that meets it and every call on a task that declares
    it; as an input it is processed as a DIRECTORY when its host path is a
    directory, as a FILE when it is a regular file, and raises
    [ConfigurationError] when it is neither. *)
Theorem unknown_type_resolution :
  forall FS (F : FileSystem FS) (host_path : string) (s : GenState FS),
    resolve_type OUTPUT UNKNOWN host_path s = (Raise (ConfigurationError TypeIsUnknown), s)
    /\ (os_path_isdir (g_fs s) host_path = true ->
        resolve_type INPUT UNKNOWN host_path s = (Ok DIRECTORY, s))
    /\ (os_path_isfile (g_fs s) host_path = true ->
        resolve_type INPUT UNKNOWN host_path s = (Ok FILE, s))
    /\ (os_path_isdir (g_fs s) host_path = false ->
        os_path_isfile (g_fs s) host_path = false ->
        resolve_type INPUT UNKNOWN host_path s
        = (Raise (ConfigurationError TypeNotIdentified), s))
    /\ (forall mlcube name d,
           type d = UNKNOWN ->
           _generate_param mlcube OUTPUT (name, d) s
           = (Raise (ConfigurationError TypeIsUnknown), s))
    /\ (forall mlcube name d,
           type d = UNKNOWN ->
           host_path = posixpath.join (rt_workspace (runtime mlcube)) (default d) ->
           os_path_isdir (g_fs s) host_path = false ->
           os_path_isfile (g_fs s) host_path = false ->
           _generate_param mlcube INPUT (name, d) s
           = (Raise (ConfigurationError TypeNotIdentified), s))
    /\ (forall mlcube task t name d,
           get (tasks mlcube) task = Some t ->
           In (name, d) (outputs (parameters t)) ->
           type d = UNKNOWN ->
           exists e fs', generate_mounts_and_args mlcube task (g_fs s) = (Raise e, fs')).
Proof.
  intros FS F host_path s.
  split; [reflexivity |].
  split; [intros D; unfold resolve_type, bind, gen_isdir; now rewrite D |].
  split; [intros Fi; unfold resolve_type, bind, gen_isdir, gen_isfile;
          now rewrite (isfile_not_isdir _ _ Fi), Fi |].
  split; [intros D Fi; unfold resolve_type, bind, gen_isdir, gen_isfile; now rewrite D, Fi |].
  split; [intros mlcube name d U; unfold _generate_param; now rewrite U |].
  split.
  - intros mlcube name d U -> D Fi. unfold _generate_param. rewrite U. cbn [ParameterType_is_valid negb].
    unfold resolve_type, bind, gen_isdir, gen_isfile. now rewrite D, Fi.
  - intros mlcube task t name d G I U. unfold generate_mounts_and_args. rewrite G.
    unfold _generate. cbn [IOType_is_valid negb]. unfold bind at 1.
    destruct (for_each (inputs (parameters t)) _ _) as [[[]|e] s1]; [| eauto].
    destruct (unknown_output_stops mlcube _ _ _ I U s1) as (e & s' & ->). eauto.
Qed.

Lemma unknown_type_resolution_witness :
  resolve_type INPUT UNKNOWN "/ws/in" examples.data_start = (Ok DIRECTORY, examples.data_start)
  /\ resolve_type INPUT UNKNOWN "/ws/in/a.csv" examples.data_start
     = (Ok FILE, examples.data_start)
  /\ resolve_type INPUT UNKNOWN "/ws/none" examples.data_start
     = (Raise (ConfigurationError TypeNotIdentified), examples.data_start)
  /\ _generate_param examples.untyped_output_cube OUTPUT
       ("model", {| type := UNKNOWN; default := "out" |}) examples.data_start
     = (Raise (ConfigurationError TypeIsUnknown), examples.data_start)
  /\ _generate_param examples.untyped_output_cube INPUT
       ("data", {| type := UNKNOWN; default := "none" |}) examples.data_start
     = (Raise (ConfigurationError TypeNotIdentified), examples.data_start)
  /\ exists e fs',
      generate_mounts_and_args examples.untyped_output_cube "train" examples.data_host
      = (Raise e, fs').
Proof.
  destruct (@unknown_type_resolution memfs.t memfs_FileSystem "/ws/in" examples.data_start)
    as (_ & D & _).
  destruct (@unknown_type_resolution memfs.t memfs_FileSystem "/ws/in/a.csv" examples.data_start)
    as (_ & _ & Fi & _).
  destruct (@unknown_type_resolution memfs.t memfs_FileSystem "/ws/none" examples.data_start)
    as (_ & _ & _ & N & O & I & G).
  split; [apply D; reflexivity |].
  split; [apply Fi; reflexivity |].
  split; [apply N; reflexivity |].
  split; [apply O; reflexivity |].
  split; [apply I; reflexivity |].
  apply (G examples.untyped_output_cube "train" _ "model"
           {| type := UNKNOWN; default := "out" |} eq_refl); [now left | reflexivity].
Defined.

(* ===================================================================== *)
(** * Properties of [sync_workspace] *)
(* ===================================================================== *)

Section SyncFacts.

Context {FS : Type} `{FileSystem FS}.

Lemma commonpath_raises paths e :
  posixpath.commonpath paths = Raise e -> exists m, e = ValueError m.
Proof.
  unfold posixpath.commonpath. destruct paths as [|p ps]; [intros [= <-]; eauto |].
  destruct (forallb _ ps); [discriminate | intros [= <-]; eauto].
Qed.

Lemma is_inside_workspace_raises ws art e :
  _is_inside_workspace ws art = Raise e -> exists m, e = ValueError m.
Proof.
  unfold _is_inside_workspace, rbind.
  destruct (posixpath.commonpath [ws]) eqn:A; [| intros [= <-]; eauto using commonpath_raises].
  destruct (posixpath.commonpath [ws; art]) eqn:B; [discriminate |].
  intros [= <-]; eauto using commonpath_raises.
Qed.

(** [_is_ok] looks and does not touch. *)
Lemma is_ok_run ws art must (w : World FS) :
  exists r, _is_ok ws art must w = (r, w)
            /\ (forall e, r = Raise e -> exists m, e = ValueError m)
            /\ (must = false -> os_path_exists (w_fs w) art = true ->
                forall b, r = Ok b -> b = false).
Proof.
  unfold _is_ok, bind, lift, read, ret.
  destruct (_is_inside_workspace ws art) as [inside|e] eqn:I.
  - destruct inside; cbn [negb].
    + destruct must, (os_path_exists (w_fs w) art); cbn [negb andb];
        eexists; (split; [reflexivity |]); split; try discriminate;
        intros; congruence.
    + eexists; (split; [reflexivity |]); split; try discriminate.
      intros _ _ b [= <-]. reflexivity.
  - eexists; (split; [reflexivity |]); split; [| discriminate].
    intros e' [= <-]. eauto using is_inside_workspace_raises.
Qed.

Lemma storage_not_supported_raises uri e :
  _storage_not_supported uri = Raise e -> e = NotImplementedError.
Proof.
  unfold _storage_not_supported. destruct (pystr.startswith _ _); congruence.
Qed.

Lemma storage_not_supported_ok uri u :
  _storage_not_supported uri = Ok u -> u = pystr.strip uri.
Proof.
  unfold _storage_not_supported. destruct (pystr.startswith _ _); congruence.
Qed.

Lemma is_output_of_raises tws art outs e :
  _is_output_of tws art outs = Raise e -> e = NotImplementedError.
Proof.
  induction outs as [|[n d] outs IH]; cbn [_is_output_of]; [discriminate |].
  unfold rbind. destruct (_storage_not_supported (default d)) eqn:S.
  - destruct (art =? posixpath.join tws a); [discriminate | exact IH].
  - intros [= <-]. eauto using storage_not_supported_raises.
Qed.

Lemma is_output_of_tasks_raises tws art ts e :
  _is_output_of_tasks tws art ts = Raise e -> e = NotImplementedError.
Proof.
  induction ts as [|[n t] ts IH]; cbn [_is_output_of_tasks]; [discriminate |].
  unfold rbind. destruct (_is_output_of tws art (outputs (parameters t))) as [[]|] eqn:O.
  - discriminate.
  - exact IH.
  - intros [= <-]. eauto using is_output_of_raises.
Qed.

(** An output declared at the artifact's path is found, unless an output
    before it stops the search. *)
Lemma is_output_of_found tws art outs name d :
  In (name, d) outs ->
  art = posixpath.join tws (pystr.strip (default d)) ->
  _is_output_of tws art outs = Ok true
  \/ _is_output_of tws art outs = Raise NotImplementedError.
Proof.
  intros I ->. induction outs as [|[n' d'] outs IH]; [destruct I |].
  cbn [_is_output_of]. unfold rbind.
  destruct (_storage_not_supported (default d')) as [u|e] eqn:S.
  - destruct (_ =? posixpath.join tws u) eqn:E; [now left |].
    destruct I as [[= -> ->] | I]; [| exact (IH I)].
    apply storage_not_supported_ok in S. subst u.
    rewrite String.eqb_refl in E. discriminate.
  - right. f_equal. eauto using storage_not_supported_raises.
Qed.

Lemma is_output_of_tasks_found tws art ts tname t name d :
  In (tname, t) ts -> In (name, d) (outputs (parameters t)) ->
  art = posixpath.join tws (pystr.strip (default d)) ->
  _is_output_of_tasks tws art ts = Ok true
  \/ _is_output_of_tasks tws art ts = Raise NotImplementedError.
Proof.
  intros I O A. induction ts as [|[n' t'] ts IH]; [destruct I |].
  cbn [_is_output_of_tasks]. unfold rbind.
  destruct (_is_output_of tws art (outputs (parameters t'))) as [[]|e] eqn:R.
  - now left.
  - destruct I as [[= -> ->] | I]; [| exact (IH I)].
    destruct (is_output_of_found tws _ _ _ O A); congruence.
  - right. f_equal. eauto using is_output_of_raises.
Qed.

(** The round, up to the point where it has decided to copy. *)
Lemma sync_input_skips target tws sws name d (w : World FS) :
  (forall u, _storage_not_supported (default d) = Ok u ->
             (os_path_exists (w_fs w) (posixpath.join tws u) = true)
             \/ (exists cube,
                    nth_error (w_heap w) target = Some cube
                    /\ (_is_output_of_tasks tws (posixpath.join tws u) (tasks cube) = Ok true
                        \/ _is_output_of_tasks tws (posixpath.join tws u) (tasks cube)
                           = Raise NotImplementedError))) ->
  snd (sync_input target tws sws (name, d) w) = w
  /\ quiet (fst (sync_input target tws sws (name, d) w)).
Proof.
  intros Hyp. unfold sync_input, bind, lift.
  destruct (_storage_not_supported (default d)) as [u|e] eqn:S.
  2:{ cbn [fst snd]. split; [reflexivity |]. right; left. f_equal.
      eauto using storage_not_supported_raises. }
  destruct (is_ok_run sws (posixpath.join sws u) true w) as (r1 & -> & E1 & _).
  destruct r1 as [ok1|e1].
  2:{ cbn [fst snd]. split; [reflexivity |]. destruct (E1 _ eq_refl) as [m ->].
      right; right; eauto. }
  destruct ok1; cbn [negb]; [| split; [reflexivity | now left]].
  destruct (is_ok_run tws (posixpath.join tws u) false w) as (r2 & -> & E2 & X2).
  destruct r2 as [ok2|e2].
  2:{ cbn [fst snd]. split; [reflexivity |]. destruct (E2 _ eq_refl) as [m ->].
      right; right; eauto. }
  destruct ok2; cbn [negb]; [| split; [reflexivity | now left]].
  destruct (Hyp u eq_refl) as [Ex | (cube & G & Out)].
  - specialize (X2 eq_refl Ex true eq_refl). discriminate.
  - unfold _is_task_output, bind, deref, lift. rewrite G.
    destruct Out as [-> | ->]; cbn [fst snd]; (split; [reflexivity |]).
    + now left.
    + right; now left.
Qed.

End SyncFacts.

Section SyncPass.

Context {FS : Type} `{FileSystem FS}.



(** With absolute workspaces [commonpath] has nothing to object to. *)
Lemma is_inside_workspace_abs ws u :
  posixpath.isabs ws = true ->
  exists b, _is_inside_workspace ws (posixpath.join ws u) = Ok b.
Proof.
  intros A. unfold _is_inside_workspace, rbind, posixpath.commonpath.
  cbn [forallb]. rewrite A.
  assert (J : posixpath.isabs (posixpath.join ws u) = true).
  { unfold posixpath.join. fold (posixpath.isabs u).
    destruct (posixpath.isabs u) eqn:U; [exact U |].
    unfold posixpath.isabs, pystr.startswith in *.
    destruct ws as [|c ws]; [cbn in A; discriminate |].
    cbn [String.prefix] in A. destruct (ascii_dec "/" c) as [<- |]; [| discriminate].
    destruct (_ || _); cbn [append String.prefix];
      (destruct (ascii_dec "/" "/") as [_ | N]; [| now destruct N]);
      now destruct (_ ++ _). }
  rewrite J. cbn [Bool.eqb andb]. eauto.
Qed.


End SyncPass.


(** A whole call on [examples.sync_world]: the file is copied, the directory
    that is in the target workspace and the model the task writes are not. *)
Example sync_workspace_run :
  sync_workspace 0 "train" examples.sync_world
  = (Ok tt,
     {| w_fs := {| memfs.cwd := "/home/user";
                   memfs.nodes := (memfs.nodes examples.sync_host
                                   ++ [("/tgt/a.txt", memfs.File "hello")])%list |};
        w_heap := [examples.sync_cube;
                   {| runtime := {| rt_workspace := "/cube/workspace"; rt_root := "/cube" |};
                      workspace := Some "/cube/workspace";
                      tasks := tasks examples.sync_cube |}] |}).
Proof. vm_compute. reflexivity. Qed.




(** C8. When the target workspace is not a [storage:] path and has been
    created, the source workspace exists and is not the same file as the
    target, a task name the cube does not declare makes [sync_workspace]
    raise [ValueError("Task does not exist: ...")], with nothing done beyond
    the creation of the target workspace. *)
Theorem unknown_task_raises :
  forall FS (F : FileSystem FS) (target_mlcube : ref) (task : string) (w : World FS)
         (cube : Cube) (fs1 : FS),
    let target_workspace :=
      posixpath.abspath (os_getcwd (w_fs w)) (pystr.strip (rt_workspace (runtime cube))) in
    let source_workspace :=
      posixpath.abspath (os_getcwd fs1) (posixpath.join (rt_root (runtime cube)) "workspace") in
    nth_error (w_heap w) target_mlcube = Some cube ->
    storage_uri (rt_workspace (runtime cube)) = false ->
    os_makedirs (w_fs w) target_workspace = Some fs1 ->
    os_path_exists fs1 source_workspace = true ->
    os_path_samefile fs1 target_workspace source_workspace = Some false ->
    mem (tasks cube) task = false ->
    sync_workspace target_mlcube task w
    = (Raise (ValueError ("Task does not exist: " ++ task)),
       {| w_fs := fs1; w_heap := w_heap w |}).
Proof.
  intros FS F target task w cube fs1 tws sws G S Mk Ex Sf Me.
  unfold sync_workspace, bind, deref, lift. rewrite G.
  unfold _storage_not_supported. fold (storage_uri (rt_workspace (runtime cube))).
  rewrite S. unfold os_path_abspath, read, effect, samefile. fold tws.
  rewrite Mk. cbn [w_fs w_heap]. rewrite G. cbn [w_fs w_heap]. fold sws.
  rewrite Ex. cbn [negb w_fs]. rewrite Sf. cbn [w_heap]. rewrite G, Me. reflexivity.
Qed.

Lemma unknown_task_raises_witness :
  sync_workspace 0 "evaluate" examples.fresh_world
  = (Raise (ValueError "Task does not exist: evaluate"),
     {| w_fs := {| memfs.cwd := "/home/user";
                   memfs.nodes := (memfs.nodes (w_fs examples.fresh_world)
                                   ++ [("/tgt", memfs.Dir)])%list |};
        w_heap := w_heap examples.fresh_world |}).
Proof.
  apply (@unknown_task_raises memfs.t memfs_FileSystem 0 "evaluate" examples.fresh_world
           examples.sync_cube); reflexivity.
Defined.

(* ===================================================================== *)
(** * The store of configuration objects *)
(* ===================================================================== *)

Lemma list_update_last {A} (l : list A) (x y : A) :
  list_update (l ++ [x])%list (length l) y = (l ++ [y])%list.
Proof. induction l as [|a l IH]; cbn; [reflexivity | now rewrite IH]. Qed.

Lemma nth_error_last {A} (l : list A) (x : A) :
  nth_error (l ++ [x])%list (length l) = Some x.
Proof. rewrite nth_error_app2, Nat.sub_diag by lia. reflexivity. Qed.

Section Store.

Context {FS : Type} `{FileSystem FS}.

Lemma heap_stable_bind {A B} (m : M (World FS) A) (k : A -> M (World FS) B) :
  heap_stable m -> (forall a, heap_stable (k a)) -> heap_stable (bind m k).
Proof.
  intros Hm Hk w. unfold bind. specialize (Hm w).
  destruct (m w) as [[a|e] w1]; cbn [snd] in *; [| exact Hm].
  now rewrite Hk.
Qed.

Lemma heap_stable_effect (f : FS -> option FS) : heap_stable (FS := FS) (effect f).
Proof. intros w. unfold effect. now destruct (f (w_fs w)). Qed.

Lemma heap_stable_effect_distutils (f : FS -> option FS) :
  heap_stable (FS := FS) (effect_distutils f).
Proof. intros w. unfold effect_distutils. now destruct (f (w_fs w)). Qed.

Lemma heap_stable_deref r : heap_stable (FS := FS) (deref r).
Proof. intros w. unfold deref. now destruct (nth_error (w_heap w) r). Qed.

Lemma heap_stable_pure {A} (r : Res A) : heap_stable (FS := FS) (fun w => (r, w)).
Proof. intros w. reflexivity. Qed.

Lemma heap_stable_read {A} (f : FS -> A) : heap_stable (FS := FS) (read f).
Proof. intros w. reflexivity. Qed.

Ltac stable :=
  repeat first
    [ apply heap_stable_bind
    | apply heap_stable_effect
    | apply heap_stable_effect_distutils
    | apply heap_stable_deref
    | apply heap_stable_read
    | apply heap_stable_pure
    | match goal with
      | |- forall _, heap_stable _ => intro
      | |- heap_stable (if ?b then _ else _) => destruct b
      end ].

(** The rounds of the loop write to the file system only. *)
Lemma sync_input_heap target tws sws p : heap_stable (sync_input target tws sws p).
Proof.
  destruct p as [n d]. unfold sync_input, _is_ok, _is_task_output, lift, ret, raise.
  stable.
Qed.

Lemma sync_inputs_heap target tws sws ins : forall w : World FS,
  w_heap (snd (for_each ins (sync_input target tws sws) w)) = w_heap w.
Proof.
  induction ins as [|p ins IH]; intros w; [reflexivity |].
  cbn [for_each]. unfold bind.
  pose proof (sync_input_heap target tws sws p w) as E.
  destruct (sync_input target tws sws p w) as [[[]|e] w1]; cbn [snd] in *.
  - now rewrite IH.
  - exact E.
Qed.

(** A call adds at most one object to the store, its copy of the
    configuration, and writes to no other. *)
Lemma sync_workspace_heap target task (w : World FS) :
  exists fresh,
    w_heap (snd (sync_workspace target task w)) = (w_heap w ++ fresh)%list
    /\ length fresh <= 1.
Proof.
  assert (Same : forall h : list Cube, exists fresh, h = (h ++ fresh)%list /\ length fresh <= 1)
    by (intros h; exists []; rewrite app_nil_r; cbn; auto).
  unfold sync_workspace, bind, deref, lift.
  destruct (nth_error (w_heap w) target) as [cube|] eqn:G; [| apply Same].
  destruct (_storage_not_supported _) as [ws|]; [| apply Same].
  unfold os_path_abspath, read, effect, samefile.
  destruct (os_makedirs _ _) as [fs1|]; [| apply Same].
  cbn [w_fs w_heap]. rewrite G. cbn [w_fs w_heap].
  match goal with
  | |- context [os_path_exists fs1 ?p] => destruct (os_path_exists fs1 p)
  end; cbn [negb w_fs w_heap]; [| apply Same].
  match goal with
  | |- context [os_path_samefile fs1 ?a ?b] => destruct (os_path_samefile fs1 a b) as [[]|]
  end; cbn [snd w_heap]; try apply Same.
  rewrite G. destruct (mem (tasks cube) task); cbn [negb]; [| apply Same].
  unfold deepcopy, setattr. cbn [w_fs w_heap]. rewrite G. cbn [w_fs w_heap].
  rewrite nth_error_last, list_update_last. cbn [w_fs w_heap].
  rewrite nth_error_last, list_update_last. cbn [w_fs w_heap].
  rewrite nth_error_app1 by (apply nth_error_Some; congruence). rewrite G.
  destruct (get (tasks cube) task) as [t|].
  - rewrite sync_inputs_heap. cbn [w_heap]. eexists. split; [reflexivity | cbn; lia].
  - cbn [snd w_heap]. eexists. split; [reflexivity | cbn; lia].
Qed.

End Store.

(** C9. [sync_workspace] leaves the configuration it is given as it found
    it, and every other object of the store with it: the store after the
    call is the store before it, followed by at most one new object, the
    copy whose workspace fields the call sets. *)
Theorem target_configuration_unchanged :
  forall FS (F : FileSystem FS) (target_mlcube : ref) (task : string) (w : World FS),
    nth_error (w_heap (snd (sync_workspace target_mlcube task w))) target_mlcube
    = nth_error (w_heap w) target_mlcube
    /\ exists fresh,
        w_heap (snd (sync_workspace target_mlcube task w)) = (w_heap w ++ fresh)%list
        /\ length fresh <= 1.
Proof.
  intros FS F target task w. split; [| apply sync_workspace_heap].
  destruct (nth_error (w_heap w) target) as [cube|] eqn:G.
  - destruct (sync_workspace_heap target task w) as (fresh & -> & _).
    rewrite nth_error_app1 by (apply nth_error_Some; congruence). exact G.
  - unfold sync_workspace, bind, deref. rewrite G. exact G.
Qed.

(** The copy is there, with the bundled workspace in its two fields, behind
    the configuration the call was given. *)
Example target_configuration_unchanged_run :
  w_heap (snd (sync_workspace 0 "train" examples.fresh_world))
  = [examples.sync_cube;
     {| runtime := {| rt_workspace := "/cube/workspace"; rt_root := "/cube" |};
        workspace := Some "/cube/workspace";
        tasks := tasks examples.sync_cube |}].
Proof. vm_compute. reflexivity. Qed.

(* ===================================================================== *)
(** * No reference dangles *)
(* ===================================================================== *)

Lemma triple_bind {S A B} (I : S -> Prop) (m : M S A) (k : A -> M S B) Q R E :
  triple I m Q E -> (forall a, triple (Q a) (k a) R E) -> triple I (bind m k) R E.
Proof.
  intros Hm Hk s Is. unfold bind. specialize (Hm s Is).
  destruct (m s) as [[a|e] s1]; [| exact Hm]. exact (Hk a s1 Hm).
Qed.

Lemma triple_weaken {S A} (I : S -> Prop) (m : M S A) (Q Q' : A -> S -> Prop) E :
  triple I m Q E -> (forall a s, Q a s -> Q' a s) -> triple I m Q' E.
Proof.
  intros Hm W s Is. specialize (Hm s Is). destruct (m s) as [[a|e] s1]; auto.
Qed.

Lemma triple_pre {S A} (I I' : S -> Prop) (m : M S A) Q E :
  (forall s, I s -> I' s) -> triple I' m Q E -> triple I m Q E.
Proof. intros W Hm s Is. exact (Hm s (W s Is)). Qed.

Lemma triple_lift {S A} (I : S -> Prop) (r : Res A) (E : Exn -> Prop) :
  (forall e, r = Raise e -> E e) -> triple I (lift r) (fun _ s => I s) E.
Proof. intros He s Is. unfold lift. destruct r; auto. Qed.

Lemma triple_for_each {S A} (I : S -> Prop) (body : A -> M S unit) E (l : list A) :
  (forall x, triple I (body x) (fun _ s => I s) E) ->
  triple I (for_each l body) (fun _ s => I s) E.
Proof.
  intros Hb. induction l as [|x l IH]; cbn [for_each].
  - intros s Is. exact Is.
  - eapply triple_bind; [apply Hb | intros u; exact IH].
Qed.

Lemma nth_error_list_update_other {A} (l : list A) i j x :
  i <> j -> nth_error (list_update l i x) j = nth_error l j.
Proof.
  revert i j. induction l as [|a l IH]; intros [|i] [|j] N; cbn; try reflexivity.
  - congruence.
  - apply IH. congruence.
Qed.

Section NoDangling.

Context {FS : Type} `{FileSystem FS}.

Variable target : ref.
Variable cube : Cube.

(** The store holds the configuration the call was given, as it was. *)
Let holds (w : World FS) : Prop := nth_error (w_heap w) target = Some cube.

Let sound (e : Exn) : Prop := e <> dangling.

Lemma triple_read {A} (f : FS -> A) : triple holds (read f) (fun _ w => holds w) sound.
Proof. intros w Hw. exact Hw. Qed.

Lemma triple_effect (f : FS -> option FS) :
  triple holds (effect f) (fun _ w => holds w) sound.
Proof.
  intros w Hw. unfold effect. destruct (f (w_fs w)); [exact Hw | discriminate].
Qed.

Lemma triple_effect_distutils (f : FS -> option FS) :
  triple holds (effect_distutils f) (fun _ w => holds w) sound.
Proof.
  intros w Hw. unfold effect_distutils. destruct (f (w_fs w)); [exact Hw | discriminate].
Qed.

Lemma triple_deref :
  triple holds (deref target) (fun c w => holds w /\ c = cube) sound.
Proof. intros w Hw. unfold deref. rewrite Hw. auto. Qed.

Lemma triple_is_ok ws art must :
  triple holds (_is_ok ws art must) (fun _ w => holds w) sound.
Proof.
  intros w Hw. destruct (is_ok_run ws art must w) as (r & -> & E & _).
  destruct r as [b|e]; [exact Hw |]. destruct (E e eq_refl) as [m ->]. discriminate.
Qed.

Lemma triple_is_task_output tws art :
  triple holds (_is_task_output target tws art) (fun _ w => holds w) sound.
Proof.
  unfold _is_task_output. eapply triple_bind; [apply triple_deref |].
  intros c w [Hw Ec]. rewrite Ec. unfold lift.
  destruct (_is_output_of_tasks tws art (tasks cube)) as [b|e] eqn:R; [exact Hw |].
  rewrite (is_output_of_tasks_raises _ _ _ R). discriminate.
Qed.

Lemma triple_sync_input tws sws p :
  triple holds (sync_input target tws sws p) (fun _ w => holds w) sound.
Proof.
  destruct p as [n d]. unfold sync_input.
  assert (St : forall uri, triple holds (lift (S := World FS) (_storage_not_supported uri))
                             (fun _ w => holds w) sound).
  { intros uri. apply triple_lift. intros e R.
    rewrite (storage_not_supported_raises _ R). discriminate. }
  eapply triple_bind; [apply St | intros u].
  eapply triple_bind; [apply triple_is_ok | intros [|]; cbn [negb]; [| intros w Hw; exact Hw]].
  eapply triple_bind; [apply St | intros u'].
  eapply triple_bind; [apply triple_is_ok | intros [|]; cbn [negb]; [| intros w Hw; exact Hw]].
  eapply triple_bind; [apply triple_is_task_output | intros [|]; [intros w Hw; exact Hw |]].
  eapply triple_bind; [apply triple_read | intros [|]].
  - eapply triple_bind; [apply triple_effect | intros u0; apply triple_effect].
  - eapply triple_bind; [apply triple_read | intros [|]; [apply triple_effect_distutils |]].
    intros w Hw. discriminate.
Qed.

Lemma triple_deepcopy :
  triple holds (deepcopy target)
         (fun r w => holds w /\ r <> target /\ r < length (w_heap w)) sound.
Proof.
  intros w Hw. unfold deepcopy. rewrite Hw. cbn [w_heap].
  assert (L : target < length (w_heap w)) by (apply nth_error_Some; congruence).
  split; [| split].
  - unfold holds. cbn [w_heap]. now rewrite nth_error_app1.
  - lia.
  - rewrite length_app. cbn. lia.
Qed.

Lemma length_list_update {A} (l : list A) i x : length (list_update l i x) = length l.
Proof.
  revert i. induction l as [|a l IH]; intros [|i]; cbn; try reflexivity. now rewrite IH.
Qed.

Lemma triple_setattr r f :
  triple (fun w => holds w /\ r <> target /\ r < length (w_heap w))
         (setattr r f)
         (fun _ w => holds w /\ r <> target /\ r < length (w_heap w)) sound.
Proof.
  intros w (Hw & N & L). unfold setattr.
  destruct (nth_error (w_heap w) r) as [c|] eqn:G.
  - cbn [w_heap]. unfold holds. cbn [w_heap].
    rewrite nth_error_list_update_other by exact N.
    now rewrite length_list_update.
  - apply nth_error_None in G. lia.
Qed.

(** From a store that holds the configuration it is given, a call does not
    meet a dangling reference, and the store holds the configuration, the
    same, when the call returns. *)
Lemma sync_workspace_never_dangling (task : string) :
  triple holds (sync_workspace target task) (fun _ w => holds w) sound.
Proof.
  assert (Drop : forall (w : World FS) (P : Prop), holds w /\ P -> holds w)
    by (intros w P [Hw _]; exact Hw).
  unfold sync_workspace.
  eapply triple_bind; [apply triple_deref | intros c].
  eapply triple_bind.
  { eapply triple_pre; [intros w; apply Drop |]. apply triple_lift. intros e R.
    rewrite (storage_not_supported_raises _ R). discriminate. }
  intros ws.
  eapply triple_bind; [apply triple_read | intros tws].
  eapply triple_bind; [apply triple_effect | intros u0].
  eapply triple_bind; [apply triple_deref | intros c1].
  eapply triple_bind; [eapply triple_pre; [intros w; apply Drop | apply triple_read] | intros sws].
  eapply triple_bind; [apply triple_read | intros [|]; cbn [negb];
                                           [| intros w Hw; exact Hw]].
  eapply triple_bind.
  { intros w Hw. unfold samefile. destruct (os_path_samefile _ _ _); [exact Hw | discriminate]. }
  intros [|]; [intros w Hw; exact Hw |].
  eapply triple_bind; [apply triple_deref | intros c2].
  destruct (mem (tasks c2) task); cbn [negb]; [| intros w Hw; discriminate].
  eapply triple_bind; [eapply triple_pre; [intros w; apply Drop | apply triple_deepcopy] | intros r].
  eapply triple_bind; [apply triple_setattr | intros u1].
  eapply triple_bind; [apply triple_setattr | intros u2].
  eapply triple_bind; [eapply triple_pre; [intros w; apply Drop | apply triple_deref] |].
  intros c3. destruct (get (tasks c3) task) as [t|].
  - eapply triple_pre; [intros w; apply Drop |].
    apply triple_for_each. intros p. apply triple_sync_input.
  - intros w _. discriminate.
Qed.

End NoDangling.

(* ===================================================================== *)
(** * [generate_mounts_and_args]: what a call does and how it fails *)
(* ===================================================================== *)

Section GenerateTrace.

Context {FS : Type} `{FileSystem FS}.

Lemma resolve_type_declared io ty hp (s : GenState FS) ty' :
  fst (resolve_type io ty hp s) = Ok ty' ->
  (ty' = DIRECTORY -> ty <> FILE) /\ (ty' = FILE -> ty <> DIRECTORY).
Proof.
  destruct ty; cbn; try (intros [= <-]; split; congruence).
  intros _. split; congruence.
Qed.

Lemma resolve_type_raises io ty hp (s : GenState FS) e :
  fst (resolve_type io ty hp s) = Raise e ->
  exists why, e = ConfigurationError why /\ why <> InvalidIO.
Proof.
  unfold resolve_type, bind, gen_isdir, gen_isfile, ret, raise.
  destruct ty; cbn [fst]; try discriminate.
  destruct io; cbn [fst];
    try (intros [= <-]; eexists; split; [reflexivity | discriminate]);
    destruct (os_path_isdir (g_fs s) hp); cbn [fst]; try discriminate;
    destruct (os_path_isfile (g_fs s) hp); cbn [fst]; try discriminate;
    intros [= <-]; eexists; split; try reflexivity; discriminate.
Qed.

(** A round that raises has changed nothing. *)
Lemma generate_param_raises (mlcube : Cube) io p (s s1 : GenState FS) e :
  _generate_param mlcube io p s = (Raise e, s1) ->
  s1 = s /\ generate_failure e.
Proof.
  intros R.
  destruct (ParameterType_is_valid (type (snd p))) eqn:V.
  2:{ destruct p as [n d]. unfold _generate_param in R. cbn [snd] in V. rewrite V in R.
      injection R as <- <-. split; [reflexivity |]. right. eexists. split; [reflexivity |].
      discriminate. }
  rewrite (generate_param_run mlcube io p s V) in R.
  destruct (fst (resolve_type io (type (snd p)) _ s)) as [ty|e0] eqn:T.
  - assert (P : forall r, process r s = (Raise e, s1) -> s1 = s /\ generate_failure e).
    { intros r. unfold process. destruct (os_makedirs _ _); [discriminate |].
      intros [= <- <-]. split; [reflexivity | now left]. }
    destruct ty; eauto; discriminate.
  - injection R as <- <-. split; [reflexivity |]. right.
    eapply resolve_type_raises. exact T.
Qed.

(** A round that returns, with the registration it made. *)
Lemma generate_param_trace (mlcube : Cube) io p (s s1 : GenState FS) u :
  _generate_param mlcube io p s = (Ok u, s1) ->
  exists r,
    registered_as (rt_workspace (runtime mlcube)) p r
    /\ os_makedirs (g_fs s) (reg_host r) = Some (g_fs s1)
    /\ g_mounts s1 = registered (g_mounts s) r
    /\ g_args s1 = (g_args s ++ [argument (g_mounts s1) r])%list.
Proof.
  intros R.
  destruct (ParameterType_is_valid (type (snd p))) eqn:V.
  2:{ destruct p as [n d]. unfold _generate_param in R. cbn [snd] in V.
      rewrite V in R. discriminate. }
  rewrite (generate_param_run mlcube io p s V) in R.
  set (ws := rt_workspace (runtime mlcube)) in *.
  destruct (fst (resolve_type io (type (snd p)) (posixpath.join ws (default (snd p))) s))
    as [ty|e] eqn:T; [| discriminate].
  destruct (resolve_type_declared _ _ _ _ T) as [Dd Df].
  destruct (resolve_type_result _ _ _ _ V T) as [-> | ->].
  - exists (as_directory ws p). split; [left; auto |].
    unfold process in R. destruct (os_makedirs _ _); [| discriminate].
    injection R as _ <-. cbn [g_fs g_mounts g_args]. auto.
  - exists (as_file ws p). split; [right; auto |].
    unfold process in R. destruct (os_makedirs _ _); [| discriminate].
    injection R as _ <-. cbn [g_fs g_mounts g_args]. auto.
Qed.

Lemma fold_registered_extends regs : forall mounts : dict string,
  exists ext, fold_left registered regs mounts = (mounts ++ ext)%list.
Proof.
  induction regs as [|r regs IH]; intros mounts; cbn [fold_left].
  - exists []. now rewrite app_nil_r.
  - destruct (registered_extends mounts r) as [e1 E1].
    destruct (IH (registered mounts r)) as [e2 E2].
    exists (e1 ++ e2)%list. now rewrite E2, E1, app_assoc.
Qed.

(** A pass of the loop that returns: the registrations it made, in order. *)
Lemma generate_loop_trace (mlcube : Cube) io ps : forall (s s' : GenState FS) u,
  for_each ps (_generate_param mlcube io) s = (Ok u, s') ->
  exists regs,
    Forall2 (registered_as (rt_workspace (runtime mlcube))) ps regs
    /\ made (g_fs s) regs = Some (g_fs s')
    /\ g_mounts s' = fold_left registered regs (g_mounts s)
    /\ g_args s' = (g_args s ++ map (argument (g_mounts s')) regs)%list.
Proof.
  induction ps as [|p ps IH]; intros s s' u R.
  - injection R as _ <-. exists []. rewrite app_nil_r. repeat split; constructor.
  - cbn [for_each] in R. unfold bind in R.
    destruct (_generate_param mlcube io p s) as [[[]|e] s1] eqn:B; [| discriminate].
    destruct (generate_param_trace _ _ _ _ B) as (r & Rg & Mk & Mo & Ar).
    destruct (IH s1 s' u R) as (regs & F2 & Md & Fo & Ar').
    exists (r :: regs). split; [now constructor |].
    split; [cbn [made]; now rewrite Mk |].
    split; [cbn [fold_left]; now rewrite <- Mo |].
    destruct (fold_registered_extends regs (g_mounts s1)) as [ext Ex].
    rewrite <- Fo in Ex.
    assert (A : argument (g_mounts s') r = argument (g_mounts s1) r).
    { rewrite Ex. apply argument_app. rewrite Mo. apply registered_mem. }
    rewrite Ar', Ar. cbn [map]. rewrite <- app_assoc. cbn [app]. now rewrite A.
Qed.

(** A pass of the loop that raises. *)
Lemma generate_loop_raises (mlcube : Cube) io ps : forall (s s' : GenState FS) e,
  for_each ps (_generate_param mlcube io) s = (Raise e, s') -> generate_failure e.
Proof.
  induction ps as [|p ps IH]; intros s s' e R; [discriminate |].
  cbn [for_each] in R. unfold bind in R.
  destruct (_generate_param mlcube io p s) as [[[]|e0] s1] eqn:B.
  - exact (IH _ _ _ R).
  - injection R as <- _. exact (proj2 (generate_param_raises _ _ _ _ B)).
Qed.

(** A pass over parameters of which one has a type outside the enumeration
    does not return. *)
Lemma invalid_type_stops_loop (mlcube : Cube) io p ps :
  In p ps -> ParameterType_is_valid (type (snd p)) = false ->
  forall s : GenState FS,
  exists e s', for_each ps (_generate_param mlcube io) s = (Raise e, s').
Proof.
  intros I V. induction ps as [|q ps IH]; [destruct I |].
  intros s. cbn [for_each]. unfold bind.
  destruct I as [-> | I].
  - destruct p as [n d]. unfold _generate_param at 1. cbn [snd] in V. rewrite V. cbn. eauto.
  - destruct (_generate_param mlcube io q s) as [[[]|e] s1]; [| eauto].
    apply (IH I).
Qed.

Lemma made_app (fs fs1 fs2 : FS) regs1 regs2 :
  made fs regs1 = Some fs1 -> made fs1 regs2 = Some fs2 ->
  made fs (regs1 ++ regs2)%list = Some fs2.
Proof.
  revert fs. induction regs1 as [|r regs1 IH]; intros fs; cbn [made app].
  - now intros [= ->].
  - destruct (os_makedirs fs (reg_host r)); [apply IH | discriminate].
Qed.

(** The whole call, when it returns. *)
Lemma generate_trace (mlcube : Cube) task (fs fs' : FS) mounts args :
  generate_mounts_and_args mlcube task fs = (Ok (mounts, args), fs') ->
  exists t regs,
    get (tasks mlcube) task = Some t
    /\ Forall2 (registered_as (rt_workspace (runtime mlcube)))
               (inputs (parameters t) ++ outputs (parameters t))%list regs
    /\ made fs regs = Some fs'
    /\ mounts = fold_left registered regs []
    /\ args = task :: map (argument mounts) regs.
Proof.
  unfold generate_mounts_and_args. intros R.
  destruct (get (tasks mlcube) task) as [t|]; [| discriminate].
  exists t. unfold _generate in R. cbn [IOType_is_valid negb] in R.
  unfold bind in R.
  set (s0 := {| g_fs := fs; g_mounts := []; g_args := [task] |}) in R.
  destruct (for_each (inputs (parameters t)) (_generate_param mlcube INPUT) s0)
    as [[[]|e] s1] eqn:L1; [| discriminate].
  destruct (for_each (outputs (parameters t)) (_generate_param mlcube OUTPUT) s1)
    as [[[]|e] s2] eqn:L2; [| discriminate].
  injection R as <- <- <-.
  destruct (generate_loop_trace _ _ _ _ L1) as (r1 & F1 & M1 & Fo1 & A1).
  destruct (generate_loop_trace _ _ _ _ L2) as (r2 & F2 & M2 & Fo2 & A2).
  exists (r1 ++ r2)%list. split; [reflexivity |].
  split; [now apply Forall2_app |].
  split; [eapply made_app; [exact M1 | exact M2] |].
  split; [rewrite fold_left_app, Fo2, Fo1; reflexivity |].
  destruct (fold_registered_extends r2 (g_mounts s1)) as [ext Ex]. rewrite <- Fo2 in Ex.
  assert (Me : Forall (fun r => mem (g_mounts s1) (reg_host r) = true) r1).
  { rewrite Fo1. clear. generalize (g_mounts s0).
    induction r1 as [|r r1 IH]; intros m; [constructor |]. cbn [fold_left].
    constructor; [| apply IH].
    destruct (fold_registered_extends r1 (registered m r)) as [e ->].
    apply mem_app, registered_mem. }
  rewrite A2, A1, map_app. unfold s0. cbn [g_args app]. do 2 f_equal.
  rewrite Ex. symmetry. now apply arguments_app.
Qed.

End GenerateTrace.

Lemma get_Some_In {V} (d : dict V) k v : get d k = Some v -> In k (keys d).
Proof.
  induction d as [|[k' v'] d IH]; cbn; [discriminate |].
  destruct (String.eqb_spec k' k); [now left | intros G; right; now apply IH].
Qed.

Lemma registered_keys (mounts : dict string) r h :
  In h (keys (registered mounts r)) <-> In h (keys mounts) \/ h = reg_host r.
Proof.
  unfold registered. destruct (get mounts (reg_host r)) eqn:G.
  - split; [now left | intros [I | ->]; [exact I | exact (get_Some_In _ _ G)]].
  - unfold keys. rewrite map_app, in_app_iff. cbn. intuition congruence.
Qed.

Lemma registered_length (mounts : dict string) r :
  length (registered mounts r) <= S (length mounts).
Proof.
  unfold registered. destruct (get mounts (reg_host r)); [lia |].
  rewrite length_app. cbn. lia.
Qed.

Lemma fold_registered_keys regs : forall (mounts : dict string) h,
  In h (keys (fold_left registered regs mounts))
  <-> In h (keys mounts) \/ In h (map reg_host regs).
Proof.
  induction regs as [|r regs IH]; intros mounts h; cbn [fold_left map].
  - cbn. tauto.
  - rewrite IH, registered_keys. cbn. intuition congruence.
Qed.

Lemma fold_registered_length regs : forall mounts : dict string,
  length (fold_left registered regs mounts) <= length mounts + length regs.
Proof.
  induction regs as [|r regs IH]; intros mounts; cbn [fold_left length]; [lia |].
  specialize (IH (registered mounts r)). pose proof (registered_length mounts r). lia.
Qed.

Lemma registered_as_declared ws ps regs :
  Forall2 (registered_as ws) ps regs -> Forall declared ps -> regs = map (planned ws) ps.
Proof.
  induction 1 as [|p r ps regs R _ IH]; intros D; [reflexivity |].
  inversion D as [|? ? Dp Dps]; subst. cbn [map]. rewrite (IH Dps). f_equal.
  unfold planned. destruct R as [[-> N] | [-> N]], Dp as [T | T]; rewrite T in *;
    congruence.
Qed.

(** X1. A call raises [KeyError] exactly for a task the cube does not
    declare: on such a task every call raises it, before it has done
    anything to the host, and a call that raises it was given such a task.
    On a declared task a call raises nothing but [ConfigurationError] (never
    the one for an invalid IO) and the [OSError] of [os.makedirs]: the
    look-up in the mount table that follows a registration does not fail. *)
Theorem generate_failures :
  forall FS (F : FileSystem FS) (mlcube : Cube) (task : string) (fs : FS),
    (get (tasks mlcube) task = None ->
     generate_mounts_and_args mlcube task fs = (Raise (KeyError task), fs))
    /\ (forall (key : string) (fs' : FS),
           generate_mounts_and_args mlcube task fs = (Raise (KeyError key), fs') ->
           get (tasks mlcube) task = None /\ key = task /\ fs' = fs)
    /\ (forall (e : Exn) (fs' : FS),
           get (tasks mlcube) task <> None ->
           generate_mounts_and_args mlcube task fs = (Raise e, fs') ->
           generate_failure e).
Proof.
  intros FS F mlcube task fs.
  assert (Declared : forall t e fs',
             get (tasks mlcube) task = Some t ->
             generate_mounts_and_args mlcube task fs = (Raise e, fs') ->
             generate_failure e).
  { intros t e fs' G. unfold generate_mounts_and_args. rewrite G. intros R.
    unfold _generate in R. cbn [IOType_is_valid negb] in R. unfold bind in R.
    destruct (for_each (inputs (parameters t)) _ _) as [[[]|e1] s1] eqn:L1.
    - destruct (for_each (outputs (parameters t)) _ s1) as [[[]|e2] s2] eqn:L2;
        [discriminate |].
      injection R as <- _. exact (generate_loop_raises _ _ _ _ L2).
    - injection R as <- _. exact (generate_loop_raises _ _ _ _ L1). }
  split; [| split].
  - intros G. unfold generate_mounts_and_args. now rewrite G.
  - intros key fs' R. destruct (get (tasks mlcube) task) as [t|] eqn:G.
    + destruct (Declared t _ _ eq_refl R) as [E | (why & E & _)]; discriminate.
    + unfold generate_mounts_and_args in R. rewrite G in R.
      injection R as <- <-. auto.
  - intros e fs' G R. destruct (get (tasks mlcube) task) as [t|] eqn:Gt; [| now destruct G].
    exact (Declared t e fs' eq_refl R).
Qed.

Lemma generate_failures_witness :
  generate_mounts_and_args examples.train_cube "evaluate" examples.bare_host
  = (Raise (KeyError "evaluate"), examples.bare_host)
  /\ (get (tasks examples.train_cube) "evaluate" = None
      /\ "evaluate" = "evaluate" /\ examples.bare_host = examples.bare_host)
  /\ generate_failure
       (ConfigurationError TypeIsInvalid).
Proof.
  split; [| split].
  - apply (proj1 (@generate_failures memfs.t memfs_FileSystem examples.train_cube "evaluate"
                    examples.bare_host)). reflexivity.
  - apply (proj1 (proj2 (@generate_failures memfs.t memfs_FileSystem examples.train_cube
                           "evaluate" examples.bare_host)) "evaluate" examples.bare_host).
    reflexivity.
  - apply (proj2 (proj2 (@generate_failures memfs.t memfs_FileSystem
                           more_examples.mistyped_cube "train" examples.bare_host))
             (ConfigurationError TypeIsInvalid)
             (snd (generate_mounts_and_args more_examples.mistyped_cube "train"
                     examples.bare_host))).
    + discriminate.
    + vm_compute. reflexivity.
Defined.

(** X2. When a call returns, the host is the one it was given with the host
    directory of each parameter made, inputs first, each group in the order
    of its declaration, and nothing else done to it; the table is what the
    registrations of these directories build from the empty table, so its
    keys are these directories and it has no more entries than the task has
    parameters. *)
Theorem generate_makes_what_it_mounts :
  forall FS (F : FileSystem FS) (mlcube : Cube) (task : string) (fs fs' : FS) mounts args,
    generate_mounts_and_args mlcube task fs = (Ok (mounts, args), fs') ->
    exists t regs,
      get (tasks mlcube) task = Some t
      /\ Forall2 (registered_as (rt_workspace (runtime mlcube)))
                 (inputs (parameters t) ++ outputs (parameters t))%list regs
      /\ made fs regs = Some fs'
      /\ mounts = fold_left registered regs []
      /\ (forall h, In h (keys mounts) <-> In h (map reg_host regs))
      /\ length mounts <= length (inputs (parameters t) ++ outputs (parameters t))%list.
Proof.
  intros FS F mlcube task fs fs' mounts args R.
  destruct (generate_trace _ _ _ R) as (t & regs & G & F2 & Md & Fo & _).
  exists t, regs. repeat split; auto.
  - rewrite Fo, fold_registered_keys. cbn. tauto.
  - rewrite Fo, fold_registered_keys. cbn. tauto.
  - rewrite Fo, (Forall2_length F2).
    exact (fold_registered_length regs []).
Qed.

Lemma generate_makes_what_it_mounts_witness :
  exists t regs,
    get (tasks examples.train_cube) "train" = Some t
    /\ Forall2 (registered_as "/ws")
               (inputs (parameters t) ++ outputs (parameters t))%list regs
    /\ made examples.bare_host regs = Some examples.train_host
    /\ examples.train_mounts = fold_left registered regs []
    /\ (forall h, In h (keys examples.train_mounts) <-> In h (map reg_host regs))
    /\ length examples.train_mounts
       <= length (inputs (parameters t) ++ outputs (parameters t))%list.
Proof.
  apply (@generate_makes_what_it_mounts memfs.t memfs_FileSystem examples.train_cube
           "train" examples.bare_host examples.train_host examples.train_mounts
           examples.train_args).
  vm_compute. reflexivity.
Defined.

(** X3. When every parameter of the task says what it is, FILE or DIRECTORY,
    the mounts and the arguments of a call that returns are those computed
    from the configuration alone: the host decides whether the call returns,
    not what it returns; and the host after the call has the planned
    directories made. *)
Theorem declared_types_fix_the_result :
  forall FS (F : FileSystem FS) (mlcube : Cube) (task : string) (t : Task)
         (fs fs' : FS) mounts args,
    get (tasks mlcube) task = Some t ->
    Forall declared (inputs (parameters t) ++ outputs (parameters t))%list ->
    generate_mounts_and_args mlcube task fs = (Ok (mounts, args), fs') ->
    (mounts, args)
    = plan (rt_workspace (runtime mlcube)) task
           (inputs (parameters t) ++ outputs (parameters t))%list
    /\ made fs (map (planned (rt_workspace (runtime mlcube)))
                    (inputs (parameters t) ++ outputs (parameters t))%list) = Some fs'.
Proof.
  intros FS F mlcube task t fs fs' mounts args G D R.
  destruct (generate_trace _ _ _ R) as (t' & regs & G' & F2 & Md & Fo & Ar).
  rewrite G in G'. injection G' as <-.
  rewrite (registered_as_declared F2 D) in *.
  split; [| exact Md]. unfold plan. rewrite <- Fo. now rewrite Ar.
Qed.

Lemma declared_types_fix_the_result_witness :
  (examples.train_mounts, examples.train_args)
  = plan "/ws" "train"
         [("input_data", {| type := DIRECTORY; default := "data/train" |});
          ("cfg", {| type := FILE; default := "config/params.yaml" |});
          ("model", {| type := DIRECTORY; default := "data/train" |});
          ("log", {| type := FILE; default := "config/log.txt" |})]
  /\ made examples.bare_host
       (map (planned "/ws")
            [("input_data", {| type := DIRECTORY; default := "data/train" |});
             ("cfg", {| type := FILE; default := "config/params.yaml" |});
             ("model", {| type := DIRECTORY; default := "data/train" |});
             ("log", {| type := FILE; default := "config/log.txt" |})])
     = Some examples.train_host.
Proof.
  apply (@declared_types_fix_the_result memfs.t memfs_FileSystem examples.train_cube
           "train" _ examples.bare_host examples.train_host examples.train_mounts
           examples.train_args eq_refl).
  - repeat (apply Forall_cons; [unfold declared; cbn; auto |]). apply Forall_nil.
  - vm_compute. reflexivity.
Defined.

(** X4. A parameter whose type is outside the enumeration, among the inputs
    or the outputs, makes every call on its task raise: the call does not
    return mounts and arguments that leave the parameter out. *)
Theorem invalid_type_stops_the_call :
  forall FS (F : FileSystem FS) (mlcube : Cube) (task : string) (t : Task)
         (p : string * ParamDef) (fs : FS),
    get (tasks mlcube) task = Some t ->
    In p (inputs (parameters t) ++ outputs (parameters t))%list ->
    ParameterType_is_valid (type (snd p)) = false ->
    exists e fs',
      generate_mounts_and_args mlcube task fs = (Raise e, fs') /\ generate_failure e.
Proof.
  intros FS F mlcube task t p fs G I V.
  assert (N : forall e fs', generate_mounts_and_args mlcube task fs = (Raise e, fs') ->
                            generate_failure e).
  { intros e fs' R. unfold generate_mounts_and_args in R. rewrite G in R.
    unfold _generate in R. cbn [IOType_is_valid negb] in R. unfold bind in R.
    destruct (for_each (inputs (parameters t)) _ _) as [[[]|e1] s1] eqn:L1.
    - destruct (for_each (outputs (parameters t)) _ s1) as [[[]|e2] s2] eqn:L2;
        [discriminate |].
      injection R as <- _. exact (generate_loop_raises _ _ _ _ L2).
    - injection R as <- _. exact (generate_loop_raises _ _ _ _ L1). }
  assert (E : exists e fs', generate_mounts_and_args mlcube task fs = (Raise e, fs')).
  { unfold generate_mounts_and_args. rewrite G. unfold _generate.
    cbn [IOType_is_valid negb]. unfold bind at 1.
    apply in_app_or in I. destruct I as [I | I].
    - destruct (invalid_type_stops_loop mlcube INPUT _ _ I V
                  {| g_fs := fs; g_mounts := []; g_args := [task] |}) as (e & s' & ->).
      eauto.
    - destruct (for_each (inputs (parameters t)) _ _) as [[[]|e] s1]; [| eauto].
      destruct (invalid_type_stops_loop mlcube OUTPUT _ _ I V s1) as (e & s' & ->).
      eauto. }
  destruct E as (e & fs' & R). exists e, fs'. split; [exact R | exact (N e fs' R)].
Qed.

Lemma invalid_type_stops_the_call_witness :
  exists e fs',
    generate_mounts_and_args more_examples.mistyped_cube "train" examples.bare_host
    = (Raise e, fs')
    /\ generate_failure e.
Proof.
  apply (@invalid_type_stops_the_call memfs.t memfs_FileSystem
           more_examples.mistyped_cube "train" _
           ("cfg", {| type := OtherParameterType "folder"; default := "cfg" |})
           examples.bare_host eq_refl).
  - cbn. right. left. reflexivity.
  - reflexivity.
Defined.

(* ===================================================================== *)
(** * [to_cli_args]: concatenation *)
(* ===================================================================== *)

Lemma space_joined_app (x y : list string) :
  x <> [] -> y <> [] ->
  space_joined (x ++ y)%list = space_joined x ++ " " ++ space_joined y.
Proof.
  intros Nx Ny. induction x as [|a [|b x] IH]; [congruence | |].
  - destruct y; [congruence | reflexivity].
  - change (space_joined ((a :: b :: x) ++ y)%list)
      with (a ++ " " ++ space_joined ((b :: x) ++ y)%list).
    rewrite IH by discriminate.
    change (space_joined (a :: b :: x)) with (a ++ " " ++ space_joined (b :: x)).
    now rewrite !append_assoc.
Qed.

(** X5. The rendering of two mappings one after the other is the rendering
    of the first, a space, and the rendering of the second; an empty mapping
    on either side adds nothing, not even the space. *)
Theorem to_cli_args_concatenation :
  forall V (F : PyFormat V) (first second : dict V) (sep : string)
         (parent_arg : option string),
    to_cli_args (first ++ second)%list sep parent_arg
    = match first, second with
      | [], _ => to_cli_args second sep parent_arg
      | _, [] => to_cli_args first sep parent_arg
      | _, _ => to_cli_args first sep parent_arg ++ " " ++ to_cli_args second sep parent_arg
      end.
Proof.
  intros V F first second sep parent_arg.
  destruct first as [|a first]; [reflexivity |].
  destruct second as [|b second]; [now rewrite app_nil_r |].
  unfold to_cli_args. rewrite !join_space_joined, map_app.
  apply space_joined_app; discriminate.
Qed.

(* ===================================================================== *)
(** * [sync_workspace]: which paths are inside a workspace *)
(* ===================================================================== *)

Lemma split_not_nil c s : pystr.split c s <> [].
Proof.
  destruct s as [|a s]; cbn; [discriminate |].
  destruct (Ascii.eqb a c); [discriminate |]. destruct (pystr.split c s); discriminate.
Qed.

Lemma split_app_sep c a b :
  pystr.split c (a ++ String c b) = (pystr.split c a ++ pystr.split c b)%list.
Proof.
  induction a as [|x a IH]; cbn [append pystr.split].
  - now rewrite Ascii.eqb_refl.
  - destruct (Ascii.eqb x c); [now rewrite IH |].
    rewrite IH. destruct (pystr.split c a) as [|w ws] eqn:S; [| reflexivity].
    now destruct (split_not_nil c a).
Qed.

Lemma comps_app_sep a b :
  posixpath.comps (a ++ String "/" b) = (posixpath.comps a ++ posixpath.comps b)%list.
Proof. unfold posixpath.comps. now rewrite split_app_sep, filter_app. Qed.

Lemma endswith_char_app s c :
  pystr.endswith_char s c = true -> exists s', s = s' ++ String c "".
Proof.
  induction s as [|a s IH]; [discriminate |].
  destruct s as [|b s].
  - cbn. destruct (Ascii.eqb_spec a c); [subst; exists ""; reflexivity | discriminate].
  - intros E. destruct (IH E) as [s' ->]. exists (String a s'). reflexivity.
Qed.

Lemma comps_join ws u :
  ws <> "" -> posixpath.isabs u = false ->
  posixpath.comps (posixpath.join ws u) = (posixpath.comps ws ++ posixpath.comps u)%list.
Proof.
  intros N U. unfold posixpath.join. fold (posixpath.isabs u). rewrite U.
  destruct (String.eqb_spec ws ""); [congruence |]. cbn [orb].
  destruct (pystr.endswith_char ws posixpath.sep) eqn:E.
  - destruct (endswith_char_app _ _ E) as [ws' ->].
    rewrite append_assoc. cbn [append]. rewrite !comps_app_sep.
    change (posixpath.comps "") with (@nil string). now rewrite app_nil_r.
  - cbn [append]. apply comps_app_sep.
Qed.

Lemma common_prefix_app (a b : list string) : posixpath.common_prefix a (a ++ b)%list = a.
Proof.
  induction a as [|x a IH]; [reflexivity |]. cbn. now rewrite String.eqb_refl, IH.
Qed.

Lemma join_isabs ws u : posixpath.isabs ws = true -> posixpath.isabs (posixpath.join ws u) = true.
Proof.
  intros A. unfold posixpath.join. fold (posixpath.isabs u).
  destruct (posixpath.isabs u) eqn:U; [exact U |].
  unfold posixpath.isabs, pystr.startswith in *.
  destruct ws as [|c ws]; [cbn in A; discriminate |].
  cbn [String.prefix] in A. destruct (ascii_dec "/" c) as [<- |]; [| discriminate].
  destruct (_ || _); cbn [append String.prefix];
    (destruct (ascii_dec "/" "/") as [_ | N]; [| now destruct N]);
    now destruct (_ ++ _).
Qed.

Lemma isabs_not_empty ws : posixpath.isabs ws = true -> ws <> "".
Proof. intros A ->. cbn in A. discriminate. Qed.

Lemma is_inside_relative :
  forall (workspace path : string),
    posixpath.isabs workspace = true ->
    posixpath.isabs path = false ->
    _is_inside_workspace workspace (posixpath.join workspace path) = Ok true.
Proof.
  intros ws u A U. unfold _is_inside_workspace, rbind, posixpath.commonpath.
  cbn [forallb map fold_left]. rewrite (@join_isabs ws u A), A. cbn [Bool.eqb andb].
  rewrite (@comps_join ws u (isabs_not_empty A) U), common_prefix_app.
  now rewrite String.eqb_refl.
Qed.


(** X6. With an absolute workspace, every relative path is taken to be
    inside it: [commonpath] compares the components as they are written, so
    a path that leaves the workspace through [..] passes the test too. *)
Theorem relative_path_is_inside :
  forall (workspace path : string),
    posixpath.isabs workspace = true ->
    posixpath.isabs path = false ->
    _is_inside_workspace workspace (posixpath.join workspace path) = Ok true.
Proof. exact is_inside_relative. Qed.

Lemma relative_path_is_inside_witness :
  _is_inside_workspace "/tgt" (posixpath.join "/tgt" "../etc/passwd") = Ok true.
Proof. apply relative_path_is_inside; reflexivity. Defined.

Lemma length_append (a b : string) :
  String.length (a ++ b) = String.length a + String.length b.
Proof. induction a as [|x a IH]; cbn; [reflexivity | now rewrite IH]. Qed.

Lemma join_longer (cp rest : list string) :
  Forall (fun c => c <> "") rest -> rest <> [] ->
  String.length (pystr.join "/" cp) < String.length (pystr.join "/" (cp ++ rest)%list).
Proof.
  intros Ne Nn. unfold pystr.join. induction cp as [|y [|y' cp] IH].
  - destruct rest as [|x rest]; [congruence |]. inversion Ne as [|? ? Nx _]; subst.
    cbn [app String.concat]. assert (0 < String.length x) by (destruct x; cbn; [congruence | lia]).
    destruct rest; [cbn; lia |]. rewrite length_append. cbn [String.length]. lia.
  - destruct rest as [|x rest]; [congruence |]. cbn [app String.concat].
    rewrite length_append. cbn. lia.
  - change (String.concat "/" ((y :: y' :: cp) ++ rest)%list)
      with (y ++ "/" ++ String.concat "/" ((y' :: cp) ++ rest)%list).
    change (String.concat "/" (y :: y' :: cp))
      with (y ++ "/" ++ String.concat "/" (y' :: cp)).
    rewrite !length_append. lia.
Qed.

Lemma comps_not_empty s : Forall (fun c => c <> "") (posixpath.comps s).
Proof.
  unfold posixpath.comps. apply Forall_forall. intros c I.
  apply filter_In in I. destruct I as [_ E].
  destruct (String.eqb_spec c ""); [discriminate | assumption].
Qed.

Lemma common_prefix_leads (a b : list string) :
  exists rest,
    a = (posixpath.common_prefix a b ++ rest)%list
    /\ (leads a b = true -> rest = [])
    /\ (leads a b = false -> rest <> []).
Proof.
  revert b. induction a as [|x a IH]; intros b.
  - exists []. cbn. repeat split; congruence.
  - destruct b as [|y b].
    + exists (x :: a). cbn. repeat split; congruence.
    + cbn [posixpath.common_prefix leads]. destruct (x =? y) eqn:E; cbn [andb].
      * destruct (IH b) as (rest & Eq & T & Fa). exists rest.
        split; [cbn; now rewrite <- Eq | auto].
      * exists (x :: a). cbn. repeat split; congruence.
Qed.

Lemma is_inside_absolute :
  forall (workspace artifact : string),
    posixpath.isabs workspace = true ->
    posixpath.isabs artifact = true ->
    _is_inside_workspace workspace artifact
    = Ok (leads (posixpath.comps workspace) (posixpath.comps artifact)).
Proof.
  intros ws art A B. unfold _is_inside_workspace, rbind, posixpath.commonpath.
  cbn [forallb map fold_left]. rewrite A, B. cbn [Bool.eqb andb]. f_equal.
  destruct (common_prefix_leads (posixpath.comps ws) (posixpath.comps art))
    as (rest & Eq & T & Fa).
  destruct (leads (posixpath.comps ws) (posixpath.comps art)).
  - rewrite (T eq_refl), app_nil_r in Eq. rewrite <- Eq. apply String.eqb_refl.
  - apply String.eqb_neq. intros E.
    assert (L : String.length (pystr.join "/" (posixpath.comps ws))
                = String.length (pystr.join "/" (posixpath.common_prefix
                                                   (posixpath.comps ws) (posixpath.comps art))))
      by (injection E as E; now rewrite E).
    assert (Ne : Forall (fun c => c <> "") rest).
    { pose proof (comps_not_empty ws) as N. rewrite Eq in N.
      apply Forall_app in N. tauto. }
    pose proof (join_longer (posixpath.common_prefix (posixpath.comps ws) (posixpath.comps art))
                  Ne (Fa eq_refl)) as Lt.
    rewrite <- Eq in Lt. lia.
Qed.


(** X7. Between absolute paths, an artifact is inside a workspace exactly
    when the components of the workspace, the empty ones and [.] left out,
    are the first components of the artifact: a path that shares only a
    prefix of letters with the workspace is outside, and [commonpath] raises
    nothing. *)
Theorem inside_is_leading_components :
  forall (workspace artifact : string),
    posixpath.isabs workspace = true ->
    posixpath.isabs artifact = true ->
    _is_inside_workspace workspace artifact
    = Ok (leads (posixpath.comps workspace) (posixpath.comps artifact)).
Proof. exact is_inside_absolute. Qed.

Lemma inside_is_leading_components_witness :
  _is_inside_workspace "/tgt" "/tgt2/data" = Ok false
  /\ _is_inside_workspace "/tgt" "/tgt/./data" = Ok true.
Proof.
  split.
  - exact (@inside_is_leading_components "/tgt" "/tgt2/data" eq_refl eq_refl).
  - exact (@inside_is_leading_components "/tgt" "/tgt/./data" eq_refl eq_refl).
Defined.

(* ===================================================================== *)
(** * [sync_workspace]: the rounds of the loop *)
(* ===================================================================== *)

Section SyncRounds.

Context {FS : Type} `{FileSystem FS}.

Lemma join_absolute ws u : posixpath.isabs u = true -> posixpath.join ws u = u.
Proof. intros U. unfold posixpath.join. fold (posixpath.isabs u). now rewrite U. Qed.

(** [_is_ok] on a relative path below an absolute workspace: only existence
    counts. *)
Lemma is_ok_relative ws u must (w : World FS) :
  posixpath.isabs ws = true -> posixpath.isabs u = false ->
  _is_ok ws (posixpath.join ws u) must w
  = (Ok (Bool.eqb must (os_path_exists (w_fs w) (posixpath.join ws u))), w).
Proof.
  intros A U. unfold _is_ok, bind, lift, read, ret.
  rewrite (@is_inside_relative ws u A U). cbn [negb].
  destruct must, (os_path_exists (w_fs w) (posixpath.join ws u)); reflexivity.
Qed.

Lemma storage_not_supported_plain uri :
  storage_uri uri = false -> _storage_not_supported uri = Ok (pystr.strip uri).
Proof. unfold _storage_not_supported, storage_uri. now intros ->. Qed.

Lemma sync_input_missing target tws sws name d (w : World FS) :
  posixpath.isabs sws = true ->
  storage_uri (default d) = false ->
  os_path_exists (w_fs w) (posixpath.join sws (pystr.strip (default d))) = false ->
  sync_input target tws sws (name, d) w = (Ok tt, w).
Proof.
  intros A S E. unfold sync_input, bind, lift. rewrite (storage_not_supported_plain _ S).
  unfold _is_ok, bind, lift, read, ret.
  destruct (@is_inside_workspace_abs sws (pystr.strip (default d)) A) as [b ->].
  destruct b; cbn [negb]; [| reflexivity]. rewrite E. reflexivity.
Qed.

Lemma sync_input_outside target tws sws name d (w : World FS) :
  posixpath.isabs sws = true ->
  storage_uri (default d) = false ->
  posixpath.isabs (pystr.strip (default d)) = true ->
  leads (posixpath.comps sws) (posixpath.comps (pystr.strip (default d))) = false ->
  sync_input target tws sws (name, d) w = (Ok tt, w).
Proof.
  intros A S U L. unfold sync_input, bind, lift. rewrite (storage_not_supported_plain _ S).
  unfold _is_ok, bind, lift, read, ret. rewrite (@join_absolute sws _ U).
  rewrite (@is_inside_absolute sws _ A U), L. reflexivity.
Qed.

(** The round of an input that is to be copied, up to the copy. *)
Lemma sync_input_decided target tws sws name d (w : World FS) cube :
  posixpath.isabs sws = true -> posixpath.isabs tws = true ->
  storage_uri (default d) = false ->
  posixpath.isabs (pystr.strip (default d)) = false ->
  os_path_exists (w_fs w) (posixpath.join sws (pystr.strip (default d))) = true ->
  os_path_exists (w_fs w) (posixpath.join tws (pystr.strip (default d))) = false ->
  nth_error (w_heap w) target = Some cube ->
  _is_output_of_tasks tws (posixpath.join tws (pystr.strip (default d))) (tasks cube)
  = Ok false ->
  sync_input target tws sws (name, d) w
  = (let source_uri := posixpath.join sws (pystr.strip (default d)) in
     let target_uri := posixpath.join tws (pystr.strip (default d)) in
     if os_path_isfile (w_fs w) source_uri then
       effect (fun fs => os_makedirs fs (posixpath.dirname target_uri)) ;;
       effect (fun fs => shutil_copy fs source_uri target_uri)
     else if os_path_isdir (w_fs w) source_uri then
       effect_distutils (fun fs => dir_util_copy_tree fs source_uri target_uri)
     else raise (RuntimeError "Unknown artifact type (%s)" source_uri)) w.
Proof.
  intros As At S U Es Et G O. unfold sync_input, bind, lift.
  rewrite (storage_not_supported_plain _ S).
  rewrite (@is_ok_relative sws _ true w As U), Es. cbn [Bool.eqb negb].
  rewrite (@is_ok_relative tws _ false w At U), Et. cbn [Bool.eqb negb].
  unfold _is_task_output, bind, deref, lift. rewrite G, O.
  cbv zeta. unfold read.
  destruct (os_path_isfile (w_fs w) _); [reflexivity |].
  destruct (os_path_isdir (w_fs w) _); reflexivity.
Qed.

End SyncRounds.

(** X8. An input that the source workspace does not hold, or one given by an
    absolute path that is not below the source workspace, is passed over:
    its round returns, raises nothing and changes nothing. *)
Theorem absent_or_outside_input_is_skipped :
  forall FS (F : FileSystem FS) (target_mlcube : ref) (target_workspace source_workspace : string)
         (input_name : string) (input_def : ParamDef) (w : World FS),
    posixpath.isabs source_workspace = true ->
    storage_uri (default input_def) = false ->
    (os_path_exists (w_fs w)
       (posixpath.join source_workspace (pystr.strip (default input_def))) = false
     \/ (posixpath.isabs (pystr.strip (default input_def)) = true
         /\ leads (posixpath.comps source_workspace)
                  (posixpath.comps (pystr.strip (default input_def))) = false)) ->
    sync_input target_mlcube target_workspace source_workspace (input_name, input_def) w
    = (Ok tt, w).
Proof.
  intros FS F target tws sws n d w A S [E | [U L]].
  - now apply sync_input_missing.
  - now apply sync_input_outside.
Qed.

Lemma absent_or_outside_input_is_skipped_witness :
  sync_input 0 "/tgt" "/cube/workspace"
    ("notes", {| type := FILE; default := "notes.txt" |}) examples.sync_world
  = (Ok tt, examples.sync_world)
  /\ sync_input 0 "/tgt" "/cube/workspace"
       ("hosts", {| type := FILE; default := "/cube/workspace2/a.txt" |}) examples.sync_world
     = (Ok tt, examples.sync_world).
Proof.
  split.
  - apply (@absent_or_outside_input_is_skipped memfs.t memfs_FileSystem);
      [reflexivity | reflexivity | left; reflexivity].
  - apply (@absent_or_outside_input_is_skipped memfs.t memfs_FileSystem);
      [reflexivity | reflexivity | right; split; reflexivity].
Defined.

(** X9. An input with a relative path that is in the source workspace, is
    not in the target workspace and is no output of a task is copied by its
    round: for a regular file the directory of the target path is made and
    the file copied there, for a directory the tree is copied; the store of
    configurations is left alone. *)
Theorem present_input_is_copied :
  forall FS (F : FileSystem FS) (target_mlcube : ref) (target_workspace source_workspace : string)
         (input_name : string) (input_def : ParamDef) (w : World FS) (cube : Cube),
    let source_uri := posixpath.join source_workspace (pystr.strip (default input_def)) in
    let target_uri := posixpath.join target_workspace (pystr.strip (default input_def)) in
    posixpath.isabs source_workspace = true ->
    posixpath.isabs target_workspace = true ->
    storage_uri (default input_def) = false ->
    posixpath.isabs (pystr.strip (default input_def)) = false ->
    os_path_exists (w_fs w) source_uri = true ->
    os_path_exists (w_fs w) target_uri = false ->
    nth_error (w_heap w) target_mlcube = Some cube ->
    _is_output_of_tasks target_workspace target_uri (tasks cube) = Ok false ->
    (forall fs1 fs2,
        os_path_isfile (w_fs w) source_uri = true ->
        os_makedirs (w_fs w) (posixpath.dirname target_uri) = Some fs1 ->
        shutil_copy fs1 source_uri target_uri = Some fs2 ->
        sync_input target_mlcube target_workspace source_workspace (input_name, input_def) w
        = (Ok tt, {| w_fs := fs2; w_heap := w_heap w |}))
    /\ (forall fs1,
           os_path_isfile (w_fs w) source_uri = false ->
           os_path_isdir (w_fs w) source_uri = true ->
           dir_util_copy_tree (w_fs w) source_uri target_uri = Some fs1 ->
           sync_input target_mlcube target_workspace source_workspace (input_name, input_def) w
           = (Ok tt, {| w_fs := fs1; w_heap := w_heap w |})).
Proof.
  intros FS F target tws sws n d w cube source_uri target_uri As At S U Es Et G O.
  rewrite (@sync_input_decided FS F target tws sws n d w cube As At S U Es Et G O).
  fold source_uri target_uri. cbv zeta. split.
  - intros fs1 fs2 Fi Mk Cp. rewrite Fi. unfold bind, effect. rewrite Mk.
    cbn [w_fs w_heap]. now rewrite Cp.
  - intros fs1 Fi Di Ct. rewrite Fi, Di. unfold effect_distutils. now rewrite Ct.
Qed.

Lemma present_input_is_copied_witness :
  sync_input 0 "/tgt" "/cube/workspace"
    ("a", {| type := FILE; default := "a.txt" |}) examples.fresh_world
  = (Ok tt,
     {| w_fs := {| memfs.cwd := "/home/user";
                   memfs.nodes := (memfs.nodes (w_fs examples.fresh_world)
                                   ++ [("/tgt", memfs.Dir);
                                       ("/tgt/a.txt", memfs.File "hello")])%list |};
        w_heap := w_heap examples.fresh_world |})
  /\ sync_input 0 "/tgt" "/cube/workspace"
       ("d", {| type := DIRECTORY; default := "d" |}) more_examples.tree_world
     = (Ok tt,
        {| w_fs := {| memfs.cwd := "/home/user";
                      memfs.nodes := (memfs.nodes (w_fs more_examples.tree_world)
                                      ++ [("/tgt/d", memfs.Dir);
                                          ("/tgt/d/x", memfs.File "x")])%list |};
           w_heap := w_heap more_examples.tree_world |}).
Proof.
  split.
  - refine (proj1 (@present_input_is_copied memfs.t memfs_FileSystem 0 "/tgt"
                     "/cube/workspace" "a" {| type := FILE; default := "a.txt" |}
                     examples.fresh_world examples.sync_cube
                     eq_refl eq_refl eq_refl eq_refl eq_refl eq_refl eq_refl eq_refl)
                  {| memfs.cwd := "/home/user";
                     memfs.nodes := (memfs.nodes (w_fs examples.fresh_world)
                                     ++ [("/tgt", memfs.Dir)])%list |} _ _ _ _);
      reflexivity.
  - refine (proj2 (@present_input_is_copied memfs.t memfs_FileSystem 0 "/tgt"
                     "/cube/workspace" "d" {| type := DIRECTORY; default := "d" |}
                     more_examples.tree_world examples.sync_cube
                     eq_refl eq_refl eq_refl eq_refl eq_refl eq_refl eq_refl eq_refl)
                  _ _ _ _);
      reflexivity.
Defined.

(** X10. An input that is in the source workspace and is neither a regular
    file nor a directory makes its round raise
    [RuntimeError("Unknown artifact type (%s)", source_uri)], the message
    with its placeholder unfilled, and nothing is changed; what earlier
    rounds copied stays. *)
Theorem unknown_artifact_type_raises :
  forall FS (F : FileSystem FS) (target_mlcube : ref) (target_workspace source_workspace : string)
         (input_name : string) (input_def : ParamDef) (w : World FS) (cube : Cube),
    let source_uri := posixpath.join source_workspace (pystr.strip (default input_def)) in
    let target_uri := posixpath.join target_workspace (pystr.strip (default input_def)) in
    posixpath.isabs source_workspace = true ->
    posixpath.isabs target_workspace = true ->
    storage_uri (default input_def) = false ->
    posixpath.isabs (pystr.strip (default input_def)) = false ->
    os_path_exists (w_fs w) source_uri = true ->
    os_path_exists (w_fs w) target_uri = false ->
    nth_error (w_heap w) target_mlcube = Some cube ->
    _is_output_of_tasks target_workspace target_uri (tasks cube) = Ok false ->
    os_path_isfile (w_fs w) source_uri = false ->
    os_path_isdir (w_fs w) source_uri = false ->
    sync_input target_mlcube target_workspace source_workspace (input_name, input_def) w
    = (Raise (RuntimeError "Unknown artifact type (%s)" source_uri), w).
Proof.
  intros FS F target tws sws n d w cube source_uri target_uri As At S U Es Et G O Fi Di.
  rewrite (@sync_input_decided FS F target tws sws n d w cube As At S U Es Et G O).
  fold source_uri. cbv zeta. now rewrite Fi, Di.
Qed.

Lemma unknown_artifact_type_raises_witness :
  sync_input 0 "/tgt" "/cube/workspace"
    ("pipe", {| type := FILE; default := "pipe" |}) pipe_world
  = (Raise (RuntimeError "Unknown artifact type (%s)" "/cube/workspace/pipe"), pipe_world).
Proof.
  apply (@unknown_artifact_type_raises pipefs.t pipefs_FileSystem 0 "/tgt" "/cube/workspace"
           "pipe" {| type := FILE; default := "pipe" |} pipe_world
           {| runtime := {| rt_workspace := "/tgt"; rt_root := "/cube" |};
              workspace := None; tasks := [] |});
    reflexivity.
Defined.

(* ===================================================================== *)
(** * [sync_workspace]: the search for an output *)
(* ===================================================================== *)

Lemma is_output_of_true tws art outs :
  _is_output_of tws art outs = Ok true ->
  exists name d, In (name, d) outs /\ art = posixpath.join tws (pystr.strip (default d)).
Proof.
  induction outs as [|[n d] outs IH]; cbn [_is_output_of]; [discriminate |].
  unfold rbind. destruct (_storage_not_supported (default d)) as [u|e] eqn:S; [| discriminate].
  apply storage_not_supported_ok in S. subst u.
  destruct (String.eqb_spec art (posixpath.join tws (pystr.strip (default d)))) as [E | _].
  - intros _. exists n, d. split; [now left | exact E].
  - intros R. destruct (IH R) as (n' & d' & I & E). exists n', d'. split; [now right | exact E].
Qed.

Lemma is_output_of_false tws art outs :
  _is_output_of tws art outs = Ok false ->
  forall name d, In (name, d) outs ->
    art <> posixpath.join tws (pystr.strip (default d)) /\ storage_uri (default d) = false.
Proof.
  induction outs as [|[n d] outs IH]; cbn [_is_output_of]; [intros _ ? ? [] |].
  unfold rbind, _storage_not_supported. fold (storage_uri (default d)).
  destruct (storage_uri (default d)) eqn:S; [discriminate |].
  destruct (String.eqb_spec art (posixpath.join tws (pystr.strip (default d)))) as [E | N];
    [discriminate |].
  intros R name d' [[= <- <-] | I]; [split; assumption | exact (IH R name d' I)].
Qed.

Lemma is_output_of_tasks_true tws art ts :
  _is_output_of_tasks tws art ts = Ok true ->
  exists tname t name d,
    In (tname, t) ts /\ In (name, d) (outputs (parameters t))
    /\ art = posixpath.join tws (pystr.strip (default d)).
Proof.
  induction ts as [|[tn t] ts IH]; cbn [_is_output_of_tasks]; [discriminate |].
  unfold rbind. destruct (_is_output_of tws art (outputs (parameters t))) as [[]|e] eqn:O;
    [| | discriminate].
  - intros _. destruct (is_output_of_true _ _ _ O) as (n & d & I & E).
    exists tn, t, n, d. split; [now left | auto].
  - intros R. destruct (IH R) as (tn' & t' & n & d & I & I' & E).
    exists tn', t', n, d. split; [now right | auto].
Qed.

Lemma is_output_of_tasks_false tws art ts :
  _is_output_of_tasks tws art ts = Ok false ->
  forall tname t name d,
    In (tname, t) ts -> In (name, d) (outputs (parameters t)) ->
    art <> posixpath.join tws (pystr.strip (default d)) /\ storage_uri (default d) = false.
Proof.
  induction ts as [|[tn t] ts IH]; cbn [_is_output_of_tasks]; [intros _ ? ? ? ? [] |].
  unfold rbind. destruct (_is_output_of tws art (outputs (parameters t))) as [[]|e] eqn:O;
    try discriminate.
  intros R tname t' name d [[= <- <-] | I] I'.
  - exact (is_output_of_false _ _ _ O name d I').
  - exact (IH R tname t' name d I I').
Qed.

(** X11. [_is_task_output] answers for all the tasks of the cube, not only
    the one being prepared.  It says yes only when some task declares an
    output at exactly the path asked for, and no only when no task declares
    one there and no output path is a [storage:] one; it reads the store and
    changes nothing. *)
Theorem is_task_output_is_a_search :
  forall FS (F : FileSystem FS) (target_mlcube : ref) (target_workspace artifact : string)
         (w w' : World FS) (cube : Cube) (answer : bool),
    nth_error (w_heap w) target_mlcube = Some cube ->
    _is_task_output target_mlcube target_workspace artifact w = (Ok answer, w') ->
    w' = w
    /\ (answer = true ->
        exists task_name task_def output_name output_def,
          In (task_name, task_def) (tasks cube)
          /\ In (output_name, output_def) (outputs (parameters task_def))
          /\ artifact = posixpath.join target_workspace (pystr.strip (default output_def)))
    /\ (answer = false ->
        forall task_name task_def output_name output_def,
          In (task_name, task_def) (tasks cube) ->
          In (output_name, output_def) (outputs (parameters task_def)) ->
          artifact <> posixpath.join target_workspace (pystr.strip (default output_def))
          /\ storage_uri (default output_def) = false).
Proof.
  intros FS F target tws art w w' cube answer G.
  unfold _is_task_output, bind, deref, lift. rewrite G.
  destruct (_is_output_of_tasks tws art (tasks cube)) as [b|e] eqn:O; [| discriminate].
  intros [= <- <-]. split; [reflexivity |]. split; intros ->.
  - exact (is_output_of_tasks_true _ _ _ O).
  - exact (is_output_of_tasks_false _ _ _ O).
Qed.

Lemma is_task_output_is_a_search_witness :
  examples.sync_world = examples.sync_world
  /\ (true = true ->
      exists task_name task_def output_name output_def,
        In (task_name, task_def) (tasks examples.sync_cube)
        /\ In (output_name, output_def) (outputs (parameters task_def))
        /\ "/tgt/model" = posixpath.join "/tgt" (pystr.strip (default output_def)))
  /\ (true = false ->
      forall task_name task_def output_name output_def,
        In (task_name, task_def) (tasks examples.sync_cube) ->
        In (output_name, output_def) (outputs (parameters task_def)) ->
        "/tgt/model" <> posixpath.join "/tgt" (pystr.strip (default output_def))
        /\ storage_uri (default output_def) = false).
Proof.
  apply (@is_task_output_is_a_search memfs.t memfs_FileSystem 0 "/tgt" "/tgt/model"
           examples.sync_world examples.sync_world examples.sync_cube true);
    reflexivity.
Defined.

(* ===================================================================== *)
(** * [sync_workspace]: the whole call *)
(* ===================================================================== *)

(** X12. When the source workspace is not on the host, or is the same file
    as the target workspace, a call does no more than make the target
    workspace: it copies nothing, adds nothing to the store, and returns,
    for any task name, declared or not. *)
Theorem nothing_to_synchronise :
  forall FS (F : FileSystem FS) (target_mlcube : ref) (task : string) (w : World FS)
         (cube : Cube) (fs1 : FS),
    let target_workspace :=
      posixpath.abspath (os_getcwd (w_fs w)) (pystr.strip (rt_workspace (runtime cube))) in
    let source_workspace :=
      posixpath.abspath (os_getcwd fs1) (posixpath.join (rt_root (runtime cube)) "workspace") in
    nth_error (w_heap w) target_mlcube = Some cube ->
    storage_uri (rt_workspace (runtime cube)) = false ->
    os_makedirs (w_fs w) target_workspace = Some fs1 ->
    (os_path_exists fs1 source_workspace = false
     \/ (os_path_exists fs1 source_workspace = true
         /\ os_path_samefile fs1 target_workspace source_workspace = Some true)) ->
    sync_workspace target_mlcube task w = (Ok tt, {| w_fs := fs1; w_heap := w_heap w |}).
Proof.
  intros FS F target task w cube fs1 tws sws G S Mk Ex.
  unfold sync_workspace, bind, deref, lift. rewrite G.
  unfold _storage_not_supported. fold (storage_uri (rt_workspace (runtime cube))).
  rewrite S. unfold os_path_abspath, read, effect, samefile. fold tws.
  rewrite Mk. cbn [w_fs w_heap]. rewrite G. cbn [w_fs w_heap]. fold sws.
  destruct Ex as [Ex | [Ex Sf]]; rewrite Ex; cbn [negb w_fs]; [reflexivity |].
  now rewrite Sf.
Qed.

Lemma nothing_to_synchronise_witness :
  sync_workspace 0 "evaluate" {| w_fs := examples.bare_host; w_heap := [examples.sync_cube] |}
  = (Ok tt,
     {| w_fs := {| memfs.cwd := "/home/user"; memfs.nodes := [("/tgt", memfs.Dir)] |};
        w_heap := [examples.sync_cube] |})
  /\ sync_workspace 0 "evaluate"
       {| w_fs := examples.sync_host;
          w_heap := [{| runtime := {| rt_workspace := "/cube/./workspace"; rt_root := "/cube" |};
                        workspace := None; tasks := [] |}] |}
     = (Ok tt,
        {| w_fs := examples.sync_host;
           w_heap := [{| runtime := {| rt_workspace := "/cube/./workspace";
                                       rt_root := "/cube" |};
                         workspace := None; tasks := [] |}] |}).
Proof.
  split.
  - apply (@nothing_to_synchronise memfs.t memfs_FileSystem 0 "evaluate"
             {| w_fs := examples.bare_host; w_heap := [examples.sync_cube] |}
             examples.sync_cube);
      [reflexivity | reflexivity | reflexivity | left; reflexivity].
  - apply (@nothing_to_synchronise memfs.t memfs_FileSystem 0 "evaluate"
             {| w_fs := examples.sync_host;
                w_heap := [{| runtime := {| rt_workspace := "/cube/./workspace";
                                            rt_root := "/cube" |};
                              workspace := None; tasks := [] |}] |}
             {| runtime := {| rt_workspace := "/cube/./workspace"; rt_root := "/cube" |};
                workspace := None; tasks := [] |});
      [reflexivity | reflexivity | reflexivity | right; split; reflexivity].
Defined.

Lemma triple_assume {S A} (I : S -> Prop) (P : Prop) (m : M S A) Q E :
  (P -> triple I m Q E) -> triple (fun s => I s /\ P) m Q E.
Proof. intros Hm s [Is p]. exact (Hm p s Is). Qed.

Lemma mem_get {V} (d : dict V) k : mem d k = true -> exists v, get d k = Some v.
Proof. unfold mem. destruct (get d k); [eauto | discriminate]. Qed.

Section SyncRaises.

Context {FS : Type} `{FileSystem FS}.

Variable target : ref.
Variable cube : Cube.

Let kept (w : World FS) : Prop := nth_error (w_heap w) target = Some cube.

Lemma raises_read {A} (f : FS -> A) : triple kept (read f) (fun _ w => kept w) sync_failure.
Proof. intros w Hw. exact Hw. Qed.

Lemma raises_effect_distutils (f : FS -> option FS) :
  triple kept (effect_distutils f) (fun _ w => kept w) sync_failure.
Proof.
  intros w Hw. unfold effect_distutils.
  destruct (f (w_fs w)); [exact Hw | right; right; now left].
Qed.

Lemma raises_effect (f : FS -> option FS) :
  triple kept (effect f) (fun _ w => kept w) sync_failure.
Proof.
  intros w Hw. unfold effect. destruct (f (w_fs w)); [exact Hw | right; now left].
Qed.

Lemma raises_deref :
  triple kept (deref target) (fun c w => kept w /\ c = cube) sync_failure.
Proof. intros w Hw. unfold deref. rewrite Hw. auto. Qed.

Lemma raises_storage uri :
  triple kept (lift (S := World FS) (_storage_not_supported uri))
         (fun _ w => kept w) sync_failure.
Proof.
  apply triple_lift. intros e R. rewrite (storage_not_supported_raises _ R). now left.
Qed.

Lemma raises_is_ok ws art must :
  triple kept (_is_ok ws art must) (fun _ w => kept w) sync_failure.
Proof.
  intros w Hw. destruct (is_ok_run ws art must w) as (r & -> & E & _).
  destruct r as [b|e]; [exact Hw |]. destruct (E e eq_refl) as [m ->].
  right; right; right; left. eauto.
Qed.

Lemma raises_is_task_output tws art :
  triple kept (_is_task_output target tws art) (fun _ w => kept w) sync_failure.
Proof.
  unfold _is_task_output. eapply triple_bind; [apply raises_deref |].
  intros c w [Hw Ec]. rewrite Ec. unfold lift.
  destruct (_is_output_of_tasks tws art (tasks cube)) as [b|e] eqn:R; [exact Hw |].
  rewrite (is_output_of_tasks_raises _ _ _ R). now left.
Qed.

Lemma raises_sync_input tws sws p :
  triple kept (sync_input target tws sws p) (fun _ w => kept w) sync_failure.
Proof.
  destruct p as [n d]. unfold sync_input.
  eapply triple_bind; [apply raises_storage | intros u].
  eapply triple_bind; [apply raises_is_ok | intros [|]; cbn [negb]; [| intros w Hw; exact Hw]].
  eapply triple_bind; [apply raises_storage | intros u'].
  eapply triple_bind; [apply raises_is_ok | intros [|]; cbn [negb]; [| intros w Hw; exact Hw]].
  eapply triple_bind; [apply raises_is_task_output | intros [|]; [intros w Hw; exact Hw |]].
  eapply triple_bind; [apply raises_read | intros [|]].
  - eapply triple_bind; [apply raises_effect | intros u0; apply raises_effect].
  - eapply triple_bind; [apply raises_read | intros [|]; [apply raises_effect_distutils |]].
    intros w Hw. right; right; right; right. eauto.
Qed.

Lemma raises_deepcopy :
  triple kept (deepcopy target)
         (fun r w => kept w /\ r <> target /\ r < length (w_heap w)) sync_failure.
Proof.
  intros w Hw. unfold deepcopy. rewrite Hw. cbn [w_heap].
  assert (L : target < length (w_heap w)) by (apply nth_error_Some; congruence).
  split; [| split].
  - unfold kept. cbn [w_heap]. now rewrite nth_error_app1.
  - lia.
  - rewrite length_app. cbn. lia.
Qed.

Lemma raises_setattr r f :
  triple (fun w => kept w /\ r <> target /\ r < length (w_heap w))
         (setattr r f)
         (fun _ w => kept w /\ r <> target /\ r < length (w_heap w)) sync_failure.
Proof.
  intros w (Hw & N & L). unfold setattr.
  destruct (nth_error (w_heap w) r) as [c|] eqn:G.
  - cbn [w_heap]. unfold kept. cbn [w_heap].
    rewrite nth_error_list_update_other by exact N.
    now rewrite length_list_update.
  - apply nth_error_None in G. lia.
Qed.

Lemma raises_sync_workspace (task : string) :
  triple kept (sync_workspace target task) (fun _ w => kept w) sync_failure.
Proof.
  assert (Drop : forall (w : World FS) (P : Prop), kept w /\ P -> kept w)
    by (intros w P [Hw _]; exact Hw).
  unfold sync_workspace.
  eapply triple_bind; [apply raises_deref | intros c].
  eapply triple_bind; [eapply triple_pre; [intros w; apply Drop | apply raises_storage] |].
  intros ws.
  eapply triple_bind; [apply raises_read | intros tws].
  eapply triple_bind; [apply raises_effect | intros u0].
  eapply triple_bind; [apply raises_deref | intros c1].
  eapply triple_bind; [eapply triple_pre; [intros w; apply Drop | apply raises_read] |].
  intros sws.
  eapply triple_bind; [apply raises_read | intros [|]; cbn [negb];
                                           [| intros w Hw; exact Hw]].
  eapply triple_bind.
  { intros w Hw. unfold samefile.
    destruct (os_path_samefile _ _ _); [exact Hw | right; now left]. }
  intros [|]; [intros w Hw; exact Hw |].
  eapply triple_bind; [apply raises_deref | intros c2].
  apply triple_assume. intros ->.
  destruct (mem (tasks cube) task) eqn:Me; cbn [negb];
    [| intros w Hw; right; right; right; left; eauto].
  destruct (mem_get _ _ Me) as [t Gt].
  eapply triple_bind; [apply raises_deepcopy | intros r].
  eapply triple_bind; [apply raises_setattr | intros u1].
  eapply triple_bind; [apply raises_setattr | intros u2].
  eapply triple_bind; [eapply triple_pre; [intros w; apply Drop | apply raises_deref] |].
  intros c3. apply triple_assume. intros ->. rewrite Gt.
  apply triple_for_each. intros p. apply raises_sync_input.
Qed.

End SyncRaises.

(** X13. A call on a configuration of the store raises nothing but
    [NotImplementedError] (a [storage:] path), [ValueError] (the task is not
    declared, or [commonpath] objects), [OSError] (a call of [os] or
    [shutil]), [DistutilsFileError] (a [copy_tree] that fails) and
    [RuntimeError] for an artifact of unknown type: the look-up of the task
    that follows the test of its presence does not fail. *)
Theorem sync_workspace_failures :
  forall FS (F : FileSystem FS) (target_mlcube : ref) (task : string) (w w' : World FS)
         (cube : Cube) (e : Exn),
    nth_error (w_heap w) target_mlcube = Some cube ->
    sync_workspace target_mlcube task w = (Raise e, w') ->
    sync_failure e.
Proof.
  intros FS F target task w w' cube e G R.
  pose proof (@raises_sync_workspace FS F target cube task w G) as T.
  rewrite R in T. exact T.
Qed.

Lemma sync_workspace_failures_witness :
  fst (sync_workspace 0 "train" sync_examples.blocked_world) = Raise DistutilsFileError
  /\ sync_failure DistutilsFileError
  /\ sync_failure (ValueError "Task does not exist: evaluate").
Proof.
  split; [vm_compute; reflexivity |]. split.
  - apply (@sync_workspace_failures memfs.t memfs_FileSystem 0 "train"
             sync_examples.blocked_world
             (snd (sync_workspace 0 "train" sync_examples.blocked_world))
             sync_examples.blocked_cube);
      [reflexivity | vm_compute; reflexivity].
  - apply (@sync_workspace_failures memfs.t memfs_FileSystem 0 "evaluate" examples.fresh_world
             {| w_fs := {| memfs.cwd := "/home/user";
                           memfs.nodes := (memfs.nodes (w_fs examples.fresh_world)
                                           ++ [("/tgt", memfs.Dir)])%list |};
                w_heap := w_heap examples.fresh_world |}
             examples.sync_cube);
      reflexivity.
Defined.

(** X14. A call that gets as far as the loop over the inputs has put one
    object in the store, whatever the loop does next: a copy of the
    configuration with [runtime.workspace] and [workspace] set to the source
    workspace, and everything else, the tasks included, as in the
    configuration it was given. *)
Theorem copy_has_the_source_workspace :
  forall FS (F : FileSystem FS) (target_mlcube : ref) (task : string) (w : World FS)
         (cube : Cube) (fs1 : FS),
    let target_workspace :=
      posixpath.abspath (os_getcwd (w_fs w)) (pystr.strip (rt_workspace (runtime cube))) in
    let source_workspace :=
      posixpath.abspath (os_getcwd fs1) (posixpath.join (rt_root (runtime cube)) "workspace") in
    nth_error (w_heap w) target_mlcube = Some cube ->
    storage_uri (rt_workspace (runtime cube)) = false ->
    os_makedirs (w_fs w) target_workspace = Some fs1 ->
    os_path_exists fs1 source_workspace = true ->
    os_path_samefile fs1 target_workspace source_workspace = Some false ->
    mem (tasks cube) task = true ->
    w_heap (snd (sync_workspace target_mlcube task w))
    = (w_heap w
       ++ [{| runtime := {| rt_workspace := source_workspace;
                            rt_root := rt_root (runtime cube) |};
              workspace := Some source_workspace;
              tasks := tasks cube |}])%list.
Proof.
  intros FS F target task w cube fs1 tws sws G S Mk Ex Sf Me.
  unfold sync_workspace, bind, deref, lift. rewrite G.
  unfold _storage_not_supported. fold (storage_uri (rt_workspace (runtime cube))).
  rewrite S. unfold os_path_abspath, read, effect, samefile. fold tws.
  rewrite Mk. cbn [w_fs w_heap]. rewrite G. cbn [w_fs w_heap]. fold sws.
  rewrite Ex. cbn [negb w_fs]. rewrite Sf. cbn [w_heap]. rewrite G, Me. cbn [negb].
  unfold deepcopy, setattr. cbn [w_fs w_heap]. rewrite G. cbn [w_fs w_heap].
  rewrite nth_error_last, list_update_last. cbn [w_fs w_heap].
  rewrite nth_error_last, list_update_last. cbn [w_fs w_heap].
  rewrite nth_error_app1 by (apply nth_error_Some; congruence). rewrite G.
  destruct (mem_get _ _ Me) as [t ->].
  rewrite sync_inputs_heap. reflexivity.
Qed.

Lemma copy_has_the_source_workspace_witness :
  w_heap (snd (sync_workspace 0 "train" examples.fresh_world))
  = (w_heap examples.fresh_world
     ++ [{| runtime := {| rt_workspace := "/cube/workspace"; rt_root := "/cube" |};
            workspace := Some "/cube/workspace";
            tasks := tasks examples.sync_cube |}])%list.
Proof.
  apply (@copy_has_the_source_workspace memfs.t memfs_FileSystem 0 "train"
           examples.fresh_world examples.sync_cube
           {| memfs.cwd := "/home/user";
              memfs.nodes := (memfs.nodes (w_fs examples.fresh_world)
                              ++ [("/tgt", memfs.Dir)])%list |});
    reflexivity.
Defined.

(* ===================================================================== *)
(** * [Shell.run] and the commands built on it *)
(* ===================================================================== *)

(** X15. [docker_image_exists] raises nothing, whatever the exit status: it
    runs the one command [{docker} inspect --type=image {image} > /dev/null
    2>&1], with [docker] for a name that is absent or empty, and says
    whether the status was 0. *)
Theorem docker_image_exists_asks_once :
  forall P (R : Processes P) (docker : option string) (image : string) (s : P),
    let command :=
      match docker with
      | None | Some EmptyString => "docker"
      | Some d => d
      end ++ " inspect --type=image " ++ image ++ " > /dev/null 2>&1" in
    docker_image_exists docker image s
    = (Ok (fst (os_system s command) =? 0)%Z, snd (os_system s command)).
Proof.
  intros P R docker image s command.
  assert (C : pystr.join " " [command] = command) by reflexivity.
  unfold docker_image_exists, bind, run, ret.
  replace (match docker with
           | Some d => if d =? "" then "docker" else d
           | None => "docker"
           end ++ " inspect --type=image " ++ image ++ " > /dev/null 2>&1")
    with command by (subst command; now destruct docker as [[|c d]|]).
  rewrite C. destruct (os_system s command) as [rc s']. cbn [fst snd].
  rewrite andb_false_r. reflexivity.
Qed.

(** X16. [ssh] with no command, or an empty one, runs nothing; with a
    command it hands the host the one line [ssh -o StrictHostKeyChecking=no
    {connection} '{command}'], the command between quotes as it is, and
    raises [RuntimeError("Command failed: ...")] exactly when the exit
    status is not 0, after the command has run.  [rsync_dirs] does the same
    with [rsync -e 'ssh' '{source}' '{dest}']. *)
Theorem ssh_and_rsync_command_lines :
  forall P (R : Processes P) (s : P),
    (forall connection_str, ssh connection_str None s = (Ok tt, s))
    /\ (forall connection_str, ssh connection_str (Some "") s = (Ok tt, s))
    /\ (forall connection_str command,
           command <> "" ->
           let line := "ssh -o StrictHostKeyChecking=no " ++ connection_str
                       ++ " '" ++ command ++ "'" in
           ssh connection_str (Some command) s
           = (if (fst (os_system s line) =? 0)%Z then Ok tt
              else Raise (RuntimeError ("Command failed: " ++ line) ""),
              snd (os_system s line)))
    /\ (forall source dest,
           let line := "rsync -e 'ssh' '" ++ source ++ "' '" ++ dest ++ "'" in
           rsync_dirs source dest s
           = (if (fst (os_system s line) =? 0)%Z then Ok tt
              else Raise (RuntimeError ("Command failed: " ++ line) ""),
              snd (os_system s line))).
Proof.
  intros P R s. split; [reflexivity |]. split; [reflexivity |]. split.
  - intros conn c N line.
    assert (C : pystr.join " " ["ssh"; "-o"; "StrictHostKeyChecking=no"; conn; "'" ++ c ++ "'"]
                = line).
    { subst line. unfold pystr.join. cbn [String.concat append].
      rewrite ?append_assoc. reflexivity. }
    unfold ssh. destruct (String.eqb_spec c ""); [congruence |].
    unfold bind, run, ret. rewrite C.
    destruct (os_system s line) as [rc s']. cbn [fst snd]. rewrite andb_true_r.
    now destruct (rc =? 0)%Z.
  - intros source dest line.
    assert (C : pystr.join " " ["rsync"; "-e"; "'ssh'"; "'" ++ source ++ "'"; "'" ++ dest ++ "'"]
                = line).
    { subst line. unfold pystr.join. cbn [String.concat append].
      rewrite ?append_assoc. reflexivity. }
    unfold rsync_dirs, bind, run, ret. rewrite C.
    destruct (os_system s line) as [rc s']. cbn [fst snd]. rewrite andb_true_r.
    now destruct (rc =? 0)%Z.
Qed.

Lemma ssh_and_rsync_command_lines_witness :
  ssh "user@host" (Some "ls '/tmp'")
    {| scripted.statuses := [("ssh -o StrictHostKeyChecking=no user@host 'ls '/tmp''", 2%Z)];
       scripted.given := [] |}
  = (Raise (RuntimeError
              "Command failed: ssh -o StrictHostKeyChecking=no user@host 'ls '/tmp''" ""),
     {| scripted.statuses := [("ssh -o StrictHostKeyChecking=no user@host 'ls '/tmp''", 2%Z)];
        scripted.given := ["ssh -o StrictHostKeyChecking=no user@host 'ls '/tmp''"] |}).
Proof.
  refine (proj1 (proj2 (proj2 (@ssh_and_rsync_command_lines scripted.t scripted_Processes _)))
            "user@host" "ls '/tmp'" _).
  discriminate.
Defined.

(* ===================================================================== *)
(** * The Kubeflow runner *)
(* ===================================================================== *)

Lemma binding_to_volumes_arguments (self : KubeflowRun) params : forall args mounts,
  fst (binding_to_volumes self params args mounts)
  = (args ++ map (volume_argument self) params)%list.
Proof.
  unfold binding_to_volumes. cbn [fst].
  induction params as [|p params IH]; intros args mounts; cbn [fold_left map].
  - now rewrite app_nil_r.
  - rewrite (IH _ mounts), <- app_assoc. cbn [app]. do 2 f_equal.
    unfold volume_argument. rewrite !append_assoc. reflexivity.
Qed.

(** X17. The op of a task has the task name as its first argument and then
    one [--{name}=/mnt/mlcube{pvc}/{default}] for each parameter, inputs
    before outputs, each group in the order of its declaration, whatever the
    declared types; it mounts one volume, the claim [pvc] at
    [/mnt/mlcube{pvc}], also for a task without parameters; its image is the
    runner's, and it runs after nothing. *)
Theorem container_op_binds_every_parameter :
  forall (self : KubeflowRun) (name : string) (task : Task),
    container_op self name task
    = {| op_name := name;
         op_image := image (runner self);
         op_arguments :=
           name :: map (volume_argument self)
                       (inputs (parameters task) ++ outputs (parameters task))%list;
         op_pvolumes := [("/mnt/mlcube" ++ pvc (runner self),
                          {| pv_pvc := pvc (runner self) |})];
         op_after := [] |}.
Proof.
  intros self name task. unfold container_op.
  destruct (binding_to_volumes self (inputs (parameters task)) ([] ++ [name])%list [])
    as [a1 m1] eqn:B1.
  destruct (binding_to_volumes self (outputs (parameters task)) a1 m1) as [a2 m2] eqn:B2.
  pose proof (binding_to_volumes_arguments self (inputs (parameters task)) ([] ++ [name])%list [])
    as A1.
  pose proof (binding_to_volumes_arguments self (outputs (parameters task)) a1 m1) as A2.
  rewrite B1 in A1. rewrite B2 in A2. cbn [fst] in A1, A2.
  unfold binding_to_volumes in B1, B2. injection B1 as _ <-. injection B2 as _ <-.
  f_equal.
  - rewrite A2, A1, map_app, <- app_assoc. reflexivity.
  - cbn [set]. now rewrite String.eqb_refl.
Qed.

Lemma pipeline_round_next (self : KubeflowRun) pre cur n t :
  pipeline_round self
    {| created := pre;
       last_task := match length pre with O => None | S j => Some j end;
       current_task := cur |} (n, t)
  = let op := match length pre with
              | O => container_op self n t
              | S j => after (container_op self n t) j
              end in
    {| created := (pre ++ [op])%list;
       last_task := match length (pre ++ [op])%list with O => None | S j => Some j end;
       current_task := Some (length pre) |}.
Proof.
  unfold pipeline_round. cbn [created last_task fst snd]. cbv zeta.
  rewrite length_app. cbn [length]. replace (length pre + 1) with (S (length pre)) by lia.
  now destruct (length pre).
Qed.

Lemma pipeline_fold (self : KubeflowRun) ts : forall pre cur,
  created (fold_left (pipeline_round self) ts
             {| created := pre;
                last_task := match length pre with O => None | S j => Some j end;
                current_task := cur |})
  = (pre ++ chained self (length pre) ts)%list
  /\ current_task (fold_left (pipeline_round self) ts
                     {| created := pre;
                        last_task := match length pre with O => None | S j => Some j end;
                        current_task := cur |})
     = match ts with
       | [] => cur
       | _ => Some (length pre + length ts - 1)
       end.
Proof.
  induction ts as [|[n t] ts IH]; intros pre cur; cbn [fold_left chained].
  - cbn. now rewrite app_nil_r.
  - rewrite pipeline_round_next. cbv zeta.
    set (op := match length pre with
               | O => container_op self n t
               | S j => after (container_op self n t) j
               end).
    destruct (IH (pre ++ [op])%list (Some (length pre))) as [C Cu].
    rewrite C, Cu. rewrite length_app. cbn [length].
    replace (length pre + 1) with (S (length pre)) by lia. split.
    + rewrite <- app_assoc. reflexivity.
    + destruct ts; cbn [length]; f_equal; lia.
Qed.

Lemma nth_error_chained (self : KubeflowRun) ts : forall place k name task,
  nth_error ts k = Some (name, task) ->
  nth_error (chained self place ts) k
  = Some (match place + k with
          | O => container_op self name task
          | S before => after (container_op self name task) before
          end).
Proof.
  induction ts as [|[n t] ts IH]; intros place [|k] name task E; try discriminate.
  - injection E as -> ->. cbn. now rewrite Nat.add_0_r.
  - cbn [nth_error chained]. rewrite (IH (S place) k name task E).
    now replace (S place + k) with (place + S k) by lia.
Qed.

Lemma length_chained (self : KubeflowRun) ts : forall place,
  length (chained self place ts) = length ts.
Proof.
  induction ts as [|[n t] ts IH]; intros place; cbn; [reflexivity | now rewrite IH].
Qed.

(** X18. For a cube with tasks, [mlcube_pipeline] creates one op for each
    task, in the order of the tasks, the first running after nothing and
    every other after the op created just before it and no other, and
    returns the op of the last task.  For a cube without tasks it raises
    [UnboundLocalError]: [current_task] was never bound. *)
Theorem mlcube_pipeline_is_a_chain :
  forall (self : KubeflowRun),
    match kf_tasks self with
    | [] => mlcube_pipeline self = UnboundLocalError "current_task"
    | _ :: _ =>
        exists ops,
          mlcube_pipeline self = Returned ops (length (kf_tasks self) - 1)
          /\ length ops = length (kf_tasks self)
          /\ forall k name task,
              nth_error (kf_tasks self) k = Some (name, task) ->
              nth_error ops k
              = Some (match k with
                      | O => container_op self name task
                      | S before => after (container_op self name task) before
                      end)
    end.
Proof.
  intros self. unfold mlcube_pipeline.
  destruct (pipeline_fold self (kf_tasks self) [] None) as [C Cu].
  cbn [length app] in C, Cu.
  destruct (kf_tasks self) as [|nt ts] eqn:T; [reflexivity |].
  exists (chained self 0 (nt :: ts)).
  rewrite Cu, C. cbn [plus]. repeat split.
  - apply length_chained.
  - intros k name task E. exact (nth_error_chained self (nt :: ts) 0 k E).
Qed.

(** The pipeline of [more_examples.two_steps]. *)
Example mlcube_pipeline_run :
  mlcube_pipeline more_examples.two_steps
  = Returned
      [{| op_name := "download"; op_image := "mlcommons/mnist:0.0.1";
          op_arguments := ["download"; "--data_config=/mnt/mlcubemnist/data.yaml";
                           "--data_dir=/mnt/mlcubemnist/data";
                           "--log_dir=/mnt/mlcubemnist/logs"];
          op_pvolumes := [("/mnt/mlcubemnist", {| pv_pvc := "mnist" |})];
          op_after := [] |};
       {| op_name := "train"; op_image := "mlcommons/mnist:0.0.1";
          op_arguments := ["train"; "--data_dir=/mnt/mlcubemnist/data";
                           "--model_dir=/mnt/mlcubemnist/model"];
          op_pvolumes := [("/mnt/mlcubemnist", {| pv_pvc := "mnist" |})];
          op_after := [0] |}]
      1.
Proof. reflexivity. Qed.

(* ===================================================================== *)
(** * What a call copies *)
(* ===================================================================== *)

Lemma keeps_bind {S A B} (I : S -> Prop) (m : M S A) (k : A -> M S B) Q R J :
  keeps I m Q J -> (forall a, keeps (Q a) (k a) R J) -> keeps I (bind m k) R J.
Proof.
  intros Hm Hk s Hs. unfold bind. specialize (Hm s Hs).
  destruct (m s) as [[a|e] s1]; [exact (Hk a s1 Hm) | exact Hm].
Qed.

Lemma keeps_pre {S A} (I I' : S -> Prop) (m : M S A) Q J :
  (forall s, I s -> I' s) -> keeps I' m Q J -> keeps I m Q J.
Proof. intros W Hm s Hs. exact (Hm s (W s Hs)). Qed.

Lemma keeps_post {S A} (I : S -> Prop) (m : M S A) (Q Q' : A -> S -> Prop) J :
  (forall a s, Q a s -> Q' a s) -> keeps I m Q J -> keeps I m Q' J.
Proof.
  intros W Hm s Hs. specialize (Hm s Hs). destruct (m s) as [[a|e] s1]; auto.
Qed.

Lemma keeps_assume {S A} (I : S -> Prop) (P : Prop) (m : M S A) Q J :
  (P -> keeps I m Q J) -> keeps (fun s => I s /\ P) m Q J.
Proof. intros Hm s [Hs p]. exact (Hm p s Hs). Qed.

Lemma keeps_for_each {S A} (I : S -> Prop) (J : S -> Prop) (body : A -> M S unit)
      (l : list A) :
  (forall x, keeps I (body x) (fun _ => I) J) ->
  keeps I (for_each l body) (fun _ => I) J.
Proof.
  intros Hb. induction l as [|x l IH]; [intros s Hs; exact Hs |].
  cbn [for_each]. eapply keeps_bind; [apply Hb | intros u; exact IH].
Qed.

Section CopyTrace.

Context {FS : Type} `{FileSystem FS}.

Variable target : ref.
Variable cube : Cube.
Variable tws : string.
Variable before : list (string * string).

(** The copies made so far went to no declared output. *)
Let clean (w : World (Traced FS)) : Prop :=
  copies_since cube tws before (traced_copies (w_fs w)).

(** And the store holds the configuration the call was given. *)
Let ready (w : World (Traced FS)) : Prop :=
  nth_error (w_heap w) target = Some cube /\ clean w.

Lemma clean_read {A} (f : Traced FS -> A) :
  keeps ready (read f) (fun _ => ready) clean.
Proof. intros w Hw. exact Hw. Qed.

Lemma clean_storage uri :
  keeps ready (lift (S := World (Traced FS)) (_storage_not_supported uri))
        (fun _ => ready) clean.
Proof.
  intros w Hw. unfold lift. destruct (_storage_not_supported uri); [exact Hw | apply Hw].
Qed.

Lemma clean_is_ok ws art must :
  keeps ready (_is_ok ws art must) (fun _ => ready) clean.
Proof.
  intros w Hw. destruct (is_ok_run ws art must w) as (r & -> & _).
  destruct r; [exact Hw | apply Hw].
Qed.

Lemma clean_is_task_output art :
  keeps ready (_is_task_output target tws art)
        (fun out w => ready w /\ (out = false -> no_output_at cube tws art)) clean.
Proof.
  intros w Hw. unfold _is_task_output, bind, deref. rewrite (proj1 Hw). unfold lift.
  destruct (_is_output_of_tasks tws art (tasks cube)) as [out|e] eqn:R; [| apply Hw].
  split; [exact Hw |]. intros ->. intros tn t on od It Io.
  exact (proj1 (is_output_of_tasks_false _ _ _ R tn t on od It Io)).
Qed.

Lemma clean_makedirs p :
  keeps ready (effect (fun fs => os_makedirs fs p)) (fun _ => ready) clean.
Proof.
  intros w Hw. unfold effect. cbn [os_makedirs Traced_FileSystem]. unfold traced_step.
  destruct (os_makedirs (traced_host (w_fs w)) p); [| apply Hw].
  destruct Hw as [G C]. split; [exact G |]. unfold clean. cbn [w_fs traced_copies].
  now rewrite app_nil_r.
Qed.

Lemma clean_extended (w : World (Traced FS)) src dst :
  clean w -> no_output_at cube tws dst ->
  copies_since cube tws before (traced_copies (w_fs w) ++ [(src, dst)])%list.
Proof.
  intros (made & E & A) N. exists (made ++ [(src, dst)])%list. split.
  - rewrite E. now rewrite app_assoc.
  - apply Forall_app. split; [exact A |]. constructor; [exact N | constructor].
Qed.

Lemma clean_copy src dst :
  no_output_at cube tws dst ->
  keeps ready (effect (fun fs => shutil_copy fs src dst)) (fun _ => ready) clean.
Proof.
  intros N w Hw. unfold effect. cbn [shutil_copy Traced_FileSystem]. unfold traced_step.
  destruct (shutil_copy (traced_host (w_fs w)) src dst); [| apply Hw].
  destruct Hw as [G C]. split; [exact G |]. unfold clean. cbn [w_fs traced_copies].
  now apply clean_extended.
Qed.

Lemma clean_copy_tree src dst :
  no_output_at cube tws dst ->
  keeps ready (effect_distutils (fun fs => dir_util_copy_tree fs src dst))
        (fun _ => ready) clean.
Proof.
  intros N w Hw. unfold effect_distutils. cbn [dir_util_copy_tree Traced_FileSystem].
  unfold traced_step.
  destruct (dir_util_copy_tree (traced_host (w_fs w)) src dst); [| apply Hw].
  destruct Hw as [G C]. split; [exact G |]. unfold clean. cbn [w_fs traced_copies].
  now apply clean_extended.
Qed.

(** A round copies to the path of its input, and only once
    [_is_task_output] has answered that no output is declared there. *)
Lemma clean_sync_input sws p :
  keeps ready (sync_input target tws sws p) (fun _ => ready) clean.
Proof.
  destruct p as [n d]. unfold sync_input.
  eapply keeps_bind; [apply clean_storage | intros u].
  eapply keeps_bind; [apply clean_is_ok | intros [|]; cbn [negb]; [| intros w Hw; exact Hw]].
  eapply keeps_bind; [apply clean_storage | intros u'].
  eapply keeps_bind; [apply clean_is_ok | intros [|]; cbn [negb]; [| intros w Hw; exact Hw]].
  eapply keeps_bind; [apply clean_is_task_output | intros [|]; [intros w Hw; apply Hw |]].
  apply keeps_assume. intros N. specialize (N eq_refl).
  eapply keeps_bind; [apply clean_read | intros [|]].
  - eapply keeps_bind; [apply clean_makedirs | intros u0; now apply clean_copy].
  - eapply keeps_bind; [apply clean_read | intros [|]; [now apply clean_copy_tree |]].
    intros w Hw. apply Hw.
Qed.

Lemma clean_deref :
  keeps ready (deref target) (fun c w => ready w /\ c = cube) clean.
Proof. intros w Hw. unfold deref. rewrite (proj1 Hw). auto. Qed.

Lemma clean_deepcopy :
  keeps ready (deepcopy target)
        (fun r w => ready w /\ r <> target /\ r < length (w_heap w)) clean.
Proof.
  intros w [G C]. unfold deepcopy. rewrite G. cbn [w_heap].
  assert (L : target < length (w_heap w)) by (apply nth_error_Some; congruence).
  split; [split |].
  - cbn [w_heap]. now rewrite nth_error_app1.
  - exact C.
  - split; [lia |]. rewrite length_app. cbn. lia.
Qed.

Lemma clean_setattr r f :
  keeps (fun w => ready w /\ r <> target /\ r < length (w_heap w))
        (setattr r f)
        (fun _ w => ready w /\ r <> target /\ r < length (w_heap w)) clean.
Proof.
  intros w ([G C] & N & L). unfold setattr.
  destruct (nth_error (w_heap w) r) as [c|] eqn:E; [| exact C].
  split; [split |].
  - cbn [w_heap]. now rewrite nth_error_list_update_other.
  - exact C.
  - cbn [w_heap]. now rewrite length_list_update.
Qed.

(** The target workspace is computed in the state the call starts in; from
    there on the store holds the configuration and the copies are clean. *)
Lemma clean_sync_workspace task (w0 : World (Traced FS)) :
  nth_error (w_heap w0) target = Some cube ->
  tws = posixpath.abspath (os_getcwd (w_fs w0)) (pystr.strip (rt_workspace (runtime cube))) ->
  before = traced_copies (w_fs w0) ->
  keeps (fun w => w = w0) (sync_workspace target task) (fun _ => clean) clean.
Proof.
  intros G Et Eb.
  assert (R0 : ready w0).
  { split; [exact G |]. exists []. rewrite app_nil_r. split; [now rewrite Eb | constructor]. }
  assert (Drop : forall (w : World (Traced FS)) (P : Prop), ready w /\ P -> ready w)
    by (intros w P [Hw _]; exact Hw).
  unfold sync_workspace.
  eapply keeps_bind with (Q := fun c w => w = w0 /\ c = cube).
  { intros w ->. unfold deref. rewrite G. auto. }
  intros c. apply keeps_assume. intros ->.
  eapply keeps_bind
    with (Q := fun ws w => w = w0 /\ ws = pystr.strip (rt_workspace (runtime cube))).
  { intros w ->. unfold lift.
    destruct (_storage_not_supported _) eqn:S; [| apply R0].
    split; [reflexivity | exact (storage_not_supported_ok _ S)]. }
  intros ws. apply keeps_assume. intros ->.
  eapply keeps_bind with (Q := fun a w => ready w /\ a = tws).
  { intros w ->. unfold os_path_abspath, read. split; [exact R0 | now rewrite Et]. }
  intros tws'. apply keeps_assume. intros ->.
  eapply keeps_bind; [apply clean_makedirs | intros u0].
  eapply keeps_bind; [apply clean_deref | intros c1].
  eapply keeps_bind; [eapply keeps_pre; [intros w; apply Drop | apply clean_read] |].
  intros sws.
  eapply keeps_bind; [apply clean_read | intros [|]; cbn [negb];
                                          [| intros w Hw; apply Hw]].
  eapply keeps_bind with (Q := fun _ => ready).
  { intros w Hw. unfold samefile.
    destruct (os_path_samefile _ _ _); [exact Hw | apply Hw]. }
  intros [|]; [intros w Hw; apply Hw |].
  eapply keeps_bind; [apply clean_deref | intros c2].
  apply keeps_assume. intros ->.
  destruct (mem (tasks cube) task) eqn:Me; cbn [negb]; [| intros w Hw; apply Hw].
  destruct (mem_get _ _ Me) as [t Gt].
  eapply keeps_bind; [apply clean_deepcopy | intros r].
  eapply keeps_bind; [apply clean_setattr | intros u1].
  eapply keeps_bind; [apply clean_setattr | intros u2].
  eapply keeps_bind; [eapply keeps_pre; [intros w; apply Drop | apply clean_deref] |].
  intros c3. apply keeps_assume. intros ->. rewrite Gt.
  eapply keeps_post; [| apply keeps_for_each; intros p; apply clean_sync_input].
  intros u w Hw. apply Hw.
Qed.

End CopyTrace.

(** Whether the call returns or raises, the copies it has made went to no
    declared output. *)
Lemma traced_copies_clean :
  forall FS (F : FileSystem FS) (target_mlcube : ref) (task : string)
         (w : World (Traced FS)) (cube : Cube),
    nth_error (w_heap w) target_mlcube = Some cube ->
    copies_since cube
      (posixpath.abspath (os_getcwd (w_fs w)) (pystr.strip (rt_workspace (runtime cube))))
      (traced_copies (w_fs w))
      (traced_copies (w_fs (snd (sync_workspace target_mlcube task w)))).
Proof.
  intros FS F target task w cube G.
  pose proof (@clean_sync_workspace FS F target cube _ _ task w G eq_refl eq_refl w eq_refl)
    as K.
  destruct (sync_workspace target task w) as [[u|e] w1]; exact K.
Qed.


(** The traced host adds the log and nothing else: every step of the call
    on it is, the log forgotten, the step on the host itself. *)
Section Forget.

Context {FS : Type} `{FileSystem FS}.

Lemma agrees_bind {A B} (m : M (World (Traced FS)) A) (m' : M (World FS) A)
      (k : A -> M (World (Traced FS)) B) (k' : A -> M (World FS) B) :
  agrees m m' -> (forall a, agrees (k a) (k' a)) -> agrees (bind m k) (bind m' k').
Proof.
  intros Hm Hk w. unfold bind. specialize (Hm w).
  destruct (m w) as [[a|e] w1]; cbn [fst snd] in Hm; rewrite <- Hm; [apply Hk | reflexivity].
Qed.

Lemma agrees_pure {A} (r : Res A) :
  agrees (fun w : World (Traced FS) => (r, w)) (fun w : World FS => (r, w)).
Proof. intros w. reflexivity. Qed.

Lemma agrees_read {A} (f : FS -> A) :
  agrees (read (fun t => f (traced_host t))) (read f).
Proof. intros w. reflexivity. Qed.

Lemma agrees_effect (f : FS -> option FS) made :
  agrees (effect (fun t => traced_step t made (f (traced_host t)))) (effect f).
Proof.
  intros w. unfold effect, forget, traced_step. cbn [w_fs].
  now destruct (f (traced_host (w_fs w))).
Qed.

Lemma agrees_effect_distutils (f : FS -> option FS) made :
  agrees (effect_distutils (fun t => traced_step t made (f (traced_host t))))
         (effect_distutils f).
Proof.
  intros w. unfold effect_distutils, forget, traced_step. cbn [w_fs].
  now destruct (f (traced_host (w_fs w))).
Qed.

Lemma agrees_deref r : agrees (FS := FS) (deref r) (deref r).
Proof.
  intros w. unfold deref, forget. cbn [w_heap]. now destruct (nth_error (w_heap w) r).
Qed.

Lemma agrees_deepcopy r : agrees (FS := FS) (deepcopy r) (deepcopy r).
Proof.
  intros w. unfold deepcopy, forget. cbn [w_heap]. now destruct (nth_error (w_heap w) r).
Qed.

Lemma agrees_setattr r f : agrees (FS := FS) (setattr r f) (setattr r f).
Proof.
  intros w. unfold setattr, forget. cbn [w_heap]. now destruct (nth_error (w_heap w) r).
Qed.

Lemma agrees_samefile a b : agrees (FS := FS) (samefile a b) (samefile a b).
Proof.
  intros w. unfold samefile, forget. cbn [w_fs os_path_samefile Traced_FileSystem].
  now destruct (os_path_samefile (traced_host (w_fs w)) a b).
Qed.

Lemma agrees_for_each {A} (body : A -> M (World (Traced FS)) unit)
      (body' : A -> M (World FS) unit) (l : list A) :
  (forall x, agrees (body x) (body' x)) -> agrees (for_each l body) (for_each l body').
Proof.
  intros Hb. induction l as [|x l IH]; [apply agrees_pure |].
  cbn [for_each]. apply agrees_bind; [apply Hb | intros u; exact IH].
Qed.

Ltac agree :=
  repeat first
    [ apply agrees_bind
    | apply agrees_deref
    | apply agrees_deepcopy
    | apply agrees_setattr
    | apply agrees_samefile
    | apply agrees_pure
    | apply agrees_read
    | apply (agrees_read (fun fs => os_path_exists fs _))
    | apply (agrees_read (fun fs => os_path_isfile fs _))
    | apply (agrees_read (fun fs => os_path_isdir fs _))
    | apply (agrees_read (fun fs => posixpath.abspath (os_getcwd fs) _))
    | apply (agrees_effect (fun fs => os_makedirs fs _) [])
    | apply (agrees_effect (fun fs => shutil_copy fs _ _) [(_, _)])
    | apply (agrees_effect_distutils (fun fs => dir_util_copy_tree fs _ _) [(_, _)])
    | match goal with
      | |- forall _, agrees _ _ => intro
      | |- agrees (if ?b then _ else _) _ => destruct b
      | |- agrees (match ?o with Some _ => _ | None => _ end) _ => destruct o
      end ].

Lemma agrees_is_ok ws art must : agrees (FS := FS) (_is_ok ws art must) (_is_ok ws art must).
Proof. unfold _is_ok, lift, ret. agree. Qed.

Lemma agrees_is_task_output target tws art :
  agrees (FS := FS) (_is_task_output target tws art) (_is_task_output target tws art).
Proof. unfold _is_task_output, lift. agree. Qed.

Lemma agrees_sync_input target tws sws p :
  agrees (FS := FS) (sync_input target tws sws p) (sync_input target tws sws p).
Proof.
  destruct p as [n d]. unfold sync_input, lift, ret, raise.
  repeat first [ apply agrees_is_ok | apply agrees_is_task_output | progress agree ].
Qed.

Lemma agrees_sync_workspace target task :
  agrees (FS := FS) (sync_workspace target task) (sync_workspace target task).
Proof.
  unfold sync_workspace, os_path_abspath, lift, ret, raise.
  repeat first [ apply agrees_for_each; intro; apply agrees_sync_input | progress agree ].
Qed.

End Forget.

(** C4, as the code has it.  An input whose path in the target workspace
    is, as a string, the path of an output some task of the cube declares,
    is not what a copy is made to.  In its own round of the loop nothing is
    copied: the round leaves the file system as it found it, and ends by
    going on to the next input, or by raising [NotImplementedError] for a
    [storage:] path ([ValueError] is what [commonpath] raises on a relative
    workspace); whether the artifact is in the source workspace or in the
    target one plays no part.  On a host that keeps the copies made on it,
    a whole call, whether it returns or raises, adds no copy whose
    destination is the path of a declared output; and that call is, the
    copies forgotten, the call on the host itself.  What the copy of a
    directory brings along with it is not restricted. *)
Theorem task_output_not_copied :
  forall FS (F : FileSystem FS) (target_mlcube : ref) (cube : Cube),
    (forall (target_workspace source_workspace input_name : string) (input_def : ParamDef)
            (w : World FS) (task_name : string) (task_def : Task)
            (output_name : string) (output_def : ParamDef),
        nth_error (w_heap w) target_mlcube = Some cube ->
        In (task_name, task_def) (tasks cube) ->
        In (output_name, output_def) (outputs (parameters task_def)) ->
        posixpath.join target_workspace (pystr.strip (default input_def))
        = posixpath.join target_workspace (pystr.strip (default output_def)) ->
        snd (sync_input target_mlcube target_workspace source_workspace
               (input_name, input_def) w) = w
        /\ quiet (fst (sync_input target_mlcube target_workspace source_workspace
                         (input_name, input_def) w)))
    /\ (forall (task : string) (w : World (Traced FS)),
           nth_error (w_heap w) target_mlcube = Some cube ->
           copies_since cube
             (posixpath.abspath (os_getcwd (w_fs w))
                                (pystr.strip (rt_workspace (runtime cube))))
             (traced_copies (w_fs w))
             (traced_copies (w_fs (snd (sync_workspace target_mlcube task w)))))
    /\ (forall (task : string) (w : World (Traced FS)),
           (fst (sync_workspace target_mlcube task w),
            forget (snd (sync_workspace target_mlcube task w)))
           = sync_workspace target_mlcube task (forget w)).
Proof.
  intros FS F target cube. split; [| split].
  - intros tws sws name d w tn t on od G It Io E.
    apply sync_input_skips. intros u S. right. exists cube. split; [exact G |].
    apply storage_not_supported_ok in S. subst u.
    exact (is_output_of_tasks_found tws _ _ _ _ _ It Io E).
  - intros task w G. exact (@traced_copies_clean FS F target task w cube G).
  - intros task w. apply agrees_sync_workspace.
Qed.

Lemma task_output_not_copied_witness :
  (snd (sync_input 0 "/tgt" "/cube/workspace"
          ("model", {| type := FILE; default := "data/model" |}) sync_examples.nested_world)
   = sync_examples.nested_world
   /\ quiet (fst (sync_input 0 "/tgt" "/cube/workspace"
                    ("model", {| type := FILE; default := "data/model" |})
                    sync_examples.nested_world)))
  /\ traced_copies (w_fs (snd (sync_workspace 0 "train" (traced sync_examples.nested_world))))
     = [("/cube/workspace/data", "/tgt/data")]
  /\ copies_since sync_examples.nested_cube "/tgt" []
       (traced_copies (w_fs (snd (sync_workspace 0 "train"
                                    (traced sync_examples.nested_world))))).
Proof.
  destruct (@task_output_not_copied memfs.t memfs_FileSystem 0 sync_examples.nested_cube)
    as (A & B & _).
  split; [| split].
  - apply (A "/tgt" "/cube/workspace" "model" {| type := FILE; default := "data/model" |}
             sync_examples.nested_world "train"
             {| parameters :=
                  {| inputs := [("data", {| type := DIRECTORY; default := "data" |});
                                ("model", {| type := FILE; default := "data/model" |})];
                     outputs := [("model", {| type := FILE; default := "data/model" |})] |} |}
             "model" {| type := FILE; default := "data/model" |}).
    + reflexivity.
    + left. reflexivity.
    + left. reflexivity.
    + reflexivity.
  - vm_compute. reflexivity.
  - exact (B "train" (traced sync_examples.nested_world) eq_refl).
Defined.

(** C4, as it is stated, fails: the input [model] has in the target
    workspace the path of the output [model], the artifact is in the source
    workspace and not in the target one, and after the call it is in the
    target workspace, brought there by the copy of the directory [data]. *)
Lemma declared_output_is_copied :
  _is_task_output 0 "/tgt" (posixpath.join "/tgt" "data/model") sync_examples.nested_world
  = (Ok true, sync_examples.nested_world)
  /\ memfs.lookup (w_fs sync_examples.nested_world) "/cube/workspace/data/model"
     = Some (memfs.File "old")
  /\ memfs.lookup (w_fs sync_examples.nested_world) "/tgt/data/model" = None
  /\ fst (sync_workspace 0 "train" sync_examples.nested_world) = Ok tt
  /\ memfs.lookup (w_fs (snd (sync_workspace 0 "train" sync_examples.nested_world)))
       "/tgt/data/model"
     = Some (memfs.File "old").
Proof. repeat split; vm_compute; reflexivity. Qed.



